(** * Ledger entries and expense payouts: a shallow embedding

    The development follows two source files of the API server:
    the [Transaction] model (ledger rows, [createDoubleEntry],
    [createFeesOnTopTransaction]) and the expense mutations
    ([updateExpenseStatus], [checkExpenseItems], [payExpense],
    [markExpenseAsUnpaid]).

    Conventions of the embedding.
    - A JavaScript number is an exact rational ([Q]); [NaN] and the
      infinities have no counterpart, and the places that can produce
      them (a division by a missing or zero [amountInHostCurrency], by a
      zero rate) are an explicit outcome of the model.
    - Sums and differences of amounts in cents are exact in the source
      as well.  A product or a quotient with a rate is an IEEE double
      there: when it is handed to [Math.round] and its exact value lies
      within a rounding error of a half, the source can round to the
      other neighbour than the model does.  Statements about such a
      value, for a rate other than 1, therefore bound it by half a
      unit around the exact product or quotient, which the source meets
      up to that error; they do not give it by an equation.
    - A property that may be [undefined] is an [option].
    - [async] code is sequential code in a state-and-exception monad over
      the database [World]; a rejected promise is a thrown exception.  A
      throw keeps the writes made before it (no rollback is modelled:
      the functions below open no database transaction around them). *)

From Stdlib Require Import ZArith QArith Qround Qabs Lqa Lia String List Bool.
From stdpp Require Import base option gmap.
Import ListNotations.

Local Open Scope Z_scope.
Local Open Scope string_scope.
Local Open Scope list_scope.

(** ** JavaScript numbers *)

Module JS.

(** [Math.round]: the nearest integer, ties towards +infinity, on the
    exact value of its argument. *)
Definition Math_round (x : Q) : Q := inject_Z (Qfloor (x + (1 # 2))).

Definition Math_abs (x : Q) : Q := Qabs x.

(** [x > y] and [x < y] on numbers. *)
Definition gt (x y : Q) : bool := negb (Qle_bool x y).
Definition lt (x y : Q) : bool := negb (Qle_bool y x).

(** Truthiness of a possibly undefined number: [undefined] and [0] are falsy. *)
Definition truthy (x : option Q) : bool :=
  match x with
  | Some v => negb (Qeq_bool v 0)
  | None => false
  end.

(** [x || d] on a possibly undefined number. *)
Definition or_else (x : option Q) (d : Q) : Q :=
  match x with
  | Some v => if Qeq_bool v 0 then d else v
  | None => d
  end.

End JS.

(** ** Exceptions and the monad of database code *)

Inductive ErrorClass :=
| PlainError | TypeError
| Unauthorized | FeatureNotAllowedForUser | ValidationFailed | NotFound | BadRequest.

(** Statuses of an expense: those of [constants/expense_status] that the
    mutations refer to. *)
Inductive ExpenseStatus := PENDING | APPROVED | REJECTED | PROCESSING | PAID.

(** A message is the template literal that builds it: literal text and the
    interpolated values, [formatCurrency] being left uninterpreted. *)
Inductive Fragment :=
| Lit (s : string)
| FormatCurrency (cents : Z) (currency : string)
| Interp (n : option Z)
| InterpStatus (s : ExpenseStatus)
| InterpText (s : string).

Record Exn := mkExn { class : ErrorClass; message : list Fragment }.

(** The third outcome marks a run that left the number model: the
    JavaScript code went on with [NaN] or an infinity. *)
Inductive Outcome (A : Type) :=
| Returned (a : A)
| Thrown (e : Exn)
| NonFinite.
Arguments Returned {A} a.
Arguments Thrown {A} e.
Arguments NonFinite {A}.

Definition M (W A : Type) : Type := W -> Outcome A * W.

Definition ret {W A} (a : A) : M W A := fun w => (Returned a, w).
Definition throw {W A} (c : ErrorClass) (m : list Fragment) : M W A :=
  fun w => (Thrown (mkExn c m), w).
Definition bind {W A B} (c : M W A) (k : A -> M W B) : M W B :=
  fun w =>
    match c w with
    | (Returned a, w') => k a w'
    | (Thrown e, w') => (Thrown e, w')
    | (NonFinite, w') => (NonFinite, w')
    end.
(** A query: reads the world, may be rejected, writes nothing. *)
Definition query {W A} (q : W -> Outcome A) : M W A := fun w => (q w, w).
Definition modify {W} (f : W -> W) : M W unit := fun w => (Returned tt, f w).
Definition nonFinite {W A} : M W A := fun w => (NonFinite, w).

Notation "'let*' x ':=' c 'in' k" := (bind c (fun x => k))
  (at level 10, x name, c at level 100, k at level 200).
Notation "'run' c 'in' k" := (bind c (fun _ => k))
  (at level 10, c at level 100, k at level 200).

(** ** Data model *)

Inductive TransactionType := CREDIT | DEBIT.

Record Collective := mkCollective {
  c_id : Z;
  c_currency : string;
  c_isActive : bool;
  c_HostCollectiveId : option Z;
}.

(** The [data] JSON payload: the keys the ledger code reads or writes. *)
Record TransactionData := mkData {
  isFeesOnTop : bool;
  oppositeTransactionCurrencyFxRate : option Q;
  hostToPlatformFxRate : option Q;
}.

Record Transaction := mkTransaction {
  id : option Z;
  type : option TransactionType;
  description : option string;
  amount : Q;
  currency : string;
  CreatedByUserId : option Z;
  FromCollectiveId : option Z;
  CollectiveId : option Z;
  HostCollectiveId : option Z;
  OrderId : option Z;
  ExpenseId : option Z;
  hostCurrency : option string;
  hostCurrencyFxRate : option Q;
  amountInHostCurrency : option Q;
  platformFeeInHostCurrency : option Q;
  hostFeeInHostCurrency : option Q;
  paymentProcessorFeeInHostCurrency : option Q;
  taxAmount : option Q;
  netAmountInCollectiveCurrency : option Q;
  data : option TransactionData;
  TransactionGroup : option nat;
  createdAt : option nat;
}.

(** Field updates of a ledger row: [transaction.field = value]. *)
Definition set_id (v : option Z) (t : Transaction) : Transaction :=
  {|
    id := v;
    type := type t;
    description := description t;
    amount := amount t;
    currency := currency t;
    CreatedByUserId := CreatedByUserId t;
    FromCollectiveId := FromCollectiveId t;
    CollectiveId := CollectiveId t;
    HostCollectiveId := HostCollectiveId t;
    OrderId := OrderId t;
    ExpenseId := ExpenseId t;
    hostCurrency := hostCurrency t;
    hostCurrencyFxRate := hostCurrencyFxRate t;
    amountInHostCurrency := amountInHostCurrency t;
    platformFeeInHostCurrency := platformFeeInHostCurrency t;
    hostFeeInHostCurrency := hostFeeInHostCurrency t;
    paymentProcessorFeeInHostCurrency := paymentProcessorFeeInHostCurrency t;
    taxAmount := taxAmount t;
    netAmountInCollectiveCurrency := netAmountInCollectiveCurrency t;
    data := data t;
    TransactionGroup := TransactionGroup t;
    createdAt := createdAt t;
  |}.
Definition set_type (v : option TransactionType) (t : Transaction) : Transaction :=
  {|
    id := id t;
    type := v;
    description := description t;
    amount := amount t;
    currency := currency t;
    CreatedByUserId := CreatedByUserId t;
    FromCollectiveId := FromCollectiveId t;
    CollectiveId := CollectiveId t;
    HostCollectiveId := HostCollectiveId t;
    OrderId := OrderId t;
    ExpenseId := ExpenseId t;
    hostCurrency := hostCurrency t;
    hostCurrencyFxRate := hostCurrencyFxRate t;
    amountInHostCurrency := amountInHostCurrency t;
    platformFeeInHostCurrency := platformFeeInHostCurrency t;
    hostFeeInHostCurrency := hostFeeInHostCurrency t;
    paymentProcessorFeeInHostCurrency := paymentProcessorFeeInHostCurrency t;
    taxAmount := taxAmount t;
    netAmountInCollectiveCurrency := netAmountInCollectiveCurrency t;
    data := data t;
    TransactionGroup := TransactionGroup t;
    createdAt := createdAt t;
  |}.
Definition set_amount (v : Q) (t : Transaction) : Transaction :=
  {|
    id := id t;
    type := type t;
    description := description t;
    amount := v;
    currency := currency t;
    CreatedByUserId := CreatedByUserId t;
    FromCollectiveId := FromCollectiveId t;
    CollectiveId := CollectiveId t;
    HostCollectiveId := HostCollectiveId t;
    OrderId := OrderId t;
    ExpenseId := ExpenseId t;
    hostCurrency := hostCurrency t;
    hostCurrencyFxRate := hostCurrencyFxRate t;
    amountInHostCurrency := amountInHostCurrency t;
    platformFeeInHostCurrency := platformFeeInHostCurrency t;
    hostFeeInHostCurrency := hostFeeInHostCurrency t;
    paymentProcessorFeeInHostCurrency := paymentProcessorFeeInHostCurrency t;
    taxAmount := taxAmount t;
    netAmountInCollectiveCurrency := netAmountInCollectiveCurrency t;
    data := data t;
    TransactionGroup := TransactionGroup t;
    createdAt := createdAt t;
  |}.
Definition set_ExpenseId (v : option Z) (t : Transaction) : Transaction :=
  {|
    id := id t;
    type := type t;
    description := description t;
    amount := amount t;
    currency := currency t;
    CreatedByUserId := CreatedByUserId t;
    FromCollectiveId := FromCollectiveId t;
    CollectiveId := CollectiveId t;
    HostCollectiveId := HostCollectiveId t;
    OrderId := OrderId t;
    ExpenseId := v;
    hostCurrency := hostCurrency t;
    hostCurrencyFxRate := hostCurrencyFxRate t;
    amountInHostCurrency := amountInHostCurrency t;
    platformFeeInHostCurrency := platformFeeInHostCurrency t;
    hostFeeInHostCurrency := hostFeeInHostCurrency t;
    paymentProcessorFeeInHostCurrency := paymentProcessorFeeInHostCurrency t;
    taxAmount := taxAmount t;
    netAmountInCollectiveCurrency := netAmountInCollectiveCurrency t;
    data := data t;
    TransactionGroup := TransactionGroup t;
    createdAt := createdAt t;
  |}.
Definition set_hostCurrencyFxRate (v : option Q) (t : Transaction) : Transaction :=
  {|
    id := id t;
    type := type t;
    description := description t;
    amount := amount t;
    currency := currency t;
    CreatedByUserId := CreatedByUserId t;
    FromCollectiveId := FromCollectiveId t;
    CollectiveId := CollectiveId t;
    HostCollectiveId := HostCollectiveId t;
    OrderId := OrderId t;
    ExpenseId := ExpenseId t;
    hostCurrency := hostCurrency t;
    hostCurrencyFxRate := v;
    amountInHostCurrency := amountInHostCurrency t;
    platformFeeInHostCurrency := platformFeeInHostCurrency t;
    hostFeeInHostCurrency := hostFeeInHostCurrency t;
    paymentProcessorFeeInHostCurrency := paymentProcessorFeeInHostCurrency t;
    taxAmount := taxAmount t;
    netAmountInCollectiveCurrency := netAmountInCollectiveCurrency t;
    data := data t;
    TransactionGroup := TransactionGroup t;
    createdAt := createdAt t;
  |}.
Definition set_amountInHostCurrency (v : option Q) (t : Transaction) : Transaction :=
  {|
    id := id t;
    type := type t;
    description := description t;
    amount := amount t;
    currency := currency t;
    CreatedByUserId := CreatedByUserId t;
    FromCollectiveId := FromCollectiveId t;
    CollectiveId := CollectiveId t;
    HostCollectiveId := HostCollectiveId t;
    OrderId := OrderId t;
    ExpenseId := ExpenseId t;
    hostCurrency := hostCurrency t;
    hostCurrencyFxRate := hostCurrencyFxRate t;
    amountInHostCurrency := v;
    platformFeeInHostCurrency := platformFeeInHostCurrency t;
    hostFeeInHostCurrency := hostFeeInHostCurrency t;
    paymentProcessorFeeInHostCurrency := paymentProcessorFeeInHostCurrency t;
    taxAmount := taxAmount t;
    netAmountInCollectiveCurrency := netAmountInCollectiveCurrency t;
    data := data t;
    TransactionGroup := TransactionGroup t;
    createdAt := createdAt t;
  |}.
Definition set_platformFeeInHostCurrency (v : option Q) (t : Transaction) : Transaction :=
  {|
    id := id t;
    type := type t;
    description := description t;
    amount := amount t;
    currency := currency t;
    CreatedByUserId := CreatedByUserId t;
    FromCollectiveId := FromCollectiveId t;
    CollectiveId := CollectiveId t;
    HostCollectiveId := HostCollectiveId t;
    OrderId := OrderId t;
    ExpenseId := ExpenseId t;
    hostCurrency := hostCurrency t;
    hostCurrencyFxRate := hostCurrencyFxRate t;
    amountInHostCurrency := amountInHostCurrency t;
    platformFeeInHostCurrency := v;
    hostFeeInHostCurrency := hostFeeInHostCurrency t;
    paymentProcessorFeeInHostCurrency := paymentProcessorFeeInHostCurrency t;
    taxAmount := taxAmount t;
    netAmountInCollectiveCurrency := netAmountInCollectiveCurrency t;
    data := data t;
    TransactionGroup := TransactionGroup t;
    createdAt := createdAt t;
  |}.
Definition set_paymentProcessorFeeInHostCurrency (v : option Q) (t : Transaction) : Transaction :=
  {|
    id := id t;
    type := type t;
    description := description t;
    amount := amount t;
    currency := currency t;
    CreatedByUserId := CreatedByUserId t;
    FromCollectiveId := FromCollectiveId t;
    CollectiveId := CollectiveId t;
    HostCollectiveId := HostCollectiveId t;
    OrderId := OrderId t;
    ExpenseId := ExpenseId t;
    hostCurrency := hostCurrency t;
    hostCurrencyFxRate := hostCurrencyFxRate t;
    amountInHostCurrency := amountInHostCurrency t;
    platformFeeInHostCurrency := platformFeeInHostCurrency t;
    hostFeeInHostCurrency := hostFeeInHostCurrency t;
    paymentProcessorFeeInHostCurrency := v;
    taxAmount := taxAmount t;
    netAmountInCollectiveCurrency := netAmountInCollectiveCurrency t;
    data := data t;
    TransactionGroup := TransactionGroup t;
    createdAt := createdAt t;
  |}.
Definition set_netAmountInCollectiveCurrency (v : option Q) (t : Transaction) : Transaction :=
  {|
    id := id t;
    type := type t;
    description := description t;
    amount := amount t;
    currency := currency t;
    CreatedByUserId := CreatedByUserId t;
    FromCollectiveId := FromCollectiveId t;
    CollectiveId := CollectiveId t;
    HostCollectiveId := HostCollectiveId t;
    OrderId := OrderId t;
    ExpenseId := ExpenseId t;
    hostCurrency := hostCurrency t;
    hostCurrencyFxRate := hostCurrencyFxRate t;
    amountInHostCurrency := amountInHostCurrency t;
    platformFeeInHostCurrency := platformFeeInHostCurrency t;
    hostFeeInHostCurrency := hostFeeInHostCurrency t;
    paymentProcessorFeeInHostCurrency := paymentProcessorFeeInHostCurrency t;
    taxAmount := taxAmount t;
    netAmountInCollectiveCurrency := v;
    data := data t;
    TransactionGroup := TransactionGroup t;
    createdAt := createdAt t;
  |}.
Definition set_data (v : option TransactionData) (t : Transaction) : Transaction :=
  {|
    id := id t;
    type := type t;
    description := description t;
    amount := amount t;
    currency := currency t;
    CreatedByUserId := CreatedByUserId t;
    FromCollectiveId := FromCollectiveId t;
    CollectiveId := CollectiveId t;
    HostCollectiveId := HostCollectiveId t;
    OrderId := OrderId t;
    ExpenseId := ExpenseId t;
    hostCurrency := hostCurrency t;
    hostCurrencyFxRate := hostCurrencyFxRate t;
    amountInHostCurrency := amountInHostCurrency t;
    platformFeeInHostCurrency := platformFeeInHostCurrency t;
    hostFeeInHostCurrency := hostFeeInHostCurrency t;
    paymentProcessorFeeInHostCurrency := paymentProcessorFeeInHostCurrency t;
    taxAmount := taxAmount t;
    netAmountInCollectiveCurrency := netAmountInCollectiveCurrency t;
    data := v;
    TransactionGroup := TransactionGroup t;
    createdAt := createdAt t;
  |}.
Definition set_TransactionGroup (v : option nat) (t : Transaction) : Transaction :=
  {|
    id := id t;
    type := type t;
    description := description t;
    amount := amount t;
    currency := currency t;
    CreatedByUserId := CreatedByUserId t;
    FromCollectiveId := FromCollectiveId t;
    CollectiveId := CollectiveId t;
    HostCollectiveId := HostCollectiveId t;
    OrderId := OrderId t;
    ExpenseId := ExpenseId t;
    hostCurrency := hostCurrency t;
    hostCurrencyFxRate := hostCurrencyFxRate t;
    amountInHostCurrency := amountInHostCurrency t;
    platformFeeInHostCurrency := platformFeeInHostCurrency t;
    hostFeeInHostCurrency := hostFeeInHostCurrency t;
    paymentProcessorFeeInHostCurrency := paymentProcessorFeeInHostCurrency t;
    taxAmount := taxAmount t;
    netAmountInCollectiveCurrency := netAmountInCollectiveCurrency t;
    data := data t;
    TransactionGroup := v;
    createdAt := createdAt t;
  |}.

(** Expenses and what the mutations read of their surroundings. *)
Record User := mkUser { u_id : Z }.

Record Req := mkReq { remoteUser : option User }.

(** The types of [constants/expense_type]; the mutations single out
    [RECEIPT]. *)
Inductive ExpenseType := RECEIPT | INVOICE | UNCLASSIFIED.

Record ExpenseItem := mkItem { item_amount : Z; item_url : option string }.

Record Expense := mkExpense {
  e_id : Z;
  status : ExpenseStatus;
  e_amount : Z;
  e_CollectiveId : Z;
  e_FromCollectiveId : Z;
  UserId : Z;
  legacyPayoutMethod : option string;
  PayoutMethodId : option Z;
  lastEditedById : option Z;
}.

(** The database: the tables the code reaches through the ORM's own
    [findByPk], [findOne], [create] and [update]. *)
Record World := mkWorld {
  Collectives : gmap Z Collective;
  Transactions : list Transaction;
  Expenses : gmap Z Expense;
  uuids : nat;
}.

(** ** The Transaction model (class methods) *)

(** [FEES_ON_TOP_TRANSACTION_PROPERTIES] of [constants/transactions]: the
    properties of the platform's own ledger rows.  Their values are a
    parameter of the model. *)
Record FeesOnTopProperties := mkFeesOnTopProperties {
  fot_CollectiveId : Z;
  fot_HostCollectiveId : Z;
  fot_hostCurrency : string;
  fot_currency : string;
}.

Module TransactionModel.
Section WithLibraries.
Local Open Scope Q_scope.

(** [lib/currency]: the rate from one currency to another at a date
    (a pinned-rate lookup). *)
Variable getFxRate : option string -> string -> option nat -> Q.
(** [lib/math]. *)
Variable toNegative : Q -> Q.
Variable FEES_ON_TOP_TRANSACTION_PROPERTIES : FeesOnTopProperties.

Definition typeOf (amount : Q) : TransactionType :=
  if JS.gt amount 0 then CREDIT else DEBIT.

(** [uuid()]. *)
Definition uuid : M World nat :=
  fun w => (Returned (uuids w),
            mkWorld (Collectives w) (Transactions w) (Expenses w) (S (uuids w))).

(** [models.Collective.findByPk]. *)
Definition Collective_findByPk (pk : option Z) : M World (option Collective) :=
  query (fun w => Returned (pk ≫= fun k => Collectives w !! k)).

(** [Transaction.create]: appends the row, which receives its primary
    key, and returns it.  The [afterCreate] hook starts
    [createActivity] without waiting for it and discards its errors.
    The key is the position of the row here, where the database takes
    it from a sequence; and the setter that puts [hostCurrency] in upper
    case is not applied.  No statement below depends on the value of a
    key or on the [hostCurrency] of a row that was created. *)
Definition create (t : Transaction) : M World Transaction :=
  fun w =>
    let row := set_id (Some (Z.of_nat (length (Transactions w)) + 1)%Z) t in
    (Returned row,
     mkWorld (Collectives w) (Transactions w ++ [row]) (Expenses w) (uuids w)).

(** The first four statements of [createDoubleEntry] and the rounding
    of [amountInHostCurrency]: the intent as it is after them. *)
Definition normalize (group : nat) (transaction : Transaction) : Transaction :=
  let transaction := set_type (Some (typeOf (amount transaction))) transaction in
  let transaction :=
    set_netAmountInCollectiveCurrency
      (Some (JS.or_else (netAmountInCollectiveCurrency transaction) (amount transaction)))
      transaction in
  let transaction := set_TransactionGroup (Some group) transaction in
  let transaction :=
    set_hostCurrencyFxRate (Some (JS.or_else (hostCurrencyFxRate transaction) 1)) transaction in
  match amountInHostCurrency transaction with
  | Some a => set_amountInHostCurrency (Some (JS.Math_round a)) transaction
  | None => transaction
  end.

(** The value of a field that [normalize] has set. *)
Definition the (x : option Q) : Q := default 0 x.

(** [oppositeTransaction], for an intent already normalized.  An object
    spread [{ ...object, field: value }] is the record of the object's
    fields with the listed ones replaced. *)
Definition oppositeOf (transaction : Transaction) (fromCollective : Collective)
  : Transaction :=
  let net := the (netAmountInCollectiveCurrency transaction) in
  let oppositeTransaction :=
    {|
      id := id transaction;
      type := Some (typeOf (- amount transaction));
      description := description transaction;
      amount := amount transaction;
      currency := currency transaction;
      CreatedByUserId := CreatedByUserId transaction;
      FromCollectiveId := CollectiveId transaction;
      CollectiveId := FromCollectiveId transaction;
      HostCollectiveId := HostCollectiveId transaction;
      OrderId := OrderId transaction;
      ExpenseId := ExpenseId transaction;
      hostCurrency := hostCurrency transaction;
      hostCurrencyFxRate := hostCurrencyFxRate transaction;
      amountInHostCurrency :=
        Some (JS.Math_round (- net * the (hostCurrencyFxRate transaction)));
      platformFeeInHostCurrency := platformFeeInHostCurrency transaction;
      hostFeeInHostCurrency := hostFeeInHostCurrency transaction;
      paymentProcessorFeeInHostCurrency :=
        paymentProcessorFeeInHostCurrency transaction;
      taxAmount := taxAmount transaction;
      netAmountInCollectiveCurrency := netAmountInCollectiveCurrency transaction;
      data := data transaction;
      TransactionGroup := TransactionGroup transaction;
      createdAt := createdAt transaction;
    |} in
  if negb (c_isActive fromCollective) then
    {|
      id := id oppositeTransaction;
      type := type oppositeTransaction;
      description := description oppositeTransaction;
      amount := - net;
      currency := currency oppositeTransaction;
      CreatedByUserId := CreatedByUserId oppositeTransaction;
      FromCollectiveId := FromCollectiveId oppositeTransaction;
      CollectiveId := CollectiveId oppositeTransaction;
      HostCollectiveId := None;
      OrderId := OrderId oppositeTransaction;
      ExpenseId := ExpenseId oppositeTransaction;
      hostCurrency := hostCurrency oppositeTransaction;
      hostCurrencyFxRate := hostCurrencyFxRate oppositeTransaction;
      amountInHostCurrency := amountInHostCurrency oppositeTransaction;
      platformFeeInHostCurrency := platformFeeInHostCurrency oppositeTransaction;
      hostFeeInHostCurrency := hostFeeInHostCurrency oppositeTransaction;
      paymentProcessorFeeInHostCurrency := paymentProcessorFeeInHostCurrency oppositeTransaction;
      taxAmount := taxAmount oppositeTransaction;
      netAmountInCollectiveCurrency := Some (- amount transaction);
      data := data oppositeTransaction;
      TransactionGroup := TransactionGroup oppositeTransaction;
      createdAt := createdAt oppositeTransaction;
    |}
  else
    let oppositeTransactionCurrencyFxRate :=
      getFxRate (Some (currency transaction)) (c_currency fromCollective)
        (createdAt transaction) in
    {|
      id := id oppositeTransaction;
      type := type oppositeTransaction;
      description := description oppositeTransaction;
      amount := - JS.Math_round (net * oppositeTransactionCurrencyFxRate);
      currency := c_currency fromCollective;
      CreatedByUserId := CreatedByUserId oppositeTransaction;
      FromCollectiveId := FromCollectiveId oppositeTransaction;
      CollectiveId := CollectiveId oppositeTransaction;
      HostCollectiveId := c_HostCollectiveId fromCollective;
      OrderId := OrderId oppositeTransaction;
      ExpenseId := ExpenseId oppositeTransaction;
      hostCurrency := hostCurrency oppositeTransaction;
      hostCurrencyFxRate := hostCurrencyFxRate oppositeTransaction;
      amountInHostCurrency := amountInHostCurrency oppositeTransaction;
      platformFeeInHostCurrency := platformFeeInHostCurrency oppositeTransaction;
      hostFeeInHostCurrency := hostFeeInHostCurrency oppositeTransaction;
      paymentProcessorFeeInHostCurrency := paymentProcessorFeeInHostCurrency oppositeTransaction;
      taxAmount := taxAmount oppositeTransaction;
      netAmountInCollectiveCurrency :=
        Some (- JS.Math_round (amount transaction * oppositeTransactionCurrencyFxRate));
      data :=
        Some {| isFeesOnTop := from_option isFeesOnTop false (data transaction);
                oppositeTransactionCurrencyFxRate := Some oppositeTransactionCurrencyFxRate;
                hostToPlatformFxRate := data transaction ≫= hostToPlatformFxRate |};
      TransactionGroup := TransactionGroup oppositeTransaction;
      createdAt := createdAt oppositeTransaction;
    |}.

(** [Transaction.createDoubleEntry].  Reading [isActive] of a
    collective that was not found is a [TypeError]. *)
Definition createDoubleEntry (transaction : Transaction) : M World Transaction :=
  let* group := uuid in
  let transaction := normalize group transaction in
  let* fromCollective := Collective_findByPk (FromCollectiveId transaction) in
  match fromCollective with
  | None => throw TypeError [Lit "Cannot read property 'isActive' of null"]
  | Some fromCollective =>
      let oppositeTransaction := oppositeOf transaction fromCollective in
      if JS.lt (amount transaction) 0 then
        let* first := create transaction in
        let* second := create oppositeTransaction in
        ret first
      else
        let* first := create oppositeTransaction in
        let* second := create transaction in
        ret second
  end.

(** The two rows that [createDoubleEntry] hands to [create], in the
    order of their creation, with the keys they receive in [w]. *)
Definition firstRow (t : Transaction) (fc : Collective) (w : World) : Transaction :=
  let p := normalize (uuids w) t in
  set_id (Some (Z.of_nat (length (Transactions w)) + 1)%Z)
    (if JS.lt (amount t) 0 then p else oppositeOf p fc).
Definition secondRow (t : Transaction) (fc : Collective) (w : World) : Transaction :=
  let p := normalize (uuids w) t in
  set_id (Some (Z.of_nat (length (Transactions w)) + 2)%Z)
    (if JS.lt (amount t) 0 then oppositeOf p fc else p).

(** [defaultsDeep({}, FEES_ON_TOP_TRANSACTION_PROPERTIES, {...}, transaction)]:
    a property keeps the first value given for it, the platform's
    properties first, then the computed ones, then the entry's own. *)
Definition donationOf (transaction : Transaction)
    (platformFee paymentProcessorFee platformCurrencyFxRate : Q) : Transaction :=
  let props := FEES_ON_TOP_TRANSACTION_PROPERTIES in
  {|
    id := id transaction;
    type := type transaction;
    description := Some "Financial contribution to Open Collective"%string;
    amount := JS.Math_round (JS.Math_abs platformFee * platformCurrencyFxRate);
    currency := fot_currency props;
    CreatedByUserId := CreatedByUserId transaction;
    FromCollectiveId := FromCollectiveId transaction;
    CollectiveId := Some (fot_CollectiveId props);
    HostCollectiveId := Some (fot_HostCollectiveId props);
    OrderId := OrderId transaction;
    ExpenseId := ExpenseId transaction;
    hostCurrency := Some (fot_hostCurrency props);
    hostCurrencyFxRate := Some 1;
    amountInHostCurrency :=
      Some (JS.Math_round (JS.Math_abs platformFee * platformCurrencyFxRate));
    platformFeeInHostCurrency := Some 0;
    hostFeeInHostCurrency := Some 0;
    paymentProcessorFeeInHostCurrency :=
      Some (JS.Math_round (paymentProcessorFee * platformCurrencyFxRate));
    taxAmount := taxAmount transaction;
    netAmountInCollectiveCurrency :=
      Some (JS.Math_round
            ((JS.Math_abs platformFee + paymentProcessorFee) * platformCurrencyFxRate));
    data :=
      Some {| isFeesOnTop := from_option isFeesOnTop false (data transaction);
              oppositeTransactionCurrencyFxRate :=
                data transaction ≫= oppositeTransactionCurrencyFxRate;
              hostToPlatformFxRate :=
                Some (getFxRate (hostCurrency transaction) (fot_currency props) None) |};
    TransactionGroup := TransactionGroup transaction;
    createdAt := createdAt transaction;
  |}.

(** The entry carries a fee on top: [transaction.data?.isFeesOnTop]. *)
Definition flagged (t : Transaction) : Prop :=
  exists d, data t = Some d /\ isFeesOnTop d = true.

(** [Transaction.createFeesOnTopTransaction].  A bare [return] yields
    [undefined], here [None].  With [amountInHostCurrency] missing or
    zero, or the processor fee missing, the source computes with [NaN]
    or an infinity: the model stops there with [NonFinite]. *)
Definition createFeesOnTopTransaction (transaction : Transaction)
  : M World (option Transaction) :=
  if negb (from_option isFeesOnTop false (data transaction)) then
    throw PlainError [Lit "This transaction does not have fees on top"]
  else if negb (JS.truthy (platformFeeInHostCurrency transaction)) then
    ret None
  else
    match platformFeeInHostCurrency transaction,
          amountInHostCurrency transaction,
          paymentProcessorFeeInHostCurrency transaction with
    | Some platformFee, Some amountInHost, Some processorFee =>
        if Qeq_bool amountInHost 0 then nonFinite
        else
          let platformFeeToDonationRate := JS.Math_abs (platformFee / amountInHost) in
          let paymentProcessorFee :=
            toNegative (JS.Math_round (processorFee * platformFeeToDonationRate)) in
          let platformCurrencyFxRate :=
            getFxRate (Some (currency transaction))
              (fot_currency FEES_ON_TOP_TRANSACTION_PROPERTIES) None in
          let donationTransaction :=
            donationOf transaction platformFee paymentProcessorFee platformCurrencyFxRate in
          run createDoubleEntry donationTransaction in
          (* Remove fees from main transaction *)
          let transaction :=
            set_paymentProcessorFeeInHostCurrency
              (Some (processorFee - paymentProcessorFee)) transaction in
          let transaction :=
            set_amountInHostCurrency (Some (amountInHost + platformFee)) transaction in
          let transaction :=
            set_amount
              (amount transaction
               + platformFee / JS.or_else (hostCurrencyFxRate transaction) 1)
              transaction in
          let transaction := set_platformFeeInHostCurrency (Some 0) transaction in
          ret (Some transaction)
    | _, _, _ => nonFinite
    end.

End WithLibraries.
End TransactionModel.

(** ** The expense mutations *)

Inductive PayoutMethodType := BANK_ACCOUNT | PAYPAL | ACCOUNT_BALANCE | OTHER.

Record PayoutMethod := mkPayoutMethod {
  pm_id : Z;
  pm_type : PayoutMethodType;
  pm_email : option string;
}.

Record PaymentMethod := mkPaymentMethod { pay_name : string; pay_token : string }.

Inductive ActivityType :=
| COLLECTIVE_EXPENSE_APPROVED | COLLECTIVE_EXPENSE_REJECTED | COLLECTIVE_EXPENSE_UNAPPROVED
| COLLECTIVE_EXPENSE_PAID | COLLECTIVE_EXPENSE_PROCESSING | COLLECTIVE_EXPENSE_MARKED_AS_UNPAID.

(** Payloads of the payout providers, never inspected here. *)
Definition Payload := nat.
Definition ConnectedAccount := nat.

(** The arguments of [payExpense]. *)
Record PayArgs := mkPayArgs {
  arg_id : Z;
  forceManual : bool;
  paymentProcessorFeeInCollectiveCurrency : option Z;
  hostFeeInCollectiveCurrency : option Z;
  platformFeeInCollectiveCurrency : option Z;
}.

(** What [checkExpenseItems] reads of [expenseData]. *)
Record ExpenseData := mkExpenseData {
  d_amount : option Z;
  d_type : option ExpenseType;
}.

(** What the mutations call outside their own file: permission checks,
    methods of the [Expense], [Collective] and [PaymentMethod] models,
    [lib/transactions], [lib/payments], [lib/plans] and the payment
    providers.  They are parameters of the model.  Queries read the
    database; actions may write to it and may fail. *)
Record Externals := mkExternals {
  canUseFeature : User -> bool;
  canUpdateExpenseStatus : Req -> Expense -> World -> bool;
  canPayExpense : Req -> Expense -> World -> bool;
  canMarkAsUnpaid : Req -> Expense -> World -> bool;
  createActivity : Expense -> ActivityType -> User -> M World unit;
  getHostCollective : Collective -> World -> option Collective;
  getBalance : Collective -> World -> Z;
  getFxRate : string -> string -> Q;
  getPayoutMethod : Expense -> World -> option PayoutMethod;
  getPayoutMethodTypeFromLegacy : Expense -> PayoutMethodType;
  getConnectedAccounts : Collective -> World -> list ConnectedAccount;
  getTemporaryQuote : ConnectedAccount -> option PayoutMethod -> Expense -> World -> Outcome Q;
  floatAmountToCents : Q -> Z;
  paypalFees : Z -> string -> Collective -> World -> Outcome Z;
  getPaymentMethod : Collective -> World -> option PaymentMethod;
  createTransactionFromPaidExpense :
    Collective -> option PaymentMethod -> Expense -> option Payload -> Z ->
    Z -> Z -> Z -> option Payload -> M World unit;
  paypalPay : Collective -> Expense -> option string -> string -> M World Payload;
  updateBalance : PaymentMethod -> M World unit;
  setPaid : Expense -> Z -> M World Expense;
  setProcessing : Expense -> Z -> M World Expense;
  handleTransferwisePayoutsLimit : Collective -> M World unit;
  transferwisePayExpense : ConnectedAccount -> option PayoutMethod -> Expense -> M World Payload;
  getUser : Expense -> World -> option User;
  addUserWithRole : Collective -> option User -> M World unit;
  createRefundTransaction : option Transaction -> option Q -> option User -> M World Transaction;
  associateTransactionRefundId : option Transaction -> Transaction -> M World unit;
}.

Module Expenses.
Section WithExternals.

Variable ext : Externals.

(** The keys of [statuses]. *)
Definition statusOfKey (key : string) : option ExpenseStatus :=
  if String.eqb key "PENDING" then Some PENDING
  else if String.eqb key "APPROVED" then Some APPROVED
  else if String.eqb key "REJECTED" then Some REJECTED
  else if String.eqb key "PROCESSING" then Some PROCESSING
  else if String.eqb key "PAID" then Some PAID
  else None.

Definition status_eqb (a b : ExpenseStatus) : bool :=
  match a, b with
  | PENDING, PENDING | APPROVED, APPROVED | REJECTED, REJECTED
  | PROCESSING, PROCESSING | PAID, PAID => true
  | _, _ => false
  end.

(** [models.Expense.findByPk]. *)
Definition Expense_findByPk (pk : Z) : M World (option Expense) :=
  query (fun w => Returned (Expenses w !! pk)).

(** [expense.update({ status, lastEditedById })]. *)
Definition Expense_update (expense : Expense) (st : ExpenseStatus) (editor : Z)
  : M World Expense :=
  fun w =>
    let updated :=
      mkExpense (e_id expense) st (e_amount expense) (e_CollectiveId expense)
        (e_FromCollectiveId expense) (UserId expense) (legacyPayoutMethod expense)
        (PayoutMethodId expense) (Some editor) in
    (Returned updated,
     mkWorld (Collectives w) (Transactions w) (<[e_id expense := updated]> (Expenses w))
       (uuids w)).

(** The collective loaded with the expense ([include]). *)
Definition collectiveOf (e : Expense) (w : World) : option Collective :=
  Collectives w !! e_CollectiveId e.
Definition fromCollectiveOf (e : Expense) (w : World) : option Collective :=
  Collectives w !! e_FromCollectiveId e.

Definition updateExpenseStatus (req : Req) (expenseId : Z) (status_ : string)
  : M World Expense :=
  match remoteUser req with
  | None =>
      throw Unauthorized [Lit "You need to be logged in to update the status of an expense"]
  | Some user =>
      if negb (canUseFeature ext user) then throw FeatureNotAllowedForUser []
      else
        match statusOfKey status_ with
        | None => throw ValidationFailed [Lit "Invalid status, status must be one of "]
        | Some target =>
            let* found := Expense_findByPk expenseId in
            match found with
            | None => throw Unauthorized [Lit "Expense not found"]
            | Some expense =>
                if status_eqb (status expense) PROCESSING then
                  throw Unauthorized
                    [Lit "You can't update the status of an expense being processed"]
                else
                  let* allowed := query (fun w => Returned (canUpdateExpenseStatus ext req expense w)) in
                  if negb allowed then
                    throw Unauthorized [Lit "You don't have permission to approve this expense"]
                  else if status_eqb (status expense) target then ret expense
                  else
                    let guard : M World unit :=
                      match target with
                      | APPROVED =>
                          if status_eqb (status expense) PAID then
                            throw Unauthorized
                              [Lit "You can't approve an expense that is already paid"]
                          else ret tt
                      | REJECTED =>
                          if status_eqb (status expense) PAID then
                            throw Unauthorized
                              [Lit "You can't reject an expense that is already paid"]
                          else ret tt
                      | PAID =>
                          if negb (status_eqb (status expense) APPROVED) then
                            throw Unauthorized
                              [Lit "The expense must be approved before you can set it to paid"]
                          else ret tt
                      | _ => ret tt
                      end in
                    run guard in
                    let* updatedExpense := Expense_update expense target (u_id user) in
                    run (match target with
                         | APPROVED => createActivity ext expense COLLECTIVE_EXPENSE_APPROVED user
                         | REJECTED => createActivity ext expense COLLECTIVE_EXPENSE_REJECTED user
                         | PENDING => createActivity ext expense COLLECTIVE_EXPENSE_UNAPPROVED user
                         | _ => ret tt
                         end) in
                    ret updatedExpense
            end
        end
  end.

(** Compute the total amount of expense from expense items. *)
Definition getTotalAmountFromItems (items : option (list ExpenseItem)) : Z :=
  match items with
  | None => 0
  | Some items => fold_left (fun total item => total + item_amount item) items 0
  end.

Definition isReceipt (t : option ExpenseType) : bool :=
  match t with
  | Some RECEIPT => true
  | _ => false
  end.

(** Truthiness of [a.url]: neither missing nor the empty string. *)
Definition hasUrl (a : ExpenseItem) : bool :=
  match item_url a with
  | Some EmptyString | None => false
  | Some _ => true
  end.

(** Check expense's items values, throw if something's wrong. *)
Definition checkExpenseItems (expenseData : ExpenseData)
    (items : option (list ExpenseItem)) : Outcome unit :=
  match items with
  | None | Some [] =>
      Thrown (mkExn ValidationFailed [Lit "Your expense needs to have at least one item"])
  | Some l =>
      if Z.ltb 100 (Z.of_nat (length l)) then
        Thrown (mkExn ValidationFailed [Lit "Expenses cannot have more than 100 items"])
      else
        let sumItems := getTotalAmountFromItems items in
        if negb (from_option (Z.eqb sumItems) false (d_amount expenseData)) then
          Thrown (mkExn ValidationFailed
            [Lit "The sum of all items must be equal to the total expense's amount. Expense's total is ";
             Interp (d_amount expenseData);
             Lit ", but the total of items was ";
             Interp (Some sumItems);
             Lit "."])
        else if Z.eqb sumItems 0 then
          Thrown (mkExn ValidationFailed [Lit "The sum of all items must be above 0"])
        else if isReceipt (d_type expenseData) && existsb (fun a => negb (hasUrl a)) l
        then Thrown (mkExn ValidationFailed [Lit "Some items are missing a file"])
        else Returned tt
  end.

(** [try { c } catch (err) { h err }]. *)
Definition try_catch {A} (c : M World A) (h : Exn -> M World A) : M World A :=
  fun w =>
    match c w with
    | (Thrown e, w') => h e w'
    | r => r
    end.

(** A promise that is started and not awaited: its writes happen, its
    result and its failure are dropped. *)
Definition detached {A} (c : M World A) : M World unit :=
  fun w => (Returned tt, snd (c w)).

(** [Math.round] of a number stored in an integer column, on the exact
    value of its argument. *)
Definition roundZ (x : Q) : Z := Qfloor (x + (1 # 2)).

Definition doubleQuote : string := String (Ascii.ascii_of_nat 34) EmptyString.

Definition payoutTypeName (t : PayoutMethodType) : string :=
  match t with
  | BANK_ACCOUNT => "BANK_ACCOUNT"
  | PAYPAL => "PAYPAL"
  | ACCOUNT_BALANCE => "ACCOUNT_BALANCE"
  | OTHER => "OTHER"
  end.

Definition isBankAccount (t : PayoutMethodType) : bool :=
  match t with BANK_ACCOUNT => true | _ => false end.
Definition isPaypal (t : PayoutMethodType) : bool :=
  match t with PAYPAL => true | _ => false end.

(** [feesInHostCurrency]. *)
Record HostFees := mkHostFees {
  paymentProcessorFee : Z;
  hostFee : Z;
  platformFee : Z;
}.

(** Helper that finishes the process of paying an expense. *)
Definition markExpenseAsPaid (expense : Expense) (collective : Collective)
    (remoteUser : User) : M World Expense :=
  let* expense := setPaid ext expense (u_id remoteUser) in
  let* contributor := query (fun w => Returned (getUser ext expense w)) in
  run detached (addUserWithRole ext collective contributor) in
  run createActivity ext expense COLLECTIVE_EXPENSE_PAID remoteUser in
  ret expense.

Definition createTransactions (host : Collective) (expense : Expense) (fees : HostFees)
    (data : option Payload) : M World unit :=
  createTransactionFromPaidExpense ext host None expense None (UserId expense)
    (paymentProcessorFee fees) (hostFee fees) (platformFee fees) data.

Definition mentions (needle : string) (m : list Fragment) : bool :=
  existsb (fun f =>
             match f with
             | Lit s | InterpText s =>
                 match String.index 0 needle s with Some _ => true | None => false end
             | _ => false
             end) m.

Definition payExpenseWithPayPal (remoteUser : User) (expense : Expense)
    (collective host : Collective) (paymentMethod : PaymentMethod)
    (toPaypalEmail : option string) (fees : HostFees) : M World unit :=
  try_catch
    (let* paymentResponse :=
       paypalPay ext collective expense toPaypalEmail (pay_token paymentMethod) in
     run createTransactionFromPaidExpense ext host (Some paymentMethod) expense
           (Some paymentResponse) (UserId expense)
           (paymentProcessorFee fees) (hostFee fees) (platformFee fees) None in
     run detached (setPaid ext expense (u_id remoteUser)) in
     updateBalance ext paymentMethod)
    (fun err =>
       if mentions
            "The total amount of all payments exceeds the maximum total amount for all payments"
            (message err)
       then throw ValidationFailed
              [Lit "Not enough funds in your existing Paypal preapproval. Please refill your PayPal payment balance."]
       else throw BadRequest (message err)).

Definition payExpenseWithTransferwise (host : Collective)
    (payoutMethod : option PayoutMethod) (expense : Expense) (fees : HostFees)
    (remoteUser : User) : M World unit :=
  let* accounts := query (fun w => Returned (getConnectedAccounts ext host w)) in
  match accounts with
  | [] => throw PlainError [Lit "Host is not connected to Transferwise"]
  | connectedAccount :: _ =>
      run handleTransferwisePayoutsLimit ext host in
      let* data := transferwisePayExpense ext connectedAccount payoutMethod expense in
      run createTransactions host expense fees (Some data) in
      createActivity ext expense COLLECTIVE_EXPENSE_PROCESSING remoteUser
  end.

(** The estimate of the processor's fee, in the collective's currency
    ([fees.paymentProcessorFeeInCollectiveCurrency] after the two
    provider branches). *)
Definition estimateProcessorFee (args : PayArgs) (expense : Expense)
    (collective host : Collective) (fxrate : Q) (payoutMethod : option PayoutMethod)
    (payoutMethodType : PayoutMethodType) : M World (option Z) :=
  if isBankAccount payoutMethodType && negb (forceManual args) then
    let* accounts := query (fun w => Returned (getConnectedAccounts ext host w)) in
    match accounts with
    | [] => throw PlainError [Lit "Host is not connected to Transferwise"]
    | connectedAccount :: _ =>
        let* quoteFee := query (getTemporaryQuote ext connectedAccount payoutMethod expense) in
        if Qeq_bool fxrate 0 then nonFinite
        else ret (Some (floatAmountToCents ext (quoteFee / fxrate)))
    end
  else if isPaypal payoutMethodType && negb (forceManual args) then
    let* fee := query (paypalFees ext (e_amount expense) (c_currency collective) host) in
    ret (Some fee)
  else ret (paymentProcessorFeeInCollectiveCurrency args).

(** The payout itself, by payout method.  [true]: the expense is to be
    marked as paid; [false]: the early return of the bank transfer. *)
Definition payOut (args : PayArgs) (remoteUser : User) (expense : Expense)
    (collective host : Collective) (payoutMethod : option PayoutMethod)
    (payoutMethodType : PayoutMethodType) (feesInHostCurrency : HostFees)
  : M World bool :=
  let withoutProcessorFee :=
    mkHostFees 0 (hostFee feesInHostCurrency) (platformFee feesInHostCurrency) in
  match payoutMethodType with
  | PAYPAL =>
      match payoutMethod with
      | None => throw TypeError [Lit "Cannot read property 'data' of null"]
      | Some method =>
          let paypalEmail := pm_email method in
          let* paypalPaymentMethod :=
            query (fun w => Returned (getPaymentMethod ext host w)) in
          match paypalPaymentMethod with
          | Some paymentMethod =>
              if from_option (String.eqb (pay_name paymentMethod)) false paypalEmail then
                run createTransactions host expense withoutProcessorFee None in ret true
              else if forceManual args then
                run createTransactions host expense feesInHostCurrency None in ret true
              else
                run payExpenseWithPayPal remoteUser expense collective host paymentMethod
                      paypalEmail feesInHostCurrency in
                ret true
          | None =>
              if forceManual args then
                run createTransactions host expense feesInHostCurrency None in ret true
              else
                throw PlainError
                  [Lit "No Paypal account linked, please reconnect Paypal or pay manually"]
          end
      end
  | BANK_ACCOUNT =>
      if forceManual args then
        run createTransactions host expense withoutProcessorFee None in ret true
      else
        run payExpenseWithTransferwise host payoutMethod expense feesInHostCurrency
              remoteUser in
        ret false
  | ACCOUNT_BALANCE =>
      let* payee := query (fun w => Returned (fromCollectiveOf expense w)) in
      match payee with
      | None => throw TypeError [Lit "Cannot read property 'getHostCollective' of null"]
      | Some payee =>
          let* payeeHost := query (fun w => Returned (getHostCollective ext payee w)) in
          match payeeHost with
          | None =>
              throw PlainError
                [Lit "The payee needs to have an Host to able to be paid on its Open Collective balance."]
          | Some payeeHost =>
              if negb (Z.eqb (c_id host) (c_id payeeHost)) then
                throw PlainError
                  [Lit "The payee needs to be on the same Host than the payer to be paid on its Open Collective balance."]
              else
                run createTransactions host expense feesInHostCurrency None in ret true
          end
      end
  | OTHER =>
      match legacyPayoutMethod expense with
      | Some legacy =>
          if String.eqb legacy "manual" || String.eqb legacy "other" then
            run createTransactions host expense feesInHostCurrency None in ret true
          else ret true
      | None => ret true
      end
  end.

(** [expense.legacyPayoutMethod === 'donation']. *)
Definition isLegacyDonation (expense : Expense) : bool :=
  from_option (String.eqb "donation") false (legacyPayoutMethod expense).

(** Pay an expense based on the payout method defined in the Expense object. *)
Definition payExpense (req : Req) (args : PayArgs) : M World Expense :=
  let expenseId := arg_id args in
  match remoteUser req with
  | None => throw Unauthorized [Lit "You need to be logged in to pay an expense"]
  | Some remoteUser =>
  if negb (canUseFeature ext remoteUser) then throw FeatureNotAllowedForUser [] else
  let* found := Expense_findByPk expenseId in
  match found with
  | None => throw Unauthorized [Lit "Expense not found"]
  | Some expense =>
  if status_eqb (status expense) PAID then
    throw Unauthorized [Lit "Expense has already been paid"]
  else if status_eqb (status expense) PROCESSING then
    throw Unauthorized
      [Lit "Expense is currently being processed, this means someone already started the payment process"]
  else if negb (status_eqb (status expense) APPROVED) then
    throw Unauthorized
      [Lit "Expense needs to be approved. Current status of the expense: ";
       InterpStatus (status expense); Lit "."]
  else
  let* allowed := query (fun w => Returned (canPayExpense ext req expense w)) in
  if negb allowed then
    throw Unauthorized [Lit "You don't have permission to pay this expense"]
  else
  let* loaded := query (fun w => Returned (collectiveOf expense w)) in
  match loaded with
  | None => throw TypeError [Lit "Cannot read property 'getHostCollective' of null"]
  | Some collective =>
  let* host := query (fun w => Returned (getHostCollective ext collective w)) in
  if isLegacyDonation expense then
    throw PlainError
      [Lit (doubleQuote ++ "In kind" ++ doubleQuote ++ " donations are not supported anymore")%string]
  else
  let* balance := query (fun w => Returned (getBalance ext collective w)) in
  if Z.ltb balance (e_amount expense) then
    throw Unauthorized
      [Lit "You don't have enough funds to pay this expense. Current balance: ";
       FormatCurrency balance (c_currency collective);
       Lit ", Expense amount: ";
       FormatCurrency (e_amount expense) (c_currency collective)]
  else
  match host with
  | None => throw TypeError [Lit "Cannot read property 'currency' of null"]
  | Some host =>
  let fxrate := getFxRate ext (c_currency collective) (c_currency host) in
  let* payoutMethod := query (fun w => Returned (getPayoutMethod ext expense w)) in
  let payoutMethodType :=
    match payoutMethod with
    | Some method => pm_type method
    | None => getPayoutMethodTypeFromLegacy ext expense
    end in
  let* estimate :=
    estimateProcessorFee args expense collective host fxrate payoutMethod payoutMethodType in
  let feesInHostCurrency :=
    mkHostFees
      (roundZ (fxrate * inject_Z (default 0 estimate)))
      (roundZ (fxrate * inject_Z (default 0 (hostFeeInCollectiveCurrency args))))
      (roundZ (fxrate * inject_Z (default 0 (platformFeeInCollectiveCurrency args)))) in
  let processorFee := default 0 estimate in
  if Z.ltb balance (e_amount expense + processorFee) then
    throw PlainError
      [Lit "You don't have enough funds to cover for the fees of this payment method. Current balance: ";
       FormatCurrency balance (c_currency collective);
       Lit ", Expense amount: ";
       FormatCurrency (e_amount expense) (c_currency collective);
       Lit ", Estimated ";
       InterpText (payoutTypeName payoutMethodType);
       Lit " fees: ";
       FormatCurrency processorFee (c_currency collective)]
  else
  (* Pay expense based on chosen payout method *)
  let* toMark :=
    payOut args remoteUser expense collective host payoutMethod payoutMethodType
      feesInHostCurrency in
  if toMark then markExpenseAsPaid expense collective remoteUser
  else
    (* Early return, we'll only mark as Paid when the transaction completes. *)
    let* expense := setProcessing ext expense (u_id remoteUser) in
    ret expense
  end end end end.

(** [models.Transaction.findOne({ where: { ExpenseId } })]. *)
Definition Transaction_findOne (expenseId : Z) : M World (option Transaction) :=
  query (fun w =>
           Returned (List.find (fun t => from_option (Z.eqb expenseId) false (ExpenseId t))
                       (Transactions w))).

Definition markExpenseAsUnpaid (req : Req) (ExpenseId : Z) (processorFeeRefunded : bool)
  : M World Expense :=
  match remoteUser req with
  | None => throw Unauthorized [Lit "You need to be logged in to unpay an expense"]
  | Some remoteUser =>
  if negb (canUseFeature ext remoteUser) then throw FeatureNotAllowedForUser [] else
  let* found := Expense_findByPk ExpenseId in
  match found with
  | None => throw NotFound [Lit "No expense found"]
  | Some expense =>
  let* allowed := query (fun w => Returned (canMarkAsUnpaid ext req expense w)) in
  if negb allowed then
    throw Unauthorized [Lit "You don't have permission to mark this expense as unpaid"]
  else if negb (status_eqb (status expense) PAID) then
    throw Unauthorized [Lit "Expense has not been paid yet"]
  else
  let* transaction := Transaction_findOne ExpenseId in
  let* paymentProcessorFeeInHostCurrency :=
    if processorFeeRefunded then
      match transaction with
      | None =>
          throw TypeError
            [Lit "Cannot read property 'paymentProcessorFeeInHostCurrency' of null"]
      | Some t => ret (paymentProcessorFeeInHostCurrency t)
      end
    else ret (Some 0%Q) in
  let* user := query (fun w => Returned (getUser ext expense w)) in
  let* refundedTransaction :=
    createRefundTransaction ext transaction paymentProcessorFeeInHostCurrency user in
  run associateTransactionRefundId ext transaction refundedTransaction in
  let* updatedExpense := Expense_update expense APPROVED (u_id remoteUser) in
  run createActivity ext updatedExpense COLLECTIVE_EXPENSE_MARKED_AS_UNPAID remoteUser in
  ret updatedExpense
  end end.

(** The run does not return and leaves the database as it was. *)
Definition failsUnchanged {A} (c : M World A) (w : World) : Prop :=
  exists o, c w = (o, w) /\ forall a, o <> Returned a.

(** The payout method type that [payExpense] works with. *)
Definition payoutMethodTypeOf (expense : Expense) (w : World) : PayoutMethodType :=
  match getPayoutMethod ext expense w with
  | Some method => pm_type method
  | None => getPayoutMethodTypeFromLegacy ext expense
  end.

(** The estimate as [payExpense] obtains it for an expense of
    [collective] under [host]. *)
Definition estimateFor (args : PayArgs) (expense : Expense) (collective host : Collective)
  : M World (option Z) :=
  fun w =>
    estimateProcessorFee args expense collective host
      (getFxRate ext (c_currency collective) (c_currency host))
      (getPayoutMethod ext expense w) (payoutMethodTypeOf expense w) w.

End WithExternals.
End Expenses.

(** ** Concrete inputs *)

Module Fixtures.
Local Open Scope Q_scope.

(** A bare intent: an amount, a currency and the two parties. *)
Definition intent (amount : Q) (currency : string) (fromId toId : Z) : Transaction :=
  {| id := None; type := None; description := None;
     amount := amount; currency := currency;
     CreatedByUserId := None;
     FromCollectiveId := Some fromId; CollectiveId := Some toId;
     HostCollectiveId := None; OrderId := None; ExpenseId := None;
     hostCurrency := None; hostCurrencyFxRate := None; amountInHostCurrency := None;
     platformFeeInHostCurrency := None; hostFeeInHostCurrency := None;
     paymentProcessorFeeInHostCurrency := None; taxAmount := None;
     netAmountInCollectiveCurrency := None; data := None;
     TransactionGroup := None; createdAt := None |}.

Definition withNet (net : Q) (t : Transaction) : Transaction :=
  set_netAmountInCollectiveCurrency (Some net) t.

(** U1, a user account that is active under host 10, in US dollars. *)
Definition U1 : Collective := mkCollective 1 "USD" true (Some 10%Z).
(** U3, a user account that manages no balance of its own. *)
Definition U3 : Collective := mkCollective 3 "USD" false None.

(** C1, a collective in US dollars under host 10, and the host itself. *)
Definition C1 : Collective := mkCollective 2 "USD" true (Some 10%Z).
Definition Host : Collective := mkCollective 10 "USD" true (Some 10%Z).

(** Expenses of C1 submitted by U1, one in each status of interest. *)
Definition expense (id : Z) (st : ExpenseStatus) (amount : Z) : Expense :=
  mkExpense id st amount 2 1 1 (Some "manual") None None.

Definition world : World :=
  mkWorld
    (<[1%Z := U1]> (<[2%Z := C1]> (<[3%Z := U3]> (<[10%Z := Host]> ∅))))
    []
    (<[7%Z := expense 7 PAID 10000]>
       (<[8%Z := expense 8 PENDING 10000]>
          (<[9%Z := expense 9 APPROVED 10000]>
             (<[11%Z := expense 11 PROCESSING 10000]>
                (<[12%Z := expense 12 APPROVED 9950]> ∅)))))
    0.

Definition sameCurrency : option string -> string -> option nat -> Q :=
  fun _ _ _ => 1.
(** A rate of 0.007, yen to dollars. *)
Definition yenToDollar : option string -> string -> option nat -> Q :=
  fun _ _ _ => 7 # 1000.

(** An instance of [toNegative] of [lib/math]. *)
Definition toNegative (x : Q) : Q := if JS.gt x 0 then - x else x.

Definition platform : FeesOnTopProperties := mkFeesOnTopProperties 1 8686 "USD" "USD".

(** The expense paid out of collective C1 to user U1, processor fee 100. *)
Definition expensePayout : Transaction :=
  set_hostCurrencyFxRate (Some 1)
    (set_paymentProcessorFeeInHostCurrency (Some (-100 # 1))
       (intent (-1000 # 1) "USD" 1 2)).

(** A debit of 50 yen. *)
Definition smallYenDebit : Transaction := intent (-50 # 1) "JPY" 1 2.

(** Reals to dollars at 0.2, every other pair at 1. *)
Definition realToDollar : option string -> string -> option nat -> Q :=
  fun from to _ =>
    match from with
    | Some c => if String.eqb c "BRL" && String.eqb to "USD" then 1 # 5 else 1
    | None => 1
    end.

(** A contribution of 10000 from U1 to C1, with its amount in host
    currency, a platform fee and a processor fee of 300. *)
Definition contribution (unit : string) (fee : Q) : Transaction :=
  let base := intent (10000 # 1) unit 1 2 in
  {|
    id := id base;
    type := type base;
    description := description base;
    amount := amount base;
    currency := currency base;
    CreatedByUserId := CreatedByUserId base;
    FromCollectiveId := FromCollectiveId base;
    CollectiveId := CollectiveId base;
    HostCollectiveId := HostCollectiveId base;
    OrderId := OrderId base;
    ExpenseId := ExpenseId base;
    hostCurrency := hostCurrency base;
    hostCurrencyFxRate := hostCurrencyFxRate base;
    amountInHostCurrency := Some (10000 # 1);
    platformFeeInHostCurrency := Some fee;
    hostFeeInHostCurrency := Some 0;
    paymentProcessorFeeInHostCurrency := Some (-300 # 1);
    taxAmount := taxAmount base;
    netAmountInCollectiveCurrency := netAmountInCollectiveCurrency base;
    data := data base;
    TransactionGroup := TransactionGroup base;
    createdAt := createdAt base;
  |}.

(** The contribution flagged as carrying its platform fee on top. *)
Definition tipped (currency : string) (fee : Q) : Transaction :=
  set_data (Some {| isFeesOnTop := true;
                    oppositeTransactionCurrencyFxRate := None;
                    hostToPlatformFxRate := None |})
    (contribution currency fee).

(** The same contribution, not flagged. *)
Definition untipped : Transaction := contribution "USD" (-1000 # 1).

(** A host admin (user 1) and an ordinary user (user 2). *)
Definition admin : User := mkUser 1.
Definition visitor : User := mkUser 2.

Definition isAdmin (req : Req) : bool :=
  match remoteUser req with
  | Some u => Z.eqb (u_id u) 1
  | None => false
  end.

(** Stand-ins for the code outside the mutations: the admin may do
    everything, C1 holds 9999 cents, nothing is connected to a payout
    provider, and a ledger posting appends a bare row for the expense. *)
Definition services : Externals :=
  mkExternals
    (fun _ => true)
    (fun req _ _ => isAdmin req)
    (fun req _ _ => isAdmin req)
    (fun req _ _ => isAdmin req)
    (fun _ _ _ => ret tt)
    (fun c w => c_HostCollectiveId c ≫= fun h => Collectives w !! h)
    (fun c _ => if Z.eqb (c_id c) 2 then 9999%Z else 0%Z)
    (fun _ _ => 1)
    (fun _ _ => None)
    (fun _ => OTHER)
    (fun _ _ => [])
    (fun _ _ _ _ => Thrown (mkExn PlainError [Lit "No quote"]))
    (fun x => Qfloor (x * 100 + (1 # 2)))
    (fun _ _ _ _ => Returned 0%Z)
    (fun _ _ => None)
    (fun _ _ e _ _ _ _ _ _ =>
       modify (fun w =>
         mkWorld (Collectives w)
           (Transactions w
            ++ [set_ExpenseId (Some (e_id e)) (intent (- inject_Z (e_amount e)) "USD" 1 2)])
           (Expenses w) (uuids w)))
    (fun _ _ _ _ => ret 0%nat)
    (fun _ => ret tt)
    (fun e editor => Expenses.Expense_update e PAID editor)
    (fun e editor => Expenses.Expense_update e PROCESSING editor)
    (fun _ => ret tt)
    (fun _ _ _ => ret 0%nat)
    (fun _ _ => Some admin)
    (fun _ _ => ret tt)
    (fun _ _ _ => throw PlainError [Lit "Nothing to refund"])
    (fun _ _ => ret tt).

Definition asAdmin : Req := mkReq (Some admin).
Definition asVisitor : Req := mkReq (Some visitor).
Definition anonymous : Req := mkReq None.

(** Paying expense [id] by hand, with a processor fee given by the caller. *)
Definition payByHand (id : Z) (fee : option Z) : PayArgs :=
  mkPayArgs id true fee None None.

Definition invoiceOf5000 : ExpenseData := mkExpenseData (Some 5000%Z) (Some INVOICE).
Definition items (amounts : list Z) : list ExpenseItem :=
  map (fun a => mkItem a None) amounts.

End Fixtures.

(** ** More of the Transaction model *)

(** An order, as [creditHost] reads it; [platformFeePercent] is
    [data.platformFeePercent]. *)
Record Order := mkOrder {
  o_id : Z;
  totalAmount : Q;
  o_description : option string;
  o_currency : string;
  o_CollectiveId : Z;
  o_CreatedByUserId : option Z;
  platformFeePercent : option Q;
}.

(** The argument of [createFromPayload].  [PaymentMethodId] is not a
    column of the ledger rows modelled here and is left out. *)
Record TransactionPayload := mkTransactionPayload {
  p_CreatedByUserId : option Z;
  p_FromCollectiveId : option Z;
  p_CollectiveId : option Z;
  p_transaction : Transaction;
}.

(** A value in a cell of the CSV export. *)
Inductive Cell :=
| CellNumber (q : Q)
| CellText (s : string)
| CellDate (d : nat)
| CellNull
| CellUndefined
| CellNaN.

Module TransactionMore.
Section WithLibraries.
Import TransactionModel.
Local Open Scope Q_scope.

Variable getFxRate : option string -> string -> option nat -> Q.
Variable toNegative : Q -> Q.
Variable FEES_ON_TOP_TRANSACTION_PROPERTIES : FeesOnTopProperties.
(** [lib/payments]. *)
Variable calcFee : Q -> Q -> Q.
(** [collective.isHostAccount] and [collective.getHostCollectiveId()]. *)
Variable isHostAccount : Collective -> bool.
Variable getHostCollectiveId : Collective -> World -> option Z.

(** [x + y] on possibly undefined numbers: a missing operand gives
    [NaN], which is falsy like [undefined] and is [None] as well. *)
Definition plus (x y : option Q) : option Q :=
  match x, y with
  | Some a, Some b => Some (a + b)
  | _, _ => None
  end.

(** The getter [netAmountInHostCurrency]. *)
Definition netAmountInHostCurrency (this : Transaction) : option Q :=
  plus (plus (plus (amountInHostCurrency this) (paymentProcessorFeeInHostCurrency this))
          (platformFeeInHostCurrency this))
    (hostFeeInHostCurrency this).

(** The getter [amountSentToHostInHostCurrency]. *)
Definition amountSentToHostInHostCurrency (this : Transaction) : option Q :=
  plus (plus (amountInHostCurrency this) (paymentProcessorFeeInHostCurrency this))
    (platformFeeInHostCurrency this).

(** Truthiness of a key. *)
Definition truthyId (k : option Z) : bool :=
  match k with
  | Some z => negb (Z.eqb z 0)
  | None => false
  end.

(** The host that [createFromPayload] resolves for a collective:
    [collective.isHostAccount ? collective.id : await collective.getHostCollectiveId()]. *)
Definition resolvedHost (collective : Collective) (w : World) : option Z :=
  if isHostAccount collective then Some (c_id collective)
  else getHostCollectiveId collective w.

(** The statements of [createFromPayload] that attach the parties, the
    type and the signs of the fees.  [toNegative] of a missing fee is
    missing. *)
Definition attach (payload : TransactionPayload) (hostId : option Z)
    (transaction : Transaction) : Transaction :=
  {|
    id := id transaction;
    type := Some (typeOf (amount transaction));
    description := description transaction;
    amount := amount transaction;
    currency := currency transaction;
    CreatedByUserId := p_CreatedByUserId payload;
    FromCollectiveId := p_FromCollectiveId payload;
    CollectiveId := p_CollectiveId payload;
    HostCollectiveId :=
      if truthyId hostId then hostId else HostCollectiveId transaction;
    OrderId := OrderId transaction;
    ExpenseId := ExpenseId transaction;
    hostCurrency := hostCurrency transaction;
    hostCurrencyFxRate := hostCurrencyFxRate transaction;
    amountInHostCurrency := amountInHostCurrency transaction;
    platformFeeInHostCurrency := toNegative <$> platformFeeInHostCurrency transaction;
    hostFeeInHostCurrency := toNegative <$> hostFeeInHostCurrency transaction;
    paymentProcessorFeeInHostCurrency :=
      toNegative <$> paymentProcessorFeeInHostCurrency transaction;
    taxAmount := toNegative <$> taxAmount transaction;
    netAmountInCollectiveCurrency := netAmountInCollectiveCurrency transaction;
    data := data transaction;
    TransactionGroup := TransactionGroup transaction;
    createdAt := createdAt transaction;
  |}.

(** "populate netAmountInCollectiveCurrency for donations". *)
Definition populateNet (transaction : Transaction) : Transaction :=
  if JS.gt (amount transaction) 0 then
    let fees :=
      plus (plus (plus (Some (JS.or_else (taxAmount transaction) 0))
                    (platformFeeInHostCurrency transaction))
              (hostFeeInHostCurrency transaction))
        (paymentProcessorFeeInHostCurrency transaction) in
    let net := plus (amountInHostCurrency transaction) fees in
    let net :=
      if JS.truthy (hostCurrencyFxRate transaction) then
        (fun n => JS.Math_round (n / the (hostCurrencyFxRate transaction))) <$> net
      else net in
    set_netAmountInCollectiveCurrency net transaction
  else transaction.

(** [Transaction.createFromPayload]. *)
Definition createFromPayload (payload : TransactionPayload) : M World Transaction :=
  let transaction := p_transaction payload in
  if Qeq_bool (amount transaction) 0 then
    throw PlainError [Lit "transaction.amount cannot be null or zero"]
  else
    let* collective := Collective_findByPk (p_CollectiveId payload) in
    match collective with
    | None => throw TypeError [Lit "Cannot read property 'isHostAccount' of null"]
    | Some collective =>
        let* hostId :=
          if isHostAccount collective then ret (Some (c_id collective))
          else query (fun w => Returned (getHostCollectiveId collective w)) in
        if negb (truthyId hostId)
           && negb (truthyId (HostCollectiveId transaction)) then
          throw PlainError
            [Lit "Cannot create a transaction: collective id ";
             Interp (p_CollectiveId payload);
             Lit " doesn't have a host"]
        else
          let transaction := attach payload hostId transaction in
          (* Separate donation transaction and remove platformFee from the main transaction *)
          let* transaction :=
            if from_option isFeesOnTop false (data transaction)
               && JS.truthy (platformFeeInHostCurrency transaction) then
              let* split :=
                createFeesOnTopTransaction getFxRate toNegative
                  FEES_ON_TOP_TRANSACTION_PROPERTIES transaction in
              match split with
              | Some main => ret main
              | None => throw TypeError [Lit "Cannot read property 'amount' of undefined"]
              end
            else ret transaction in
          createDoubleEntry getFxRate (populateNet transaction)
    end.

(** [Transaction.creditHost]: the special case of a host adding funds
    to itself. *)
Definition creditHost (order : Order) (collective : Collective) : M World Transaction :=
  let amount := totalAmount order in
  let platformFeePercent := default 0 (platformFeePercent order) in
  let platformFee := calcFee (totalAmount order) platformFeePercent in
  let* group := uuid in
  create
    {|
      id := None;
      type := Some CREDIT;
      description := o_description order;
      amount := amount;
      currency := o_currency order;
      CreatedByUserId := o_CreatedByUserId order;
      FromCollectiveId := Some (o_CollectiveId order);
      CollectiveId := Some (o_CollectiveId order);
      HostCollectiveId := Some (c_id collective);
      OrderId := Some (o_id order);
      ExpenseId := None;
      hostCurrency := Some (c_currency collective);
      hostCurrencyFxRate := Some 1;
      amountInHostCurrency := Some amount;
      platformFeeInHostCurrency := Some (- platformFee);
      hostFeeInHostCurrency := Some 0;
      paymentProcessorFeeInHostCurrency := Some 0;
      taxAmount := None;
      netAmountInCollectiveCurrency := Some (amount - platformFee);
      data := None;
      TransactionGroup := Some group;
      createdAt := None;
    |}.

(** [lib/utils], [moment], [lib/sanitize-html], the lookup of a
    collective's slug and the conversion of a text or a date to a number. *)
Variable exportToCSV :
  list Transaction -> list string -> (string -> string) -> (string -> Cell -> Cell) -> string.
Variable formatDate : Cell -> Cell.
Variable stripHTML : Cell -> Cell.
Variable slugOf : Cell -> Cell.
Variable toNumber : Cell -> option Q.

Definition getColumnName (attr : string) : string :=
  if String.eqb attr "CollectiveId" then "collective"
  else if String.eqb attr "Expense.privateMessage" then "private note"
  else attr.

Definition cellTruthy (value : Cell) : bool :=
  match value with
  | CellNumber q => negb (Qeq_bool q 0)
  | CellText s => negb (String.eqb s "")
  | CellDate _ => true
  | CellNull | CellUndefined | CellNaN => false
  end.

(** [value / 100]. *)
Definition toUnits (value : Cell) : Cell :=
  match value with
  | CellNumber q => CellNumber (q / 100)
  | CellNull => CellNumber 0
  | CellUndefined | CellNaN => CellNaN
  | CellText _ | CellDate _ =>
      match toNumber value with
      | Some q => CellNumber (q / 100)
      | None => CellNaN
      end
  end.

Definition centsAttributes : list string :=
  [ "amount"; "netAmountInCollectiveCurrency"; "paymentProcessorFeeInHostCurrency";
    "hostFeeInHostCurrency"; "platformFeeInHostCurrency"; "netAmountInHostCurrency" ]%string.

Definition indexOf (attr : string) (l : list string) : bool :=
  existsb (String.eqb attr) l.

Definition processValue (attr : string) (value : Cell) : Cell :=
  if String.eqb attr "CollectiveId" then slugOf value
  else if String.eqb attr "createdAt" then formatDate value
  else if String.eqb attr "Expense.privateMessage" then
    if cellTruthy value then stripHTML value else value
  else if indexOf attr centsAttributes then toUnits value (* converts cents *)
  else value.

Definition attributes : list string :=
  [ "id"; "createdAt"; "type"; "CollectiveId"; "amount"; "currency"; "description";
    "netAmountInCollectiveCurrency"; "hostCurrency"; "hostCurrencyFxRate";
    "paymentProcessorFeeInHostCurrency"; "hostFeeInHostCurrency";
    "platformFeeInHostCurrency"; "netAmountInHostCurrency";
    "Expense.privateMessage" ]%string.

(** [attributes.splice(5, 0, 'taxAmount')]. *)
Definition splice5 (l : list string) (x : string) : list string :=
  firstn 5 l ++ x :: skipn 5 l.

Definition isEUR (c : option string) : bool :=
  match c with
  | Some s => String.eqb s "EUR"
  | None => false
  end.

(** The columns of the export: we only add tax amount for european hosts. *)
Definition csvAttributes (first : Transaction) : list string :=
  if isEUR (hostCurrency first) then splice5 attributes "taxAmount" else attributes.

(** [Transaction.exportCSV].  Reading [hostCurrency] of the first
    transaction of an empty list is a [TypeError]. *)
Definition exportCSV (transactions : list Transaction) : Outcome string :=
  match transactions with
  | [] => Thrown (mkExn TypeError [Lit "Cannot read property 'hostCurrency' of undefined"])
  | first :: _ =>
      Returned (exportToCSV transactions (csvAttributes first) getColumnName processValue)
  end.

End WithLibraries.
End TransactionMore.

(** ** More of the expense mutations *)

(** What [getItemsChanges] reads of the data of an edit. *)
Record ItemsData := mkItemsData {
  i_items : option (list ExpenseItem);
  i_attachments : option (list ExpenseItem);
  i_attachment : option string;
  i_amount : option Z;
}.

(** The [PayoutMethod] argument of an expense: its [id], if any. *)
Record PayoutMethodInput := mkPayoutMethodInput { in_id : option Z }.

(** What [getPayoutMethodFromExpenseData] reads of the data of an expense. *)
Record PayoutData := mkPayoutData {
  d_PayoutMethod : option PayoutMethodInput;
  d_payoutMethod : option string;
  d_paypalEmail : option string;
}.

(** The data handed to [PayoutMethod.getOrCreateFromData]. *)
Inductive PayoutMethodData :=
| FromInput (input : PayoutMethodInput)
| PaypalEmail (email : string).

Module ExpensesMore.
Section WithExternals.
Import Expenses.

Variable ext : Externals.
(** [ExpenseLib.canDeleteExpense]. *)
Variable canDeleteExpense : Req -> Expense -> World -> bool.
(** [models.ExpenseItem.findAll] for an expense and
    [models.ExpenseItem.diffDBEntries]. *)
Variable ExpenseItem_findAll : Z -> World -> list ExpenseItem.
Variable diffDBEntries :
  list ExpenseItem -> list ExpenseItem ->
  list ExpenseItem * list ExpenseItem * list ExpenseItem.
(** [models.PayoutMethod]: [findByPk], the [CollectiveId] column, the
    [paypal] scope for a collective, [getOrCreateFromData]; and
    [remoteUser.isAdmin]. *)
Variable PayoutMethod_findByPk : Z -> World -> option PayoutMethod.
Variable CollectiveIdOf : PayoutMethod -> Z.
Variable PayoutMethod_paypalOf : Z -> World -> list PayoutMethod.
Variable getOrCreateFromData :
  PayoutMethodData -> User -> Collective -> M World PayoutMethod.
Variable isAdmin : User -> Z -> bool.

(** The changes of status that the guards of [updateExpenseStatus] let
    through: not from PROCESSING, not to APPROVED or REJECTED from PAID,
    to PAID only from APPROVED. *)
Definition allowedTransition (from to : ExpenseStatus) : bool :=
  negb (status_eqb from PROCESSING)
  && match to with
     | APPROVED | REJECTED => negb (status_eqb from PAID)
     | PAID => status_eqb from APPROVED
     | PENDING | PROCESSING => true
     end.

(** The error of the guard that stops a change of status. *)
Definition transitionError (to : ExpenseStatus) : Exn :=
  match to with
  | APPROVED =>
      mkExn Unauthorized [Lit "You can't approve an expense that is already paid"]
  | REJECTED =>
      mkExn Unauthorized [Lit "You can't reject an expense that is already paid"]
  | _ =>
      mkExn Unauthorized [Lit "The expense must be approved before you can set it to paid"]
  end.

(** The sum of the amounts of some items. *)
Definition sumOf (l : list ExpenseItem) : Z := fold_right Z.add 0 (map item_amount l).

(** The expense as [expense.update({ status, lastEditedById })] leaves it. *)
Definition updatedTo (e : Expense) (st : ExpenseStatus) (editor : Z) : Expense :=
  mkExpense (e_id e) st (e_amount e) (e_CollectiveId e) (e_FromCollectiveId e) (UserId e)
    (legacyPayoutMethod e) (PayoutMethodId e) (Some editor).

(** Recording an activity succeeds and leaves the expenses and the
    ledger as they are. *)
Definition activitiesAreSideNotes (createActivity :
    Expense -> ActivityType -> User -> M World unit) : Prop :=
  forall e activity user w,
    exists w',
      createActivity e activity user w = (Returned tt, w')
      /\ Expenses w' = Expenses w
      /\ Transactions w' = Transactions w.

(** The activity that [updateExpenseStatus] records for a new status. *)
Definition activityOf (to : ExpenseStatus) : option ActivityType :=
  match to with
  | APPROVED => Some COLLECTIVE_EXPENSE_APPROVED
  | REJECTED => Some COLLECTIVE_EXPENSE_REJECTED
  | PENDING => Some COLLECTIVE_EXPENSE_UNAPPROVED
  | PAID | PROCESSING => None
  end.

(** The name of a status, its key in [statuses]. *)
Definition keyOf (st : ExpenseStatus) : string :=
  match st with
  | PENDING => "PENDING"
  | APPROVED => "APPROVED"
  | REJECTED => "REJECTED"
  | PROCESSING => "PROCESSING"
  | PAID => "PAID"
  end.

(** [expense.destroy()]: the row is marked as deleted and leaves the
    rows that the finders return. *)
Definition Expense_destroy (expense : Expense) : M World Expense :=
  fun w =>
    (Returned expense,
     mkWorld (Collectives w) (Transactions w) (delete (e_id expense) (Expenses w)) (uuids w)).

Definition deleteExpense (req : Req) (expenseId : Z) : M World Expense :=
  match remoteUser req with
  | None => throw Unauthorized [Lit "You need to be logged in to delete an expense"]
  | Some remoteUser =>
      if negb (canUseFeature ext remoteUser) then throw FeatureNotAllowedForUser []
      else
        let* found := Expense_findByPk expenseId in
        match found with
        | None => throw NotFound [Lit "Expense not found"]
        | Some expense =>
            let* allowed := query (fun w => Returned (canDeleteExpense req expense w)) in
            if negb allowed then
              throw Unauthorized
                [Lit "You don't have permission to delete this expense or it needs to be rejected before being deleted"]
            else
              let* res := Expense_destroy expense in
              ret res
        end
  end.

Definition textTruthy (s : option string) : bool :=
  match s with
  | Some EmptyString | None => false
  | Some _ => true
  end.

(** [x || y] on a possibly undefined integer. *)
Definition orZ (x : option Z) (d : Z) : Z :=
  match x with
  | Some v => if Z.eqb v 0 then d else v
  | None => d
  end.

(** Returns infos about the changes made to items. *)
Definition getItemsChanges (expense : Expense) (expenseData : ItemsData)
  : M World (bool * option (list ExpenseItem)
             * (list ExpenseItem * list ExpenseItem * list ExpenseItem)) :=
  let itemsData :=
    match i_items expenseData with
    | Some l => Some l
    | None => i_attachments expenseData
    end in
  if textTruthy (i_attachment expenseData) && bool_decide (is_Some itemsData) then
    throw ValidationFailed
      [Lit ("Fields " ++ doubleQuote ++ "attachment" ++ doubleQuote ++ " and "
            ++ doubleQuote ++ "attachments" ++ doubleQuote ++ "/" ++ doubleQuote
            ++ "items" ++ doubleQuote ++ " are exclusive, please use only one")%string]
  else
    let itemsData :=
      if textTruthy (i_attachment expenseData) then
        (* Convert legacy attachment param to new format *)
        Some [mkItem (orZ (i_amount expenseData) (e_amount expense))
                (i_attachment expenseData)]
      else itemsData in
    match itemsData with
    | Some l =>
        let* baseItems := query (fun w => Returned (ExpenseItem_findAll (e_id expense) w)) in
        let itemsDiff := diffDBEntries baseItems l in
        let hasItemChanges :=
          match itemsDiff with
          | (created, removed, updated) =>
              negb (Nat.eqb (length (created ++ removed ++ updated)) 0)
          end in
        ret (hasItemChanges, itemsData, itemsDiff)
    | None => ret (false, itemsData, ([], [], []))
    end.

Definition getPayoutMethodFromExpenseData (expenseData : PayoutData) (remoteUser : User)
    (fromCollective : Collective) : M World (option PayoutMethod) :=
  match d_PayoutMethod expenseData with
  | Some input =>
      match in_id input with
      | Some pk =>
          if Z.eqb pk 0 then
            let* pm := getOrCreateFromData (FromInput input) remoteUser fromCollective in
            ret (Some pm)
          else
            let* pm := query (fun w => Returned (PayoutMethod_findByPk pk w)) in
            match pm with
            | None =>
                throw PlainError
                  [Lit "This payout method does not exist or you don't have the permission to use it"]
            | Some pm =>
                if negb (isAdmin remoteUser (CollectiveIdOf pm)) then
                  throw PlainError
                    [Lit "This payout method does not exist or you don't have the permission to use it"]
                else if negb (Z.eqb (CollectiveIdOf pm) (c_id fromCollective)) then
                  throw PlainError [Lit "This payout method cannot be used for this collective"]
                else ret (Some pm)
            end
      | None =>
          let* pm := getOrCreateFromData (FromInput input) remoteUser fromCollective in
          ret (Some pm)
      end
  | None =>
      if from_option (String.eqb "paypal") false (d_payoutMethod expenseData) then
        (* @deprecated - Should use `PayoutMethod` argument *)
        match d_paypalEmail expenseData with
        | Some (String c rest as email) =>
            let* pm := getOrCreateFromData (PaypalEmail email) remoteUser fromCollective in
            ret (Some pm)
        | _ =>
            let* paypalPms :=
              query (fun w => Returned (PayoutMethod_paypalOf (c_id fromCollective) w)) in
            match paypalPms with
            | [] =>
                throw ValidationFailed
                  [Lit "No PayPal payout method configured for this account"]
            | [pm] => ret (Some pm)
            | _ =>
                (* Make sure we're not linking to a wrong PayPal account *)
                throw ValidationFailed
                  [Lit "Multiple PayPal payout method found for this account. Please select the one you want to use."]
            end
        end
      else ret None
  end.

End WithExternals.
End ExpensesMore.

(** ** The tier input of the GraphQL API *)

Record TierReferenceInput := mkTierReferenceInput {
  tier_id : option string;
  tier_legacyId : option Z;
}.

Module Inputs.
Section WithLibraries.
Import ExpensesMore.

(** The tiers and their loaders are outside the file: [idDecode] of
    [graphql/v2/identifiers], the loader of the request if there is one,
    and [models.Tier.findByPk]. *)
Variable Tier : Type.
Variable idDecode : string -> string -> Outcome Z.
Variable Tier_findByPk : Z -> World -> Outcome (option Tier).

(** Retrieves a tier. *)
Definition fetchTierWithReference (input : TierReferenceInput)
    (loaders : option (Z -> World -> Outcome (option Tier))) : M World Tier :=
  let loadTier id_ :=
    match loaders with
    | Some load => query (load id_)
    | None => query (Tier_findByPk id_)
    end in
  let* tier :=
    if textTruthy (tier_id input) then
      let* id_ := query (fun _ => idDecode (default "" (tier_id input)) "tier") in
      loadTier id_
    else
      match tier_legacyId input with
      | Some legacyId =>
          if Z.eqb legacyId 0 then throw PlainError [Lit "Please provide an id"]
          else loadTier legacyId
      | None => throw PlainError [Lit "Please provide an id"]
      end in
  match tier with
  | None => throw NotFound [Lit "Payment Method Not Found"]
  | Some tier => ret tier
  end.

End WithLibraries.
End Inputs.

(** ** Settings of a collective *)

(** A JSON value; the fields of an object in the order of their insertion. *)
#[local] Unset Elimination Schemes.
Inductive JsValue :=
| JNull
| JUndefined
| JBool (b : bool)
| JNumber (q : Q)
| JString (s : string)
| JArray (l : list JsValue)
| JObject (fields : list (string * JsValue)).
#[local] Set Elimination Schemes.

Module CollectiveLib.
Section WithLibraries.

(** [LibTaxes.checkVATNumberFormat(number).isValid] and the two values of
    [VAT_OPTIONS]. *)
Variable checkVATNumberFormat : JsValue -> bool.
Variable VAT_HOST VAT_OWN : string.

Definition truthy (v : JsValue) : bool :=
  match v with
  | JNull | JUndefined => false
  | JBool b => b
  | JNumber q => negb (Qeq_bool q 0)
  | JString s => negb (String.eqb s "")
  | JArray _ | JObject _ => true
  end.

(** [object[key]]. *)
Definition getField (key : string) (fields : list (string * JsValue)) : JsValue :=
  match List.find (fun p => String.eqb key (fst p)) fields with
  | Some p => snd p
  | None => JUndefined
  end.

Definition hasField (key : string) (fields : list (string * JsValue)) : bool :=
  existsb (fun p => String.eqb key (fst p)) fields.

(** [object[key] = value]: in place for a key that the object has, at the
    end otherwise. *)
Fixpoint setField (key : string) (value : JsValue) (fields : list (string * JsValue))
  : list (string * JsValue) :=
  match fields with
  | [] => [(key, value)]
  | p :: rest =>
      if String.eqb key (fst p) then (key, value) :: rest
      else p :: setField key value rest
  end.

(** [value[key]] for any value: only objects have the keys read here. *)
Definition property (key : string) (v : JsValue) : JsValue :=
  match v with
  | JObject fields => getField key fields
  | _ => JUndefined
  end.

(** [pick(value, keys)]. *)
Definition pick (v : JsValue) (keys : list string) : list (string * JsValue) :=
  match v with
  | JObject fields =>
      flat_map (fun k => if hasField k fields then [(k, getField k fields)] else []) keys
  | _ => []
  end.

Definition COLLECTIVE_SETTINGS_KEYS_LIST : list string :=
  [ "apply"; "bitcoin"; "categories"; "collectivePage"; "disableCustomContributions";
    "dismissedHelpMessages"; "editor"; "enableWebhooks"; "features"; "feesOnTop"; "fund";
    "githubOrg"; "githubOrgs"; "githubRepo"; "githubUsers"; "goals";
    "hideCreditCardPostalCode"; "hostCollective"; "hostFeePercent"; "HostId"; "invoice";
    "invoiceTitle"; "isHostCollective"; "lang"; "matchingFund"; "paymentMethods";
    "recommendedCollectives"; "style"; "superCollectiveTag"; "taxDeductibleDonations";
    "tos"; "twitter"; "VAT"; "virtualCardsMaxDailyCount"; "W9" ]%string.

Definition includes (l : list string) (key : string) : bool :=
  existsb (String.eqb key) l.

(** Whitelist the collective settings that can be updated.  The result
    and the keys for which a warning is logged; [None] is [null]. *)
Definition whitelistSettings (settings : option (list (string * JsValue)))
  : option (list (string * JsValue)) * list string :=
  match settings with
  | None => (None, [])
  | Some settings =>
      let preparedSettings := settings in
      let preparedSettings :=
        if truthy (getField "VAT" preparedSettings) then
          setField "VAT"
            (JObject (pick (getField "VAT" preparedSettings) ["number"; "type"]%string))
            preparedSettings
        else preparedSettings in
      (* Generate warnings for invalid settings *)
      (Some preparedSettings,
       filter (fun key => negb (includes COLLECTIVE_SETTINGS_KEYS_LIST key))
         (map fst settings))
  end.

Definition isObjectType (v : JsValue) : bool :=
  match v with
  | JObject _ | JArray _ | JNull => true
  | _ => false
  end.

Definition isText (v : JsValue) (s : string) : bool :=
  match v with
  | JString t => String.eqb t s
  | _ => false
  end.

(** Returns false if settings are valid or an error as string otherwise;
    [None] is [false]. *)
Definition validateSettings (settings : option (list (string * JsValue))) : option string :=
  match settings with
  | None => None
  | Some settings =>
      let VAT := getField "VAT" settings in
      if truthy VAT then
        if negb (isObjectType VAT) then Some "Invalid type for VAT settings"%string
        else if truthy (property "number" VAT)
                && negb (checkVATNumberFormat (property "number" VAT))
        then Some "Invalid VAT number"%string
        else if truthy (property "type" VAT)
                && negb (isText (property "type" VAT) VAT_HOST)
                && negb (isText (property "type" VAT) VAT_OWN)
        then Some "Invalid VAT configuration"%string
        else None
      else None
  end.

End WithLibraries.
End CollectiveLib.

(** ** More sample data *)

Module MoreFixtures.
Import Fixtures.
Local Open Scope Q_scope.

(** A second host, and U4, a user account that is active under it. *)
Definition OtherHost : Collective := mkCollective 20 "USD" true (Some 20%Z).
Definition U4 : Collective := mkCollective 4 "USD" true (Some 20%Z).

(** An approved expense of 5000 of C1, submitted by account [payee]. *)
Definition approved (id payee : Z) : Expense :=
  mkExpense id APPROVED 5000 2 payee 1 None None None.

(** The sample database with the second host, and with two approved
    expenses: 13 of U3, which has no host, and 14 of U4. *)
Definition town : World :=
  mkWorld
    (<[4%Z := U4]> (<[20%Z := OtherHost]> (Collectives world)))
    []
    (<[13%Z := approved 13 3]> (<[14%Z := approved 14 4]> (Expenses world)))
    0.

(** Instances of [isHostAccount] and [getHostCollectiveId]. *)
Definition isHost (c : Collective) : bool := Z.eqb (c_id c) 10 || Z.eqb (c_id c) 20.
Definition hostIdOf (c : Collective) (_ : World) : option Z := c_HostCollectiveId c.

(** A payload of user 1 for an intent between two accounts. *)
Definition payload (from to : Z) (t : Transaction) : TransactionPayload :=
  mkTransactionPayload (Some 1%Z) (Some from) (Some to) t.

(** The contribution of the samples with a host rate of 1. *)
Definition ratedContribution : Transaction :=
  set_hostCurrencyFxRate (Some 1) (contribution "USD" (1000 # 1)).

(** A row under a host in euros. *)
Definition euroRow : Transaction :=
  {| id := Some 1%Z; type := Some CREDIT; description := None;
     amount := 100 # 1; currency := "EUR";
     CreatedByUserId := None;
     FromCollectiveId := Some 1%Z; CollectiveId := Some 2%Z;
     HostCollectiveId := Some 10%Z; OrderId := None; ExpenseId := None;
     hostCurrency := Some "EUR"; hostCurrencyFxRate := Some 1;
     amountInHostCurrency := Some (100 # 1);
     platformFeeInHostCurrency := None; hostFeeInHostCurrency := None;
     paymentProcessorFeeInHostCurrency := None; taxAmount := Some (-21 # 1);
     netAmountInCollectiveCurrency := Some (100 # 1); data := None;
     TransactionGroup := None; createdAt := None |}.

(** Stand-ins for the CSV library. *)
Definition noCsv (_ : list Transaction) (_ : list string) (_ : string -> string)
    (_ : string -> Cell -> Cell) : string := EmptyString.
Definition sameCell (c : Cell) : Cell := c.
Definition noNumber (_ : Cell) : option Q := None.

(** The stand-ins of the samples, for expenses whose legacy payout
    method is of type [ty] and with [pay] as the PayPal payment. *)
Definition servicesWith (ty : PayoutMethodType) (pay : M World Payload) : Externals :=
  mkExternals
    (canUseFeature services)
    (canUpdateExpenseStatus services)
    (canPayExpense services)
    (canMarkAsUnpaid services)
    (createActivity services)
    (getHostCollective services)
    (getBalance services)
    (getFxRate services)
    (getPayoutMethod services)
    (fun _ => ty)
    (getConnectedAccounts services)
    (getTemporaryQuote services)
    (floatAmountToCents services)
    (paypalFees services)
    (getPaymentMethod services)
    (createTransactionFromPaidExpense services)
    (fun _ _ _ _ => pay)
    (updateBalance services)
    (setPaid services)
    (setProcessing services)
    (handleTransferwisePayoutsLimit services)
    (transferwisePayExpense services)
    (getUser services)
    (addUserWithRole services)
    (createRefundTransaction services)
    (associateTransactionRefundId services).

(** A PayPal payment that fails on the limit of the preapproval. *)
Definition overTheLimit : M World Payload :=
  throw PlainError
    [Lit "The total amount of all payments exceeds the maximum total amount for all payments allowed"].

Definition paypalAccount : PaymentMethod := mkPaymentMethod "paypal" "token".

(** An instance of [ExpenseLib.canDeleteExpense]: the admin may. *)
Definition adminDeletes (req : Req) (_ : Expense) (_ : World) : bool := isAdmin req.

(** No stored items, and a diff that reports every new item as created. *)
Definition noItems (_ : Z) (_ : World) : list ExpenseItem := [].
Definition allCreated (_ new : list ExpenseItem)
  : list ExpenseItem * list ExpenseItem * list ExpenseItem := (new, [], []).

(** One payout method, 5, a PayPal account of U1. *)
Definition paypalOfU1 : PayoutMethod := mkPayoutMethod 5 PAYPAL (Some "u1@example.org").
Definition findPayoutMethod (pk : Z) (_ : World) : option PayoutMethod :=
  if Z.eqb pk 5 then Some paypalOfU1 else None.
Definition ownerOf (_ : PayoutMethod) : Z := 1%Z.
Definition paypalMethodsOf (k : Z) (_ : World) : list PayoutMethod :=
  if Z.eqb k 1 then [paypalOfU1] else [].
Definition neverCreated (_ : PayoutMethodData) (_ : User) (_ : Collective)
  : M World PayoutMethod := throw PlainError [Lit "Not created"].
Definition adminOf (u : User) (k : Z) : bool := Z.eqb (u_id u) k.

(** Tiers as numbers: every id decodes to key 3, which holds tier 7. *)
Definition decodeTo3 (_ _ : string) : Outcome Z := Returned 3%Z.
Definition findTier (k : Z) (_ : World) : Outcome (option nat) :=
  Returned (if Z.eqb k 3 then Some 7%nat else None).

(** Settings with a VAT entry that has an extra key, and an unknown key. *)
Definition vatSettings : list (string * JsValue) :=
  [ ("VAT", JObject [("number", JString "BE0411905847"); ("extra", JBool true)]);
    ("color", JString "red") ]%string.

End MoreFixtures.

(** * Properties of the ledger code *)

Section LedgerFacts.
Import TransactionModel.
Local Open Scope Q_scope.

Variable getFxRate : option string -> string -> option nat -> Q.

Lemma gt_spec (x y : Q) : JS.gt x y = true <-> y < x.
Proof.
  unfold JS.gt. rewrite negb_true_iff, <- not_true_iff_false, Qle_bool_iff.
  split; [apply Qnot_le_lt | apply Qlt_not_le].
Qed.

Lemma lt_spec (x y : Q) : JS.lt x y = true <-> x < y.
Proof.
  unfold JS.lt. rewrite negb_true_iff, <- not_true_iff_false, Qle_bool_iff.
  split; [apply Qnot_le_lt | apply Qlt_not_le].
Qed.

Lemma typeOf_credit (a : Q) : typeOf a = CREDIT <-> 0 < a.
Proof.
  unfold typeOf. destruct (JS.gt a 0) eqn:E.
  - apply gt_spec in E. tauto.
  - split; [discriminate |]. intros H. apply gt_spec in H. congruence.
Qed.

Lemma typeOf_debit (a : Q) : typeOf a = DEBIT <-> ~ 0 < a.
Proof.
  rewrite <- typeOf_credit. destruct (typeOf a); split; congruence.
Qed.

(** [normalize] touches neither the parties nor the amount. *)
Lemma normalize_fields (g : nat) (t : Transaction) :
  amount (normalize g t) = amount t
  /\ currency (normalize g t) = currency t
  /\ FromCollectiveId (normalize g t) = FromCollectiveId t
  /\ CollectiveId (normalize g t) = CollectiveId t
  /\ createdAt (normalize g t) = createdAt t
  /\ type (normalize g t) = Some (typeOf (amount t))
  /\ netAmountInCollectiveCurrency (normalize g t)
     = Some (JS.or_else (netAmountInCollectiveCurrency t) (amount t))
  /\ hostCurrencyFxRate (normalize g t) = Some (JS.or_else (hostCurrencyFxRate t) 1)
  /\ TransactionGroup (normalize g t) = Some g.
Proof.
  unfold normalize; cbn. destruct (amountInHostCurrency t); cbn; repeat split.
Qed.

Lemma createDoubleEntry_run (t : Transaction) (w : World) (k : Z) (fc : Collective) :
  FromCollectiveId t = Some k ->
  Collectives w !! k = Some fc ->
  createDoubleEntry getFxRate t w =
    (Returned (if JS.lt (amount t) 0
               then firstRow getFxRate t fc w else secondRow getFxRate t fc w),
     mkWorld (Collectives w)
       (Transactions w ++ [firstRow getFxRate t fc w; secondRow getFxRate t fc w])
       (Expenses w) (S (uuids w))).
Proof.
  intros Hk Hfc.
  destruct (normalize_fields (uuids w) t) as (Ha & _ & Hf & _).
  unfold createDoubleEntry, bind, uuid, Collective_findByPk, query, firstRow, secondRow.
  cbn. rewrite Hf, Hk. cbn. rewrite Hfc, Ha.
  destruct (JS.lt (amount t) 0); unfold bind, create, ret; cbn;
    rewrite length_app, <- app_assoc; cbn;
    replace (Z.of_nat (length (Transactions w) + 1) + 1)%Z
      with (Z.of_nat (length (Transactions w)) + 2)%Z by lia; reflexivity.
Qed.

Lemma oppositeOf_type (p : Transaction) (fc : Collective) :
  type (oppositeOf getFxRate p fc) = Some (typeOf (- amount p)).
Proof. unfold oppositeOf. destruct (c_isActive fc); reflexivity. Qed.

Lemma oppositeOf_parties (p : Transaction) (fc : Collective) :
  CollectiveId (oppositeOf getFxRate p fc) = FromCollectiveId p
  /\ FromCollectiveId (oppositeOf getFxRate p fc) = CollectiveId p.
Proof. unfold oppositeOf. destruct (c_isActive fc); split; reflexivity. Qed.

Lemma oppositeOf_inactive (p : Transaction) (fc : Collective) :
  c_isActive fc = false ->
  currency (oppositeOf getFxRate p fc) = currency p
  /\ HostCollectiveId (oppositeOf getFxRate p fc) = None
  /\ amount (oppositeOf getFxRate p fc) = - the (netAmountInCollectiveCurrency p)
  /\ netAmountInCollectiveCurrency (oppositeOf getFxRate p fc) = Some (- amount p).
Proof. intros H. unfold oppositeOf. rewrite H. repeat split. Qed.

(** C1 (amended).  Of the two rows that [createDoubleEntry] writes, the
    primary one is a CREDIT exactly when its amount is strictly
    positive and a DEBIT otherwise.  The direction of the opposite row
    is taken from the primary amount: it is a CREDIT exactly when the
    primary amount is strictly negative.  It agrees with the sign of
    the opposite row's own amount when the from-collective is not
    active and the primary's net amount is negative exactly when its
    amount is. *)
Theorem C1_direction_of_created_entries
    (t : Transaction) (w : World) (k : Z) (fc : Collective) :
  FromCollectiveId t = Some k ->
  Collectives w !! k = Some fc ->
  exists primary opposite w',
    createDoubleEntry getFxRate t w = (Returned primary, w')
    /\ (Transactions w' = Transactions w ++ [primary; opposite]
        \/ Transactions w' = Transactions w ++ [opposite; primary])
    /\ CollectiveId primary = CollectiveId t
    /\ CollectiveId opposite = FromCollectiveId t
    /\ (type primary = Some CREDIT <-> 0 < amount primary)
    /\ (type primary = Some DEBIT <-> ~ 0 < amount primary)
    /\ (type opposite = Some CREDIT <-> amount primary < 0)
    /\ (type opposite = Some DEBIT <-> ~ amount primary < 0)
    /\ (c_isActive fc = false ->
        (the (netAmountInCollectiveCurrency primary) < 0 <-> amount primary < 0) ->
        (type opposite = Some CREDIT <-> 0 < amount opposite)).
Proof.
  intros Hk Hfc.
  pose proof (createDoubleEntry_run t w k fc Hk Hfc) as Hrun.
  destruct (normalize_fields (uuids w) t) as (Ha & _ & Hf & Hc & _ & Hty & Hnet & _).
  set (p := normalize (uuids w) t) in *.
  set (o := oppositeOf getFxRate p fc).
  assert (Hcredit : forall a : Q, Some (typeOf a) = Some CREDIT <-> 0 < a).
  { intros a. rewrite <- typeOf_credit. split; congruence. }
  assert (Hdebit : forall a : Q, Some (typeOf a) = Some DEBIT <-> ~ 0 < a).
  { intros a. rewrite <- typeOf_debit. split; congruence. }
  assert (Hneg : forall a : Q, 0 < - a <-> a < 0).
  { intros a. split; intros; lra. }
  assert (Hfacts : forall i j,
    CollectiveId (set_id i p) = CollectiveId t
    /\ CollectiveId (set_id j o) = FromCollectiveId t
    /\ (type (set_id i p) = Some CREDIT <-> 0 < amount (set_id i p))
    /\ (type (set_id i p) = Some DEBIT <-> ~ 0 < amount (set_id i p))
    /\ (type (set_id j o) = Some CREDIT <-> amount (set_id i p) < 0)
    /\ (type (set_id j o) = Some DEBIT <-> ~ amount (set_id i p) < 0)
    /\ (c_isActive fc = false ->
        (the (netAmountInCollectiveCurrency (set_id i p)) < 0 <-> amount (set_id i p) < 0) ->
        (type (set_id j o) = Some CREDIT <-> 0 < amount (set_id j o)))).
  { intros i j. cbn [set_id type amount CollectiveId netAmountInCollectiveCurrency].
    unfold o. rewrite oppositeOf_type.
    destruct (oppositeOf_parties p fc) as [Hoc _]. rewrite Hoc, Hc, Hf, Hty, Ha.
    rewrite Hcredit, !Hdebit, Hcredit, Hneg.
    do 6 (split; [tauto |]).
    intros Hin Hsign.
    destruct (oppositeOf_inactive p fc Hin) as (_ & _ & Hoa & _).
    rewrite Hoa, Hneg. tauto. }
  unfold firstRow, secondRow in Hrun. fold p o in Hrun.
  destruct (JS.lt (amount t) 0).
  - eexists _, _, _. split; [exact Hrun |]. split; [left; reflexivity |]. apply Hfacts.
  - eexists _, _, _. split; [exact Hrun |]. split; [right; reflexivity |]. apply Hfacts.
Qed.

Lemma Math_round_integer (z : Z) (x : Q) :
  x == inject_Z z -> JS.Math_round x = inject_Z z.
Proof.
  intros H. unfold JS.Math_round. f_equal.
  rewrite (Qfloor_comp _ (inject_Z z + (1 # 2))) by (rewrite H; reflexivity).
  assert (Hlo : (z <= Qfloor (inject_Z z + (1 # 2)))%Z).
  { rewrite <- (Qfloor_Z z) at 1. apply Qfloor_resp_le. lra. }
  assert (Hhi : (Qfloor (inject_Z z + (1 # 2)) < z + 1)%Z).
  { rewrite Zlt_Qlt. eapply Qle_lt_trans; [apply Qfloor_le |].
    rewrite inject_Z_plus. change (inject_Z 1) with 1. lra. }
  lia.
Qed.

(** [Math.round] is within a half of its argument. *)
Lemma Math_round_near (x : Q) :
  x - (1 # 2) < JS.Math_round x /\ JS.Math_round x <= x + (1 # 2).
Proof.
  unfold JS.Math_round. split.
  - pose proof (Qlt_floor (x + (1 # 2))) as H.
    rewrite inject_Z_plus in H. change (inject_Z 1) with 1 in H. lra.
  - apply Qfloor_le.
Qed.

(** C2 (amended).  For the intent [{amount: -1000, currency: USD,
    fromAccount: U1, toAccount: C1, fees: {paymentProcessor: -100}}]
    that also carries [netAmountInCollectiveCurrency = -1100], U1 being
    active and in the primary's currency, with a rate of 1 and
    [hostCurrencyFxRate = 1], [createDoubleEntry] writes a primary
    DEBIT row with amount -1000 and net amount -1100, then an opposite
    CREDIT row on U1's ledger with amount 1100 and net amount 1000. *)
Theorem C2_expense_payout_scenario
    (t : Transaction) (w : World) (u1 c1 : Z) (fc : Collective) :
  amount t = -1000 # 1 ->
  currency t = "USD"%string ->
  FromCollectiveId t = Some u1 ->
  CollectiveId t = Some c1 ->
  paymentProcessorFeeInHostCurrency t = Some (-100 # 1) ->
  netAmountInCollectiveCurrency t = Some (-1100 # 1) ->
  hostCurrencyFxRate t = Some 1 ->
  Collectives w !! u1 = Some fc ->
  c_isActive fc = true ->
  c_currency fc = "USD"%string ->
  getFxRate (Some "USD"%string) "USD"%string (createdAt t) == 1 ->
  exists primary opposite w',
    createDoubleEntry getFxRate t w = (Returned primary, w')
    /\ Transactions w' = Transactions w ++ [primary; opposite]
    /\ type primary = Some DEBIT
    /\ CollectiveId primary = Some c1
    /\ amount primary = -1000 # 1
    /\ netAmountInCollectiveCurrency primary = Some (-1100 # 1)
    /\ type opposite = Some CREDIT
    /\ CollectiveId opposite = Some u1
    /\ currency opposite = "USD"%string
    /\ amount opposite = 1100 # 1
    /\ netAmountInCollectiveCurrency opposite = Some (1000 # 1)
    /\ paymentProcessorFeeInHostCurrency opposite = Some (-100 # 1).
Proof.
  intros Ha Hcur Hf Hc Hfee Hnet Hfx Hfc Hact Hfccur Hrate.
  pose proof (createDoubleEntry_run t w u1 fc Hf Hfc) as Hrun.
  rewrite Ha in Hrun. change (JS.lt (-1000 # 1) 0) with true in Hrun.
  eexists _, _, _. split; [exact Hrun |]. split; [reflexivity |].
  unfold firstRow, secondRow. rewrite Ha. change (JS.lt (-1000 # 1) 0) with true.
  destruct (normalize_fields (uuids w) t)
    as (Hna & Hncur & Hnf & Hnc & Hnat & Hnty & Hnnet & Hnfx & _).
  cbn [set_id type amount CollectiveId netAmountInCollectiveCurrency currency
       paymentProcessorFeeInHostCurrency].
  rewrite Hnty, Hnc, Hna, Hnnet, Ha, Hnet, Hc.
  do 4 (split; [reflexivity |]).
  unfold oppositeOf. rewrite Hact. cbn.
  rewrite Hnf, Hf, Hnnet, Hnet, Hfccur, Hncur, Hcur, Hna, Ha, Hnat. cbn.
  rewrite (Math_round_integer (-1100)), (Math_round_integer (-1000))
    by (rewrite Hrate; reflexivity).
  repeat split.
  unfold normalize. cbn. destruct (amountInHostCurrency t); exact Hfee.
Qed.

(** C3.  When the from-collective of the intent is not active, the
    opposite row written by [createDoubleEntry] has the currency of the
    primary row, no host ([HostCollectiveId = null]), for amount the
    negation of the primary's net amount, and for net amount the
    negation of the primary's amount. *)
Theorem C3_opposite_of_inactive_account
    (t : Transaction) (w : World) (k : Z) (fc : Collective) :
  FromCollectiveId t = Some k ->
  Collectives w !! k = Some fc ->
  c_isActive fc = false ->
  exists primary opposite w' net,
    createDoubleEntry getFxRate t w = (Returned primary, w')
    /\ (Transactions w' = Transactions w ++ [primary; opposite]
        \/ Transactions w' = Transactions w ++ [opposite; primary])
    /\ CollectiveId opposite = FromCollectiveId t
    /\ FromCollectiveId opposite = CollectiveId t
    /\ currency opposite = currency primary
    /\ HostCollectiveId opposite = None
    /\ netAmountInCollectiveCurrency primary = Some net
    /\ amount opposite = - net
    /\ netAmountInCollectiveCurrency opposite = Some (- amount primary).
Proof.
  intros Hk Hfc Hin.
  pose proof (createDoubleEntry_run t w k fc Hk Hfc) as Hrun.
  destruct (normalize_fields (uuids w) t) as (Ha & Hcur & Hf & Hc & _ & _ & Hnet & _).
  set (p := normalize (uuids w) t) in *.
  destruct (oppositeOf_inactive p fc Hin) as (Hocur & Hoh & Hoa & Hon).
  destruct (oppositeOf_parties p fc) as [Hoc Hof].
  assert (Hfacts : forall i j,
    CollectiveId (set_id j (oppositeOf getFxRate p fc)) = FromCollectiveId t
    /\ FromCollectiveId (set_id j (oppositeOf getFxRate p fc)) = CollectiveId t
    /\ currency (set_id j (oppositeOf getFxRate p fc)) = currency (set_id i p)
    /\ HostCollectiveId (set_id j (oppositeOf getFxRate p fc)) = None
    /\ netAmountInCollectiveCurrency (set_id i p)
       = Some (JS.or_else (netAmountInCollectiveCurrency t) (amount t))
    /\ amount (set_id j (oppositeOf getFxRate p fc))
       = - JS.or_else (netAmountInCollectiveCurrency t) (amount t)
    /\ netAmountInCollectiveCurrency (set_id j (oppositeOf getFxRate p fc))
       = Some (- amount (set_id i p))).
  { intros i j.
    cbn [set_id CollectiveId FromCollectiveId currency HostCollectiveId
         netAmountInCollectiveCurrency amount].
    rewrite Hoc, Hof, Hocur, Hoh, Hoa, Hon, Hnet, Hf, Hc. cbn [the default].
    repeat split. }
  unfold firstRow, secondRow in Hrun. fold p in Hrun.
  destruct (JS.lt (amount t) 0).
  - eexists _, _, _, _. split; [exact Hrun |]. split; [left; reflexivity |]. apply Hfacts.
  - eexists _, _, _, _. split; [exact Hrun |]. split; [right; reflexivity |]. apply Hfacts.
Qed.

Lemma oppositeOf_active (p : Transaction) (fc : Collective) :
  c_isActive fc = true ->
  let fx := getFxRate (Some (currency p)) (c_currency fc) (createdAt p) in
  currency (oppositeOf getFxRate p fc) = c_currency fc
  /\ HostCollectiveId (oppositeOf getFxRate p fc) = c_HostCollectiveId fc
  /\ amount (oppositeOf getFxRate p fc)
     = - JS.Math_round (the (netAmountInCollectiveCurrency p) * fx)
  /\ netAmountInCollectiveCurrency (oppositeOf getFxRate p fc)
     = Some (- JS.Math_round (amount p * fx))
  /\ (data (oppositeOf getFxRate p fc) ≫= oppositeTransactionCurrencyFxRate) = Some fx.
Proof. intros H. unfold oppositeOf. rewrite H. cbn. repeat split. Qed.

Lemma Math_round_within_half (x : Q) : Qabs (- JS.Math_round x + x) <= 1 # 2.
Proof.
  destruct (Math_round_near x) as [Hlo Hhi].
  apply Qabs_Qle_condition. split; lra.
Qed.

(** C4 (amended).  [createDoubleEntry] orders the two rows by the sign
    of the intent's amount, not by the amounts of the rows: the primary
    row is created first when the intent's amount is strictly negative,
    and the opposite row otherwise.  The first row is always of type
    DEBIT, and the second of type CREDIT unless the intent's amount is
    0.  The opposite row mirrors the parties of the intent; its amount
    is the negated net amount for a from-collective that is not active,
    and within half a unit of the negated net amount times the rate for
    an active one.  So the first row has a negative amount and the
    second a positive one when the net amount has the sign of a
    non-zero amount (and, for an active from-collective, exceeds half a
    unit once converted).  The value returned is the primary row: the
    parties, amount and direction of the intent. *)
Theorem C4_debit_leg_created_first
    (t : Transaction) (w : World) (k : Z) (fc : Collective) :
  FromCollectiveId t = Some k ->
  Collectives w !! k = Some fc ->
  let net := JS.or_else (netAmountInCollectiveCurrency t) (amount t) in
  let fx := getFxRate (Some (currency t)) (c_currency fc) (createdAt t) in
  exists first second primary opposite w',
    createDoubleEntry getFxRate t w = (Returned primary, w')
    /\ Transactions w' = Transactions w ++ [first; second]
    /\ (amount t < 0 -> first = primary /\ second = opposite)
    /\ (~ amount t < 0 -> first = opposite /\ second = primary)
    /\ type first = Some DEBIT
    /\ (~ amount t == 0 -> type second = Some CREDIT)
    /\ (amount t == 0 -> type second = Some DEBIT)
    /\ CollectiveId primary = CollectiveId t
    /\ FromCollectiveId primary = FromCollectiveId t
    /\ amount primary = amount t
    /\ type primary = Some (typeOf (amount t))
    /\ CollectiveId opposite = FromCollectiveId t
    /\ FromCollectiveId opposite = CollectiveId t
    /\ (c_isActive fc = false -> amount opposite = - net)
    /\ (c_isActive fc = true -> Qabs (amount opposite + net * fx) <= 1 # 2)
    /\ (c_isActive fc = false ->
        (amount t < 0 /\ net < 0) \/ (0 < amount t /\ 0 < net) ->
        amount first < 0 /\ 0 < amount second)
    /\ (c_isActive fc = true ->
        (amount t < 0 /\ net * fx < - (1 # 2)) \/ (0 < amount t /\ 1 # 2 < net * fx) ->
        amount first < 0 /\ 0 < amount second).
Proof.
  intros Hk Hfc net fx.
  pose proof (createDoubleEntry_run t w k fc Hk Hfc) as Hrun.
  destruct (normalize_fields (uuids w) t) as (Ha & Hcur & Hf & Hc & Hat & Hty & Hnet & _).
  unfold firstRow, secondRow in Hrun.
  set (p := normalize (uuids w) t) in *.
  pose proof (oppositeOf_type p fc) as Hoty. rewrite Ha in Hoty.
  destruct (oppositeOf_parties p fc) as [Hoc Hof]. rewrite Hf in Hoc. rewrite Hc in Hof.
  assert (Hinactive : c_isActive fc = false -> amount (oppositeOf getFxRate p fc) = - net).
  { intros Hin. destruct (oppositeOf_inactive p fc Hin) as (_ & _ & Hoa & _).
    rewrite Hoa, Hnet. reflexivity. }
  assert (Hactive : c_isActive fc = true ->
                    amount (oppositeOf getFxRate p fc) = - JS.Math_round (net * fx)).
  { intros Hin. destruct (oppositeOf_active p fc Hin) as (_ & _ & Hoa & _).
    rewrite Hoa, Hnet, Hcur, Hat. reflexivity. }
  assert (Hbound : c_isActive fc = true ->
                   Qabs (amount (oppositeOf getFxRate p fc) + net * fx) <= 1 # 2).
  { intros Hin. rewrite (Hactive Hin). apply Math_round_within_half. }
  destruct (Math_round_near (net * fx)) as [Hlo Hhi].
  set (o := oppositeOf getFxRate p fc) in *.
  destruct (JS.lt (amount t) 0) eqn:Hlt.
  - apply lt_spec in Hlt.
    eexists _, _, _, _, _. split; [exact Hrun |]. split; [reflexivity |].
    split; [intros _; split; reflexivity |].
    split; [intros H; contradiction |].
    cbn [set_id type amount CollectiveId FromCollectiveId].
    rewrite Hty, Hoty, Ha, Hc, Hf, Hoc, Hof.
    split. { f_equal. apply typeOf_debit. lra. }
    split. { intros _. f_equal. apply typeOf_credit. lra. }
    split. { intros H. lra. }
    do 6 (split; [reflexivity |]).
    split; [exact Hinactive |]. split; [exact Hbound |].
    split.
    + intros Hin [[_ Hn] | [Hp _]]; [| lra].
      rewrite (Hinactive Hin). split; lra.
    + intros Hin [[_ Hn] | [Hp _]]; [| lra].
      rewrite (Hactive Hin). split; lra.
  - assert (Hge : ~ amount t < 0).
    { intros H. apply lt_spec in H. congruence. }
    eexists _, _, _, _, _. split; [exact Hrun |]. split; [reflexivity |].
    split; [intros H; contradiction |].
    split; [intros _; split; reflexivity |].
    cbn [set_id type amount CollectiveId FromCollectiveId].
    rewrite Hty, Hoty, Ha, Hc, Hf, Hoc, Hof.
    split. { f_equal. apply typeOf_debit. lra. }
    split. { intros Hnz. f_equal. apply typeOf_credit. lra. }
    split. { intros Hz. f_equal. apply typeOf_debit. lra. }
    do 6 (split; [reflexivity |]).
    split; [exact Hinactive |]. split; [exact Hbound |].
    split.
    + intros Hin [[Hn _] | [Hp Hpos]]; [contradiction |].
      rewrite (Hinactive Hin). split; lra.
    + intros Hin [[Hn _] | [Hp Hpos]]; [contradiction |].
      rewrite (Hactive Hin). split; lra.
Qed.

End LedgerFacts.

Section SplitterFacts.
Import TransactionModel.
Local Open Scope Q_scope.

Variable getFxRate : option string -> string -> option nat -> Q.
Variable toNegative : Q -> Q.
Variable props : FeesOnTopProperties.

Lemma flagged_true (t : Transaction) :
  flagged t -> from_option isFeesOnTop false (data t) = true.
Proof. intros (d & Hd & Hf). rewrite Hd. exact Hf. Qed.

Lemma not_flagged_false (t : Transaction) :
  ~ flagged t -> from_option isFeesOnTop false (data t) = false.
Proof.
  intros H. destruct (data t) as [d |] eqn:Hd; [| reflexivity]. cbn.
  destruct (isFeesOnTop d) eqn:Hf; [| reflexivity].
  exfalso. apply H. exists d. split; [exact Hd | exact Hf].
Qed.

Lemma Qeq_bool_false (x y : Q) : ~ x == y -> Qeq_bool x y = false.
Proof.
  intros H. destruct (Qeq_bool x y) eqn:E; [| reflexivity].
  apply Qeq_bool_iff in E. contradiction.
Qed.

(** What the splitter does to the main entry once the donation is posted. *)
Lemma createFeesOnTopTransaction_run
    (t : Transaction) (w : World) (f a c : Q) :
  flagged t ->
  platformFeeInHostCurrency t = Some f -> ~ f == 0 ->
  amountInHostCurrency t = Some a -> ~ a == 0 ->
  paymentProcessorFeeInHostCurrency t = Some c ->
  let fee := toNegative (JS.Math_round (c * JS.Math_abs (f / a))) in
  let rate := getFxRate (Some (currency t)) (fot_currency props) None in
  let donation := donationOf getFxRate props t f fee rate in
  createFeesOnTopTransaction getFxRate toNegative props t w =
    match createDoubleEntry getFxRate donation w with
    | (Returned _, w') =>
        (Returned
           (Some (set_platformFeeInHostCurrency (Some 0)
                    (set_amount (amount t + f / JS.or_else (hostCurrencyFxRate t) 1)
                       (set_amountInHostCurrency (Some (a + f))
                          (set_paymentProcessorFeeInHostCurrency (Some (c - fee)) t))))),
         w')
    | (Thrown e, w') => (Thrown e, w')
    | (NonFinite, w') => (NonFinite, w')
    end.
Proof.
  intros Hflag Hf Hf0 Ha Ha0 Hc. cbn zeta.
  unfold createFeesOnTopTransaction.
  rewrite (flagged_true t Hflag), Hf, Ha, Hc. cbn [negb JS.truthy].
  rewrite (Qeq_bool_false f 0 Hf0), (Qeq_bool_false a 0 Ha0). cbn [negb].
  unfold bind. destruct (createDoubleEntry _ _ w) as [[r | e |] w']; reflexivity.
Qed.

(** C6 (amended).  [createFeesOnTopTransaction] fails, with the error
    "This transaction does not have fees on top", for every entry that
    is not flagged as carrying a fee on top, and writes nothing.  For a
    flagged entry whose platform fee is zero or missing it writes
    nothing either, and returns no value ([undefined]). *)
Theorem C6_splitter_guards (t : Transaction) (w : World) :
  (~ flagged t ->
   createFeesOnTopTransaction getFxRate toNegative props t w
     = (Thrown (mkExn PlainError [Lit "This transaction does not have fees on top"]), w))
  /\ (flagged t ->
      (forall f, platformFeeInHostCurrency t = Some f -> f == 0) ->
      createFeesOnTopTransaction getFxRate toNegative props t w = (Returned None, w)).
Proof.
  unfold createFeesOnTopTransaction. split.
  - intros H. rewrite (not_flagged_false t H). reflexivity.
  - intros H Hz. rewrite (flagged_true t H). cbn [negb].
    destruct (platformFeeInHostCurrency t) as [f |]; [| reflexivity].
    cbn [JS.truthy]. specialize (Hz f eq_refl). apply Qeq_bool_iff in Hz.
    rewrite Hz. reflexivity.
Qed.

(** C5 (amended).  For a flagged entry with a negative platform fee
    whose [hostCurrencyFxRate] is 1 or unset, the splitter conserves the
    payer-side amount up to the rounding of the donation: the amount of
    the mutated main entry plus the amount of the donation row divided
    by the rate to the platform's currency differs from the original
    amount by at most half a minor unit of the platform's currency, and
    by nothing when the fee times the rate is an integer. *)
Theorem C5_fees_on_top_conservation
    (t : Transaction) (w : World) (f a c : Q) (k : Z) (fc : Collective) :
  flagged t ->
  platformFeeInHostCurrency t = Some f -> f < 0 ->
  amountInHostCurrency t = Some a -> ~ a == 0 ->
  paymentProcessorFeeInHostCurrency t = Some c ->
  JS.or_else (hostCurrencyFxRate t) 1 == 1 ->
  FromCollectiveId t = Some k ->
  Collectives w !! k = Some fc ->
  let rate := getFxRate (Some (currency t)) (fot_currency props) None in
  0 < rate ->
  exists main donation opposite w',
    createFeesOnTopTransaction getFxRate toNegative props t w = (Returned (Some main), w')
    /\ (Transactions w' = Transactions w ++ [donation; opposite]
        \/ Transactions w' = Transactions w ++ [opposite; donation])
    /\ CollectiveId donation = Some (fot_CollectiveId props)
    /\ currency donation = fot_currency props
    /\ platformFeeInHostCurrency main = Some 0
    /\ Qabs (amount main + amount donation / rate - amount t) * rate <= 1 # 2
    /\ (forall z : Z, Qabs f * rate == inject_Z z ->
        amount main + amount donation / rate == amount t).
Proof.
  intros Hflag Hf Hneg Ha Ha0 Hc Hh Hk Hfc rate Hrate.
  assert (Hf0 : ~ f == 0) by lra.
  pose proof (createFeesOnTopTransaction_run t w f a c Hflag Hf Hf0 Ha Ha0 Hc) as Hrun.
  cbn zeta in Hrun. fold rate in Hrun.
  set (fee := toNegative (JS.Math_round (c * JS.Math_abs (f / a)))) in *.
  set (d := donationOf getFxRate props t f fee rate) in *.
  pose proof (createDoubleEntry_run getFxRate d w k fc Hk Hfc) as Hd.
  rewrite Hd in Hrun. clear Hd.
  assert (Hamount : forall i, amount (set_id i (normalize (uuids w) d))
                              = JS.Math_round (Qabs f * rate)).
  { intros i. cbn [set_id amount].
    destruct (normalize_fields (uuids w) d) as (Hda & _). rewrite Hda. reflexivity. }
  assert (Hparty : forall i, CollectiveId (set_id i (normalize (uuids w) d))
                             = Some (fot_CollectiveId props)
                             /\ currency (set_id i (normalize (uuids w) d))
                                = fot_currency props).
  { intros i. cbn [set_id CollectiveId currency].
    destruct (normalize_fields (uuids w) d) as (_ & Hdc & _ & Hdp & _).
    rewrite Hdc, Hdp. split; reflexivity. }
  assert (Hsum : forall x : Q,
    (amount t + f / JS.or_else (hostCurrencyFxRate t) 1 + x / rate - amount t) * rate
    == x - Qabs f * rate).
  { intros x. rewrite Hh. rewrite (Qabs_neg f) by lra. field. lra. }
  assert (Hnear : forall x : Q,
    Qabs (amount t + f / JS.or_else (hostCurrencyFxRate t) 1
          + JS.Math_round x / rate - amount t) * rate
    == Qabs (JS.Math_round x - x) ->
    Qabs (amount t + f / JS.or_else (hostCurrencyFxRate t) 1
          + JS.Math_round x / rate - amount t) * rate <= 1 # 2).
  { intros x Hx. rewrite Hx. apply Qabs_Qle_condition.
    destruct (Math_round_near x). split; lra. }
  assert (Hfacts : forall i,
    Qabs (amount t + f / JS.or_else (hostCurrencyFxRate t) 1
          + amount (set_id i (normalize (uuids w) d)) / rate - amount t) * rate <= 1 # 2
    /\ (forall z : Z, Qabs f * rate == inject_Z z ->
        amount t + f / JS.or_else (hostCurrencyFxRate t) 1
        + amount (set_id i (normalize (uuids w) d)) / rate == amount t)).
  { intros i. rewrite Hamount. split.
    - apply Hnear.
      rewrite <- (Hsum (JS.Math_round (Qabs f * rate))).
      rewrite (Qabs_Qmult _ rate), (Qabs_pos rate) by lra. reflexivity.
    - intros z Hz. rewrite (Math_round_integer z) by exact Hz.
      rewrite <- Hz, Hh, (Qabs_neg f) by lra. field. lra. }
  unfold firstRow, secondRow in Hrun.
  destruct (JS.lt (amount d) 0).
  - eexists _, _, _, _. split; [exact Hrun |]. split; [left; reflexivity |].
    split; [apply Hparty |]. split; [apply Hparty |]. split; [reflexivity |].
    apply Hfacts.
  - eexists _, _, _, _. split; [exact Hrun |]. split; [right; reflexivity |].
    split; [apply Hparty |]. split; [apply Hparty |]. split; [reflexivity |].
    apply Hfacts.
Qed.

End SplitterFacts.

Section LedgerExamples.
Import TransactionModel Fixtures.
Local Open Scope Q_scope.

Lemma C1_direction_witness :
  exists primary opposite w',
    createDoubleEntry sameCurrency (intent (2500 # 1) "USD" 3 2) world
      = (Returned primary, w')
    /\ (Transactions w' = Transactions world ++ [primary; opposite]
        \/ Transactions w' = Transactions world ++ [opposite; primary])
    /\ CollectiveId primary = Some 2%Z
    /\ CollectiveId opposite = Some 3%Z
    /\ (type primary = Some CREDIT <-> 0 < amount primary)
    /\ (type primary = Some DEBIT <-> ~ 0 < amount primary)
    /\ (type opposite = Some CREDIT <-> amount primary < 0)
    /\ (type opposite = Some DEBIT <-> ~ amount primary < 0)
    /\ (c_isActive U3 = false ->
        (the (netAmountInCollectiveCurrency primary) < 0 <-> amount primary < 0) ->
        (type opposite = Some CREDIT <-> 0 < amount opposite)).
Proof.
  apply (C1_direction_of_created_entries sameCurrency
           (intent (2500 # 1) "USD" 3 2) world 3%Z U3); reflexivity.
Defined.

(** C1 as stated fails on the opposite row: a debit of 50 yen from an
    active dollar account, at a rate of 0.007, gets an opposite row that
    is a CREDIT and whose amount is [-Math.round(-0.35)], which is not
    strictly positive. *)
Lemma C1_opposite_credit_without_positive_amount :
  exists primary opposite w',
    createDoubleEntry yenToDollar smallYenDebit world = (Returned primary, w')
    /\ Transactions w' = [primary; opposite]
    /\ type opposite = Some CREDIT
    /\ ~ 0 < amount opposite.
Proof.
  eexists _, _, _. split; [vm_compute; reflexivity |]. split; [reflexivity |].
  split; [reflexivity |]. cbn. intros H. discriminate H.
Qed.

(** C2 as stated fails: [createDoubleEntry] does not derive the net
    amount from the fees.  With no net amount in the intent it defaults
    to the amount, so that the primary row has a net amount of -1000
    and the opposite row an amount of 1000. *)
Lemma C2_net_amount_defaults_to_amount :
  exists primary opposite w',
    createDoubleEntry sameCurrency expensePayout world = (Returned primary, w')
    /\ Transactions w' = [primary; opposite]
    /\ netAmountInCollectiveCurrency primary = Some (-1000 # 1)
    /\ amount opposite = 1000 # 1
    /\ ~ (-1000 # 1 == -1100 # 1)
    /\ ~ (1000 # 1 == 1100 # 1).
Proof.
  eexists _, _, _. split; [vm_compute; reflexivity |].
  do 3 (split; [reflexivity |]). split; intros H; discriminate H.
Qed.

Lemma C2_scenario_witness :
  exists primary opposite w',
    createDoubleEntry sameCurrency (withNet (-1100 # 1) expensePayout) world
      = (Returned primary, w')
    /\ Transactions w' = Transactions world ++ [primary; opposite]
    /\ type primary = Some DEBIT
    /\ CollectiveId primary = Some 2%Z
    /\ amount primary = -1000 # 1
    /\ netAmountInCollectiveCurrency primary = Some (-1100 # 1)
    /\ type opposite = Some CREDIT
    /\ CollectiveId opposite = Some 1%Z
    /\ currency opposite = "USD"%string
    /\ amount opposite = 1100 # 1
    /\ netAmountInCollectiveCurrency opposite = Some (1000 # 1)
    /\ paymentProcessorFeeInHostCurrency opposite = Some (-100 # 1).
Proof.
  apply (C2_expense_payout_scenario sameCurrency
           (withNet (-1100 # 1) expensePayout) world 1%Z 2%Z U1); reflexivity.
Defined.

Lemma C3_opposite_witness :
  exists primary opposite w' net,
    createDoubleEntry sameCurrency (intent (2500 # 1) "USD" 3 2) world
      = (Returned primary, w')
    /\ (Transactions w' = Transactions world ++ [primary; opposite]
        \/ Transactions w' = Transactions world ++ [opposite; primary])
    /\ CollectiveId opposite = Some 3%Z
    /\ FromCollectiveId opposite = Some 2%Z
    /\ currency opposite = currency primary
    /\ HostCollectiveId opposite = None
    /\ netAmountInCollectiveCurrency primary = Some net
    /\ amount opposite = - net
    /\ netAmountInCollectiveCurrency opposite = Some (- amount primary).
Proof.
  apply (C3_opposite_of_inactive_account sameCurrency
           (intent (2500 # 1) "USD" 3 2) world 3%Z U3); reflexivity.
Defined.

(** C4 as stated fails on the amounts: for an intent of 100 with a net
    amount of -50 from an account that is not active, the opposite row
    is created first, as a DEBIT with an amount of 50; no row with a
    negative amount is created, before or after the positive one. *)
Lemma C4_first_row_with_positive_amount :
  exists first second primary w',
    createDoubleEntry sameCurrency (withNet (-50 # 1) (intent (100 # 1) "USD" 3 2)) world
      = (Returned primary, w')
    /\ Transactions w' = [first; second]
    /\ primary = second
    /\ type first = Some DEBIT
    /\ type second = Some CREDIT
    /\ amount first = 50 # 1
    /\ amount second = 100 # 1
    /\ ~ amount first < 0
    /\ ~ amount second < 0.
Proof.
  eexists _, _, _, _. split; [vm_compute; reflexivity |].
  do 6 (split; [reflexivity |]). split; intros H; discriminate H.
Qed.

Lemma C4_order_witness :
  exists first second primary opposite w',
    createDoubleEntry sameCurrency (intent (2500 # 1) "USD" 3 2) world
      = (Returned primary, w')
    /\ Transactions w' = Transactions world ++ [first; second]
    /\ first = opposite
    /\ second = primary
    /\ type first = Some DEBIT
    /\ type second = Some CREDIT
    /\ CollectiveId primary = Some 2%Z
    /\ amount primary = 2500 # 1
    /\ CollectiveId opposite = Some 3%Z
    /\ FromCollectiveId opposite = Some 2%Z
    /\ amount opposite = - (2500 # 1)
    /\ amount first < 0
    /\ 0 < amount second.
Proof.
  destruct (C4_debit_leg_created_first sameCurrency
              (intent (2500 # 1) "USD" 3 2) world 3%Z U3 eq_refl eq_refl)
    as (first & second & primary & opposite & w' & Hrun & Htx & _ & Horder & Hdebit
        & Hcredit & _ & Hc & _ & Ha & _ & Hoc & Hof & Hoa & _ & Hsign & _).
  assert (Hpos : ~ amount (intent (2500 # 1) "USD" 3 2) < 0) by (intros H; discriminate H).
  assert (Hnz : ~ amount (intent (2500 # 1) "USD" 3 2) == 0) by (intros H; discriminate H).
  destruct (Horder Hpos) as [Hfirst Hsecond].
  destruct (Hsign eq_refl) as [Hneg Hgt]; [right; split; reflexivity |].
  exists first, second, primary, opposite, w'.
  split; [exact Hrun |]. split; [exact Htx |]. split; [exact Hfirst |].
  split; [exact Hsecond |]. split; [exact Hdebit |]. split; [exact (Hcredit Hnz) |].
  split; [exact Hc |]. split; [exact Ha |]. split; [exact Hoc |]. split; [exact Hof |].
  split; [exact (Hoa eq_refl) |]. split; [exact Hneg | exact Hgt].
Defined.

(** C5 as stated fails: a contribution of 10000 reals with a fee on top
    of 1001 leaves a main entry of 8999 and a donation of
    [Math.round(1001 * 0.2) = 200] dollar cents, which is 1000 back in
    reals: 9999 in all. *)
Lemma C5_rounding_breaks_conservation :
  exists main donation opposite w',
    createFeesOnTopTransaction realToDollar toNegative platform
      (tipped "BRL" (-1001 # 1)) world = (Returned (Some main), w')
    /\ Transactions w' = [opposite; donation]
    /\ CollectiveId donation = Some 1%Z
    /\ amount main == 8999 # 1
    /\ amount donation == 200 # 1
    /\ amount main + amount donation / (1 # 5) == 9999 # 1
    /\ ~ amount main + amount donation / (1 # 5) == amount (tipped "BRL" (-1001 # 1)).
Proof.
  eexists _, _, _, _. split; [vm_compute; reflexivity |].
  do 5 (split; [reflexivity |]). intros H. discriminate H.
Qed.

Lemma C5_conservation_witness :
  let t := tipped "BRL" (-1001 # 1) in
  let rate := realToDollar (Some (currency t)) (fot_currency platform) None in
  exists main donation opposite w',
    createFeesOnTopTransaction realToDollar toNegative platform t world
      = (Returned (Some main), w')
    /\ (Transactions w' = Transactions world ++ [donation; opposite]
        \/ Transactions w' = Transactions world ++ [opposite; donation])
    /\ CollectiveId donation = Some (fot_CollectiveId platform)
    /\ currency donation = fot_currency platform
    /\ platformFeeInHostCurrency main = Some 0
    /\ Qabs (amount main + amount donation / rate - amount t) * rate <= 1 # 2
    /\ (forall z : Z, Qabs (-1001 # 1) * rate == inject_Z z ->
        amount main + amount donation / rate == amount t).
Proof.
  intros t rate.
  apply (C5_fees_on_top_conservation realToDollar toNegative platform t world
           (-1001 # 1) (10000 # 1) (-300 # 1) 1%Z U1);
    try reflexivity.
  - exists (mkData true None None). split; reflexivity.
  - intros H. discriminate H.
Defined.

(** C6 as stated fails in its second half: for a flagged entry with a
    platform fee of zero the splitter returns [undefined], not the entry. *)
Lemma C6_zero_fee_returns_undefined :
  createFeesOnTopTransaction sameCurrency toNegative platform (tipped "USD" 0) world
    = (Returned None, world)
  /\ createFeesOnTopTransaction sameCurrency toNegative platform (tipped "USD" 0) world
     <> (Returned (Some (tipped "USD" 0)), world).
Proof. split; [reflexivity | intros H; discriminate H]. Qed.

Lemma C6_guards_witness :
  createFeesOnTopTransaction sameCurrency toNegative platform untipped world
    = (Thrown (mkExn PlainError [Lit "This transaction does not have fees on top"]), world)
  /\ createFeesOnTopTransaction sameCurrency toNegative platform (tipped "USD" 0) world
     = (Returned None, world).
Proof.
  destruct (C6_splitter_guards sameCurrency toNegative platform untipped world) as [H1 _].
  destruct (C6_splitter_guards sameCurrency toNegative platform (tipped "USD" 0) world)
    as [_ H2].
  split.
  - apply H1. intros (d & Hd & _). discriminate Hd.
  - apply H2.
    + exists (mkData true None None). split; reflexivity.
    + intros f Hf. injection Hf as <-. reflexivity.
Defined.

End LedgerExamples.

(** * Properties of the expense mutations *)

Section ExpenseFacts.
Import Expenses.

Variable ext : Externals.

Lemma fold_left_add (l : list ExpenseItem) (acc : Z) :
  fold_left (fun total item => total + item_amount item) l acc
  = acc + fold_right Z.add 0 (map item_amount l).
Proof.
  revert acc. induction l as [| a l IH]; intros acc; cbn.
  - lia.
  - rewrite IH. lia.
Qed.

(** The total of the items is the sum of their amounts. *)
Lemma getTotalAmountFromItems_sum (l : list ExpenseItem) :
  getTotalAmountFromItems (Some l) = fold_right Z.add 0 (map item_amount l).
Proof. unfold getTotalAmountFromItems. rewrite fold_left_add. lia. Qed.

Lemma checkExpenseItems_accepts (d : ExpenseData) (l : list ExpenseItem) :
  checkExpenseItems d (Some l) = Returned tt ->
  l <> []
  /\ (length l <= 100)%nat
  /\ d_amount d = Some (fold_right Z.add 0 (map item_amount l))
  /\ fold_right Z.add 0 (map item_amount l) <> 0
  /\ (isReceipt (d_type d) = true -> forallb hasUrl l = true).
Proof.
  unfold checkExpenseItems. destruct l as [| a l]; [discriminate |].
  set (items := a :: l).
  destruct (Z.ltb 100 (Z.of_nat (length items))) eqn:Hlen; [discriminate |].
  rewrite getTotalAmountFromItems_sum.
  destruct (d_amount d) as [amount |]; cbn [from_option negb]; [| discriminate].
  destruct (Z.eqb (fold_right Z.add 0 (map item_amount items)) amount) eqn:Hsum;
    cbn [negb]; [| discriminate].
  destruct (Z.eqb (fold_right Z.add 0 (map item_amount items)) 0) eqn:Hzero;
    [discriminate |].
  destruct (isReceipt (d_type d) && existsb (fun a => negb (hasUrl a)) items) eqn:Hfiles;
    [discriminate |].
  intros _. apply Z.ltb_ge in Hlen. apply Z.eqb_eq in Hsum. apply Z.eqb_neq in Hzero.
  split; [discriminate |]. split; [lia |]. split; [congruence |]. split; [exact Hzero |].
  intros Hr. rewrite Hr in Hfiles. cbn [andb] in Hfiles.
  apply forallb_forall. intros x Hx.
  destruct (hasUrl x) eqn:Hu; [reflexivity |].
  assert (existsb (fun a => negb (hasUrl a)) items = true).
  { apply existsb_exists. exists x. rewrite Hu. split; [exact Hx | reflexivity]. }
  congruence.
Qed.

Lemma existsb_negb_forallb {A} (f : A -> bool) (l : list A) :
  forallb f l = true -> existsb (fun a => negb (f a)) l = false.
Proof.
  induction l as [| a l IH]; cbn; [reflexivity |].
  intros H. apply andb_true_iff in H as [Ha Hl]. rewrite Ha, (IH Hl). reflexivity.
Qed.

(** C9.  For an expense of 5000 cents, the items [2000, 3000] are
    accepted (each with its file when the expense is a receipt); the
    items [2000, 2500] are rejected with [ValidationFailed], the message
    giving the expense's total 5000 and the items' total 4500.  And
    whenever the validation of a non-empty item list succeeds, the sum
    of the items' amounts is the expense's amount. *)
Theorem C9_item_validation :
  (forall (d : ExpenseData) (l : list ExpenseItem),
     d_amount d = Some 5000 ->
     map item_amount l = [2000; 3000] ->
     (isReceipt (d_type d) = true -> forallb hasUrl l = true) ->
     checkExpenseItems d (Some l) = Returned tt)
  /\ (forall (d : ExpenseData) (l : list ExpenseItem),
        d_amount d = Some 5000 ->
        map item_amount l = [2000; 2500] ->
        checkExpenseItems d (Some l)
        = Thrown (mkExn ValidationFailed
            [Lit "The sum of all items must be equal to the total expense's amount. Expense's total is ";
             Interp (Some 5000);
             Lit ", but the total of items was ";
             Interp (Some 4500);
             Lit "."]))
  /\ (forall (d : ExpenseData) (l : list ExpenseItem),
        l <> [] ->
        checkExpenseItems d (Some l) = Returned tt ->
        d_amount d = Some (fold_right Z.add 0 (map item_amount l))).
Proof.
  split; [| split].
  - intros d l Hd Hl Hfiles.
    destruct l as [| a [| b [| c l]]]; try discriminate Hl.
    unfold checkExpenseItems. cbn [length Z.of_nat Z.ltb Z.compare Pos.of_succ_nat
                                   Pos.succ Pos.compare Pos.compare_cont].
    rewrite getTotalAmountFromItems_sum, Hl, Hd. cbn [fold_right from_option Z.add
      Pos.add Z.eqb Pos.eqb negb Pos.succ Pos.add_carry].
    destruct (isReceipt (d_type d)); [| reflexivity].
    rewrite (existsb_negb_forallb hasUrl [a; b] (Hfiles eq_refl)). reflexivity.
  - intros d l Hd Hl.
    destruct l as [| a [| b [| c l]]]; try discriminate Hl.
    unfold checkExpenseItems. cbn [length Z.of_nat Z.ltb Z.compare Pos.of_succ_nat
                                   Pos.succ Pos.compare Pos.compare_cont].
    rewrite getTotalAmountFromItems_sum, Hl, Hd. reflexivity.
  - intros d l _ H. apply (checkExpenseItems_accepts d l H).
Qed.

Lemma bind_query {A B} (g : World -> A) (k : A -> M World B) (w : World) :
  bind (query (fun w => Returned (g w))) k w = k (g w) w.
Proof. reflexivity. Qed.


(** C10.  For an expense that is being processed, [updateExpenseStatus]
    fails for every requested status and writes nothing.  For a caller
    who is logged in and may use expenses, and a status that exists, the
    failure is the one of the PROCESSING guard; the outcome depends on
    no other permission check. *)
Theorem C10_processing_expense_is_frozen
    (req : Req) (expenseId : Z) (requested : string) (w : World) (e : Expense) :
  Expenses w !! expenseId = Some e ->
  status e = PROCESSING ->
  (exists err, updateExpenseStatus ext req expenseId requested w = (Thrown err, w))
  /\ (forall user target,
        remoteUser req = Some user ->
        canUseFeature ext user = true ->
        statusOfKey requested = Some target ->
        updateExpenseStatus ext req expenseId requested w
        = (Thrown (mkExn Unauthorized
             [Lit "You can't update the status of an expense being processed"]), w))
  /\ (forall ext' : Externals,
        canUseFeature ext' = canUseFeature ext ->
        updateExpenseStatus ext' req expenseId requested w
        = updateExpenseStatus ext req expenseId requested w).
Proof.
  intros Hfound Hst.
  assert (Hrun : forall x : Externals,
    updateExpenseStatus x req expenseId requested w =
    match remoteUser req with
    | None =>
        (Thrown (mkExn Unauthorized
           [Lit "You need to be logged in to update the status of an expense"]), w)
    | Some user =>
        if negb (canUseFeature x user)
        then (Thrown (mkExn FeatureNotAllowedForUser []), w)
        else match statusOfKey requested with
             | None =>
                 (Thrown (mkExn ValidationFailed
                    [Lit "Invalid status, status must be one of "]), w)
             | Some _ =>
                 (Thrown (mkExn Unauthorized
                    [Lit "You can't update the status of an expense being processed"]), w)
             end
    end).
  { intros x. unfold updateExpenseStatus.
    destruct (remoteUser req) as [user |]; [| reflexivity].
    destruct (negb (canUseFeature x user)); [reflexivity |].
    destruct (statusOfKey requested); [| reflexivity].
    unfold Expense_findByPk. rewrite bind_query, Hfound, Hst. reflexivity. }
  split; [| split].
  - rewrite Hrun. destruct (remoteUser req) as [user |]; [| eauto].
    destruct (negb (canUseFeature ext user)); [eauto |].
    destruct (statusOfKey requested); eauto.
  - intros user target Hu Hfeat Hkey. rewrite Hrun, Hu, Hfeat, Hkey. reflexivity.
  - intros ext' Hsame. rewrite !Hrun, Hsame. reflexivity.
Qed.

(** C7 (amended).  For an expense that is PAID, [payExpense] always
    fails and writes nothing: no ledger row, no change of status.  When
    the caller is logged in and may use expenses, the failure is the
    error "Expense has already been paid".  For an expense that is
    PENDING, [markExpenseAsUnpaid] always fails and writes nothing.
    When the caller is logged in, may use expenses and may mark the
    expense as unpaid, the failure is the error "Expense has not been
    paid yet". *)
Theorem C7_status_guards (req : Req) (w : World) (e : Expense) :
  (forall args : PayArgs,
     Expenses w !! arg_id args = Some e ->
     status e = PAID ->
     (exists err, payExpense ext req args w = (Thrown err, w))
     /\ (forall user,
           remoteUser req = Some user ->
           canUseFeature ext user = true ->
           payExpense ext req args w
           = (Thrown (mkExn Unauthorized [Lit "Expense has already been paid"]), w)))
  /\ (forall (expenseId : Z) (processorFeeRefunded : bool),
        Expenses w !! expenseId = Some e ->
        status e = PENDING ->
        (exists err,
           markExpenseAsUnpaid ext req expenseId processorFeeRefunded w = (Thrown err, w))
        /\ (forall user,
              remoteUser req = Some user ->
              canUseFeature ext user = true ->
              canMarkAsUnpaid ext req e w = true ->
              markExpenseAsUnpaid ext req expenseId processorFeeRefunded w
              = (Thrown (mkExn Unauthorized [Lit "Expense has not been paid yet"]), w))).
Proof.
  split.
  - intros args Hfound Hst.
    assert (Hrun : payExpense ext req args w =
      match remoteUser req with
      | None =>
          (Thrown (mkExn Unauthorized [Lit "You need to be logged in to pay an expense"]), w)
      | Some user =>
          if negb (canUseFeature ext user)
          then (Thrown (mkExn FeatureNotAllowedForUser []), w)
          else (Thrown (mkExn Unauthorized [Lit "Expense has already been paid"]), w)
      end).
    { unfold payExpense. destruct (remoteUser req) as [user |]; [| reflexivity].
      destruct (negb (canUseFeature ext user)); [reflexivity |].
      unfold Expense_findByPk. rewrite bind_query, Hfound, Hst. reflexivity. }
    split.
    + rewrite Hrun. destruct (remoteUser req) as [user |]; [| eauto].
      destruct (negb (canUseFeature ext user)); eauto.
    + intros user Hu Hfeat. rewrite Hrun, Hu, Hfeat. reflexivity.
  - intros expenseId refunded Hfound Hst.
    assert (Hrun : markExpenseAsUnpaid ext req expenseId refunded w =
      match remoteUser req with
      | None =>
          (Thrown (mkExn Unauthorized [Lit "You need to be logged in to unpay an expense"]), w)
      | Some user =>
          if negb (canUseFeature ext user)
          then (Thrown (mkExn FeatureNotAllowedForUser []), w)
          else if negb (canMarkAsUnpaid ext req e w)
          then (Thrown (mkExn Unauthorized
                  [Lit "You don't have permission to mark this expense as unpaid"]), w)
          else (Thrown (mkExn Unauthorized [Lit "Expense has not been paid yet"]), w)
      end).
    { unfold markExpenseAsUnpaid. destruct (remoteUser req) as [user |]; [| reflexivity].
      destruct (negb (canUseFeature ext user)); [reflexivity |].
      unfold Expense_findByPk. rewrite bind_query, Hfound, bind_query.
      destruct (negb (canMarkAsUnpaid ext req e w)); [reflexivity |].
      rewrite Hst. reflexivity. }
    split.
    + rewrite Hrun. destruct (remoteUser req) as [user |]; [| eauto].
      destruct (negb (canUseFeature ext user)); [eauto |].
      destruct (negb (canMarkAsUnpaid ext req e w)); eauto.
    + intros user Hu Hfeat Hperm. rewrite Hrun, Hu, Hfeat, Hperm. reflexivity.
Qed.


(** [payExpense] of an approved expense, up to the payout itself. *)
Lemma payExpense_approved (req : Req) (args : PayArgs) (w : World) (e : Expense)
    (user : User) (collective : Collective) :
  remoteUser req = Some user ->
  canUseFeature ext user = true ->
  Expenses w !! arg_id args = Some e ->
  status e = APPROVED ->
  canPayExpense ext req e w = true ->
  collectiveOf e w = Some collective ->
  isLegacyDonation e = false ->
  let balance := getBalance ext collective w in
  payExpense ext req args w =
    if Z.ltb balance (e_amount e) then
      (Thrown (mkExn Unauthorized
         [Lit "You don't have enough funds to pay this expense. Current balance: ";
          FormatCurrency balance (c_currency collective);
          Lit ", Expense amount: ";
          FormatCurrency (e_amount e) (c_currency collective)]), w)
    else
      match getHostCollective ext collective w with
      | None => (Thrown (mkExn TypeError [Lit "Cannot read property 'currency' of null"]), w)
      | Some host =>
          match estimateFor ext args e collective host w with
          | (Returned estimate, w') =>
              let fxrate := getFxRate ext (c_currency collective) (c_currency host) in
              let fees :=
                mkHostFees
                  (roundZ (fxrate * inject_Z (default 0 estimate)))
                  (roundZ (fxrate * inject_Z (default 0 (hostFeeInCollectiveCurrency args))))
                  (roundZ (fxrate
                           * inject_Z (default 0 (platformFeeInCollectiveCurrency args)))) in
              if Z.ltb balance (e_amount e + default 0 estimate) then
                (Thrown (mkExn PlainError
                   [Lit "You don't have enough funds to cover for the fees of this payment method. Current balance: ";
                    FormatCurrency balance (c_currency collective);
                    Lit ", Expense amount: ";
                    FormatCurrency (e_amount e) (c_currency collective);
                    Lit ", Estimated ";
                    InterpText (payoutTypeName (payoutMethodTypeOf ext e w));
                    Lit " fees: ";
                    FormatCurrency (default 0 estimate) (c_currency collective)]), w')
              else
                (let* toMark :=
                   payOut ext args user e collective host (getPayoutMethod ext e w)
                     (payoutMethodTypeOf ext e w) fees in
                 if toMark then markExpenseAsPaid ext e collective user
                 else let* expense := setProcessing ext e (u_id user) in ret expense) w'
          | (Thrown err, w') => (Thrown err, w')
          | (NonFinite, w') => (NonFinite, w')
          end
      end.
Proof.
  intros Hu Hfeat Hfound Hst Hpay Hcol Hleg balance.
  unfold payExpense. rewrite Hu, Hfeat. cbn [negb].
  unfold Expense_findByPk. rewrite bind_query, Hfound, Hst. cbn [status_eqb negb].
  rewrite bind_query, Hpay. cbn [negb].
  rewrite bind_query, Hcol, bind_query, Hleg, bind_query. fold balance.
  destruct (Z.ltb balance (e_amount e)); [reflexivity |].
  destruct (getHostCollective ext collective w) as [host |]; [| reflexivity].
  rewrite bind_query. unfold estimateFor, payoutMethodTypeOf.
  unfold bind at 1.
  destruct (estimateProcessorFee _ _ _ _ _ _ _ _ w) as [[estimate | err |] w'];
    [| reflexivity | reflexivity].
  cbn zeta. destruct (Z.ltb balance (e_amount e + default 0 estimate)); reflexivity.
Qed.


End ExpenseFacts.

Section ExpenseExamples.
Import Expenses Fixtures.

(** C7 as stated fails: which error comes out depends on the caller.
    Paying the paid expense 7 without being logged in fails on the
    login check, and marking the pending expense 8 as unpaid without
    the permission to do so fails on the permission check; neither is
    the error of the status guard. *)
Lemma C7_other_errors_before_the_status_guard :
  status <$> Expenses world !! 7 = Some PAID
  /\ payExpense services anonymous (payByHand 7 None) world
     = (Thrown (mkExn Unauthorized [Lit "You need to be logged in to pay an expense"]),
        world)
  /\ payExpense services anonymous (payByHand 7 None) world
     <> (Thrown (mkExn Unauthorized [Lit "Expense has already been paid"]), world)
  /\ status <$> Expenses world !! 8 = Some PENDING
  /\ markExpenseAsUnpaid services asVisitor 8 false world
     = (Thrown (mkExn Unauthorized
          [Lit "You don't have permission to mark this expense as unpaid"]), world)
  /\ markExpenseAsUnpaid services asVisitor 8 false world
     <> (Thrown (mkExn Unauthorized [Lit "Expense has not been paid yet"]), world).
Proof.
  split; [reflexivity |]. split; [reflexivity |].
  split; [intros H; discriminate H |].
  split; [reflexivity |]. split; [reflexivity |].
  intros H; discriminate H.
Qed.

Lemma C7_status_guards_witness :
  payExpense services asAdmin (payByHand 7 None) world
    = (Thrown (mkExn Unauthorized [Lit "Expense has already been paid"]), world)
  /\ markExpenseAsUnpaid services asAdmin 8 false world
     = (Thrown (mkExn Unauthorized [Lit "Expense has not been paid yet"]), world).
Proof.
  destruct (C7_status_guards services asAdmin world (expense 7 PAID 10000)) as [Hpay _].
  destruct (C7_status_guards services asAdmin world (expense 8 PENDING 10000))
    as [_ Hunpay].
  split.
  - apply (proj2 (Hpay (payByHand 7 None) eq_refl eq_refl) admin); reflexivity.
  - apply (proj2 (Hunpay 8 false eq_refl eq_refl) admin); reflexivity.
Defined.



Lemma C9_item_validation_witness :
  checkExpenseItems invoiceOf5000 (Some (items [2000; 3000])) = Returned tt
  /\ checkExpenseItems invoiceOf5000 (Some (items [2000; 2500]))
     = Thrown (mkExn ValidationFailed
         [Lit "The sum of all items must be equal to the total expense's amount. Expense's total is ";
          Interp (Some 5000);
          Lit ", but the total of items was ";
          Interp (Some 4500);
          Lit "."])
  /\ d_amount invoiceOf5000
     = Some (fold_right Z.add 0 (map item_amount (items [2000; 3000]))).
Proof.
  destruct C9_item_validation as (Hok & Hbad & Honly).
  split; [| split].
  - apply Hok; [reflexivity | reflexivity | intros H; discriminate H].
  - apply Hbad; reflexivity.
  - apply Honly; [discriminate | reflexivity].
Defined.

Lemma C10_processing_witness :
  (exists err, updateExpenseStatus services asAdmin 11 "PAID" world = (Thrown err, world))
  /\ updateExpenseStatus services asAdmin 11 "APPROVED" world
     = (Thrown (mkExn Unauthorized
          [Lit "You can't update the status of an expense being processed"]), world).
Proof.
  destruct (C10_processing_expense_is_frozen services asAdmin 11 "PAID" world
              (expense 11 PROCESSING 10000) eq_refl eq_refl) as (Hfails & _).
  destruct (C10_processing_expense_is_frozen services asAdmin 11 "APPROVED" world
              (expense 11 PROCESSING 10000) eq_refl eq_refl) as (_ & Hguard & _).
  split; [exact Hfails |].
  apply (Hguard admin APPROVED); reflexivity.
Defined.

End ExpenseExamples.

(** * Further properties of the ledger code *)

Section LedgerMoreFacts.
Import TransactionModel TransactionMore.
Local Open Scope Q_scope.

Variable getFxRate : option string -> string -> option nat -> Q.

Lemma oppositeOf_carried (p : Transaction) (fc : Collective) :
  platformFeeInHostCurrency (oppositeOf getFxRate p fc) = platformFeeInHostCurrency p
  /\ hostFeeInHostCurrency (oppositeOf getFxRate p fc) = hostFeeInHostCurrency p
  /\ paymentProcessorFeeInHostCurrency (oppositeOf getFxRate p fc)
     = paymentProcessorFeeInHostCurrency p
  /\ TransactionGroup (oppositeOf getFxRate p fc) = TransactionGroup p
  /\ hostCurrencyFxRate (oppositeOf getFxRate p fc) = hostCurrencyFxRate p
  /\ amountInHostCurrency (oppositeOf getFxRate p fc)
     = Some (JS.Math_round (- the (netAmountInCollectiveCurrency p)
                            * the (hostCurrencyFxRate p))).
Proof. unfold oppositeOf. destruct (c_isActive fc); cbn; repeat split. Qed.

Lemma normalize_fees (g : nat) (t : Transaction) :
  platformFeeInHostCurrency (normalize g t) = platformFeeInHostCurrency t
  /\ hostFeeInHostCurrency (normalize g t) = hostFeeInHostCurrency t
  /\ paymentProcessorFeeInHostCurrency (normalize g t) = paymentProcessorFeeInHostCurrency t
  /\ amountInHostCurrency (normalize g t) = JS.Math_round <$> amountInHostCurrency t.
Proof.
  unfold normalize; cbn.
  destruct (amountInHostCurrency t) eqn:E; cbn; rewrite ?E;
    repeat (split; [reflexivity |]); reflexivity.
Qed.

(** X1.  [createDoubleEntry] appends exactly two rows and touches no
    other table.  The rows share one transaction group, mirror each
    other's parties and carry the same platform fee, host fee and
    processor fee, those of the intent. *)
Theorem X1_double_entry_pair
    (t : Transaction) (w : World) (k : Z) (fc : Collective) :
  FromCollectiveId t = Some k ->
  Collectives w !! k = Some fc ->
  exists first second primary w',
    createDoubleEntry getFxRate t w = (Returned primary, w')
    /\ Transactions w' = Transactions w ++ [first; second]
    /\ Collectives w' = Collectives w
    /\ Expenses w' = Expenses w
    /\ TransactionGroup first = TransactionGroup second
    /\ is_Some (TransactionGroup first)
    /\ CollectiveId first = FromCollectiveId second
    /\ FromCollectiveId first = CollectiveId second
    /\ platformFeeInHostCurrency first = platformFeeInHostCurrency t
    /\ platformFeeInHostCurrency second = platformFeeInHostCurrency t
    /\ hostFeeInHostCurrency first = hostFeeInHostCurrency t
    /\ hostFeeInHostCurrency second = hostFeeInHostCurrency t
    /\ paymentProcessorFeeInHostCurrency first = paymentProcessorFeeInHostCurrency t
    /\ paymentProcessorFeeInHostCurrency second = paymentProcessorFeeInHostCurrency t.
Proof.
  intros Hk Hfc.
  pose proof (createDoubleEntry_run getFxRate t w k fc Hk Hfc) as Hrun.
  destruct (normalize_fields (uuids w) t) as (_ & _ & _ & _ & _ & _ & _ & _ & Hg).
  destruct (normalize_fees (uuids w) t) as (Hpf & Hhf & Hppf & _).
  unfold firstRow, secondRow in Hrun.
  set (p := normalize (uuids w) t) in *.
  destruct (oppositeOf_carried p fc) as (Hopf & Hohf & Hoppf & Hog & _).
  destruct (oppositeOf_parties getFxRate p fc) as [Hoc Hof].
  eexists _, _, _, _. split; [exact Hrun |]. split; [reflexivity |].
  do 2 (split; [reflexivity |]).
  destruct (JS.lt (amount t) 0);
    cbn [set_id TransactionGroup CollectiveId FromCollectiveId
         platformFeeInHostCurrency hostFeeInHostCurrency paymentProcessorFeeInHostCurrency];
    rewrite ?Hopf, ?Hohf, ?Hoppf, ?Hog, ?Hoc, ?Hof, ?Hpf, ?Hhf, ?Hppf, ?Hg;
    repeat (split; [reflexivity || (eexists; reflexivity) |]); reflexivity.
Qed.

(** X2.  When the from-collective is active, the opposite row is in the
    from-collective's currency and under its host, the rate used is
    recorded in its [data], and the two rows balance within the
    rounding: the opposite amount is the negation of the primary's net
    amount times the rate, and the opposite net amount the negation of
    the primary's amount times the rate, each within half a unit. *)
Theorem X2_active_opposite_balances
    (t : Transaction) (w : World) (k : Z) (fc : Collective) :
  FromCollectiveId t = Some k ->
  Collectives w !! k = Some fc ->
  c_isActive fc = true ->
  let fx := getFxRate (Some (currency t)) (c_currency fc) (createdAt t) in
  exists primary opposite w' net oppositeNet,
    createDoubleEntry getFxRate t w = (Returned primary, w')
    /\ (Transactions w' = Transactions w ++ [primary; opposite]
        \/ Transactions w' = Transactions w ++ [opposite; primary])
    /\ currency opposite = c_currency fc
    /\ HostCollectiveId opposite = c_HostCollectiveId fc
    /\ (data opposite ≫= oppositeTransactionCurrencyFxRate) = Some fx
    /\ netAmountInCollectiveCurrency primary = Some net
    /\ netAmountInCollectiveCurrency opposite = Some oppositeNet
    /\ Qabs (amount opposite + net * fx) <= 1 # 2
    /\ Qabs (oppositeNet + amount primary * fx) <= 1 # 2.
Proof.
  intros Hk Hfc Hact fx.
  pose proof (createDoubleEntry_run getFxRate t w k fc Hk Hfc) as Hrun.
  destruct (normalize_fields (uuids w) t) as (Ha & Hcur & _ & _ & Hat & _ & Hnet & _).
  unfold firstRow, secondRow in Hrun.
  set (p := normalize (uuids w) t) in *.
  destruct (oppositeOf_active getFxRate p fc Hact) as (Hoc & Hoh & Hoa & Hon & Hod).
  rewrite Hcur, Hat in Hoa, Hon, Hod. fold fx in Hoa, Hon, Hod.
  rewrite Hnet in Hoa. cbn [the default] in Hoa. rewrite Ha in Hon.
  assert (Hfacts : forall i j,
    currency (set_id j (oppositeOf getFxRate p fc)) = c_currency fc
    /\ HostCollectiveId (set_id j (oppositeOf getFxRate p fc)) = c_HostCollectiveId fc
    /\ (data (set_id j (oppositeOf getFxRate p fc)) ≫= oppositeTransactionCurrencyFxRate)
       = Some fx
    /\ netAmountInCollectiveCurrency (set_id i p)
       = Some (JS.or_else (netAmountInCollectiveCurrency t) (amount t))
    /\ netAmountInCollectiveCurrency (set_id j (oppositeOf getFxRate p fc))
       = Some (- JS.Math_round (amount t * fx))
    /\ Qabs (amount (set_id j (oppositeOf getFxRate p fc))
             + JS.or_else (netAmountInCollectiveCurrency t) (amount t) * fx) <= 1 # 2
    /\ Qabs (- JS.Math_round (amount t * fx) + amount (set_id i p) * fx) <= 1 # 2).
  { intros i j.
    cbn [set_id currency HostCollectiveId data netAmountInCollectiveCurrency amount].
    rewrite Hoc, Hoh, Hod, Hnet, Hon, Hoa, Ha.
    do 5 (split; [reflexivity |]).
    split; apply Math_round_within_half. }
  destruct (JS.lt (amount t) 0).
  - eexists _, _, _, _, _. split; [exact Hrun |]. split; [left; reflexivity |].
    apply Hfacts.
  - eexists _, _, _, _, _. split; [exact Hrun |]. split; [right; reflexivity |].
    apply Hfacts.
Qed.

(** X3.  When the intent has no from-collective, or one that does not
    exist, [createDoubleEntry] fails with a [TypeError] and writes no
    ledger row. *)
Theorem X3_missing_from_collective (t : Transaction) (w : World) :
  (FromCollectiveId t ≫= fun k => Collectives w !! k) = None ->
  exists w',
    createDoubleEntry getFxRate t w
    = (Thrown (mkExn TypeError [Lit "Cannot read property 'isActive' of null"]), w')
    /\ Transactions w' = Transactions w
    /\ Collectives w' = Collectives w
    /\ Expenses w' = Expenses w.
Proof.
  intros Hnone.
  destruct (normalize_fields (uuids w) t) as (_ & _ & Hf & _).
  unfold createDoubleEntry, bind, uuid, Collective_findByPk, query. cbn.
  rewrite Hf, Hnone. eexists. split; [reflexivity |]. repeat split.
Qed.

(** X4.  The amount in host currency of a row written by
    [createDoubleEntry] is always an integer: the intent's own is
    rounded, and missing only if the intent had none; the opposite row's
    is an integer within half a unit of the negated net amount (the
    amount, when the intent has no net amount) times the host rate (1
    when the intent has none). *)
Theorem X4_amount_in_host_currency_is_integer
    (t : Transaction) (w : World) (k : Z) (fc : Collective) :
  FromCollectiveId t = Some k ->
  Collectives w !! k = Some fc ->
  let net := JS.or_else (netAmountInCollectiveCurrency t) (amount t) in
  let rate := JS.or_else (hostCurrencyFxRate t) 1 in
  exists primary opposite w',
    createDoubleEntry getFxRate t w = (Returned primary, w')
    /\ (Transactions w' = Transactions w ++ [primary; opposite]
        \/ Transactions w' = Transactions w ++ [opposite; primary])
    /\ amountInHostCurrency primary = JS.Math_round <$> amountInHostCurrency t
    /\ (forall a, amountInHostCurrency primary = Some a -> exists z : Z, a = inject_Z z)
    /\ (exists z : Z,
          amountInHostCurrency opposite = Some (inject_Z z)
          /\ Qabs (inject_Z z + net * rate) <= 1 # 2).
Proof.
  intros Hk Hfc net rate.
  pose proof (createDoubleEntry_run getFxRate t w k fc Hk Hfc) as Hrun.
  destruct (normalize_fields (uuids w) t) as (_ & _ & _ & _ & _ & _ & Hnet & Hfx & _).
  destruct (normalize_fees (uuids w) t) as (_ & _ & _ & Haih).
  unfold firstRow, secondRow in Hrun.
  set (p := normalize (uuids w) t) in *.
  destruct (oppositeOf_carried p fc) as (_ & _ & _ & _ & _ & Hoaih).
  rewrite Hnet, Hfx in Hoaih. cbn [the default] in Hoaih. fold net rate in Hoaih.
  assert (Hfacts : forall i j,
    amountInHostCurrency (set_id i p) = JS.Math_round <$> amountInHostCurrency t
    /\ (forall a, amountInHostCurrency (set_id i p) = Some a -> exists z : Z, a = inject_Z z)
    /\ (exists z : Z,
          amountInHostCurrency (set_id j (oppositeOf getFxRate p fc)) = Some (inject_Z z)
          /\ Qabs (inject_Z z + net * rate) <= 1 # 2)).
  { intros i j. cbn [set_id amountInHostCurrency]. rewrite Haih, Hoaih.
    split; [reflexivity |]. split.
    - intros a Ha. destruct (amountInHostCurrency t) as [x |]; [| discriminate Ha].
      injection Ha as <-. eexists. reflexivity.
    - exists (Qfloor (- net * rate + (1 # 2))). split; [reflexivity |].
      destruct (Math_round_near (- net * rate)) as [Hlo Hhi].
      unfold JS.Math_round in Hlo, Hhi.
      apply Qabs_Qle_condition. split; lra. }
  destruct (JS.lt (amount t) 0).
  - eexists _, _, _. split; [exact Hrun |]. split; [left; reflexivity |]. apply Hfacts.
  - eexists _, _, _. split; [exact Hrun |]. split; [right; reflexivity |]. apply Hfacts.
Qed.

End LedgerMoreFacts.

Section SplitterMoreFacts.
Import TransactionModel TransactionMore.
Local Open Scope Q_scope.

Variable getFxRate : option string -> string -> option nat -> Q.
Variable toNegative : Q -> Q.
Variable props : FeesOnTopProperties.

(** X5.  Splitting a fee on top moves, in host currency, exactly the
    platform fee and the donation's share of the processor fee out of the
    main entry: its amount in host currency becomes the old one plus the
    (negative) platform fee, its platform fee becomes 0, its processor
    fee loses the share, and its host fee, parties and stored net amount
    are as before.  The share is [toNegative] of an integer within half
    a unit of the processor fee times the ratio of the platform fee to
    the amount.  The derived net amount in host currency of the main
    entry therefore changes by the share alone. *)
Theorem X5_split_main_entry_in_host_currency
    (t : Transaction) (w : World) (f a c h : Q) (k : Z) (fc : Collective) :
  flagged t ->
  platformFeeInHostCurrency t = Some f -> ~ f == 0 ->
  amountInHostCurrency t = Some a -> ~ a == 0 ->
  paymentProcessorFeeInHostCurrency t = Some c ->
  hostFeeInHostCurrency t = Some h ->
  FromCollectiveId t = Some k ->
  Collectives w !! k = Some fc ->
  exists main w' before after (rounded : Z),
    createFeesOnTopTransaction getFxRate toNegative props t w = (Returned (Some main), w')
    /\ Qabs (inject_Z rounded - c * JS.Math_abs (f / a)) <= 1 # 2
    /\ amountInHostCurrency main = Some (a + f)
    /\ platformFeeInHostCurrency main = Some 0
    /\ paymentProcessorFeeInHostCurrency main = Some (c - toNegative (inject_Z rounded))
    /\ hostFeeInHostCurrency main = Some h
    /\ CollectiveId main = CollectiveId t
    /\ FromCollectiveId main = FromCollectiveId t
    /\ netAmountInCollectiveCurrency main = netAmountInCollectiveCurrency t
    /\ netAmountInHostCurrency t = Some before
    /\ netAmountInHostCurrency main = Some after
    /\ after == before - toNegative (inject_Z rounded).
Proof.
  intros Hflag Hf Hf0 Ha Ha0 Hc Hh Hk Hfc.
  pose proof (createFeesOnTopTransaction_run getFxRate toNegative props
                t w f a c Hflag Hf Hf0 Ha Ha0 Hc) as Hrun.
  cbn zeta in Hrun.
  destruct (Math_round_near (c * JS.Math_abs (f / a))) as [Hlo Hhi].
  unfold JS.Math_round in Hlo, Hhi.
  set (rounded := Qfloor (c * JS.Math_abs (f / a) + (1 # 2))) in *.
  set (d := donationOf _ _ _ _ _ _) in Hrun.
  rewrite (createDoubleEntry_run getFxRate d w k fc Hk Hfc) in Hrun.
  eexists _, _, _, _, rounded. split; [exact Hrun |].
  split; [apply Qabs_Qle_condition; split; lra |].
  unfold netAmountInHostCurrency.
  cbn [set_platformFeeInHostCurrency set_amount set_amountInHostCurrency
       set_paymentProcessorFeeInHostCurrency amountInHostCurrency
       platformFeeInHostCurrency paymentProcessorFeeInHostCurrency hostFeeInHostCurrency
       CollectiveId FromCollectiveId netAmountInCollectiveCurrency].
  rewrite Hf, Ha, Hc, Hh. cbn [plus].
  do 9 (split; [reflexivity |]). unfold JS.Math_round, rounded. ring.
Qed.

End SplitterMoreFacts.

Section PayloadFacts.
Import TransactionModel TransactionMore.
Local Open Scope Q_scope.

Variable getFxRate : option string -> string -> option nat -> Q.
Variable toNegative : Q -> Q.
Variable props : FeesOnTopProperties.
Variable isHostAccount : Collective -> bool.
Variable getHostCollectiveId : Collective -> World -> option Z.

Abbreviation resolved := (resolvedHost isHostAccount getHostCollectiveId).

(** X6.  [createFromPayload] rejects an intent whose amount is zero, and
    an intent for a collective that has no host when the intent names
    none either; in both cases before anything is written. *)
Theorem X6_payload_rejected_before_any_write
    (payload : TransactionPayload) (w : World) :
  (amount (p_transaction payload) == 0 ->
   createFromPayload getFxRate toNegative props isHostAccount getHostCollectiveId payload w
   = (Thrown (mkExn PlainError [Lit "transaction.amount cannot be null or zero"]), w))
  /\ (forall collective,
        ~ amount (p_transaction payload) == 0 ->
        (p_CollectiveId payload ≫= fun k => Collectives w !! k) = Some collective ->
        truthyId (resolved collective w) = false ->
        truthyId (HostCollectiveId (p_transaction payload)) = false ->
        createFromPayload getFxRate toNegative props isHostAccount getHostCollectiveId
          payload w
        = (Thrown (mkExn PlainError
             [Lit "Cannot create a transaction: collective id ";
              Interp (p_CollectiveId payload);
              Lit " doesn't have a host"]), w)).
Proof.
  unfold createFromPayload. split.
  - intros H. apply Qeq_bool_iff in H. rewrite H. reflexivity.
  - intros collective Hnz Hcol Hhost Hown.
    rewrite (Qeq_bool_false _ _ Hnz).
    unfold Collective_findByPk. unfold bind at 1. unfold query at 1. rewrite Hcol.
    unfold resolvedHost in Hhost.
    destruct (isHostAccount collective).
    + unfold bind, ret. rewrite Hhost, Hown. reflexivity.
    + unfold bind, query. rewrite Hhost, Hown. reflexivity.
Qed.

(** [createFromPayload] when no fee on top is to be split off. *)
Lemma createFromPayload_unsplit
    (payload : TransactionPayload) (w : World) (collective : Collective) :
  let t := p_transaction payload in
  ~ amount t == 0 ->
  (p_CollectiveId payload ≫= fun k => Collectives w !! k) = Some collective ->
  truthyId (resolved collective w) || truthyId (HostCollectiveId t) = true ->
  from_option isFeesOnTop false (data t)
  && JS.truthy (toNegative <$> platformFeeInHostCurrency t) = false ->
  createFromPayload getFxRate toNegative props isHostAccount getHostCollectiveId payload w
  = createDoubleEntry getFxRate
      (populateNet (attach toNegative payload (resolved collective w) t)) w.
Proof.
  intros t Hnz Hcol Hhost Hsplit. unfold createFromPayload. fold t.
  rewrite (Qeq_bool_false _ _ Hnz).
  unfold Collective_findByPk. unfold bind at 1. unfold query at 1. rewrite Hcol.
  assert (Hguard : negb (truthyId (resolved collective w))
                   && negb (truthyId (HostCollectiveId t)) = false).
  { destruct (truthyId (resolved collective w)), (truthyId (HostCollectiveId t));
      cbn in *; congruence. }
  unfold resolvedHost in *.
  destruct (isHostAccount collective).
  - unfold bind at 1. unfold ret at 1. rewrite Hguard.
    cbn [attach data platformFeeInHostCurrency]. rewrite Hsplit. reflexivity.
  - unfold bind at 1. unfold query at 1. rewrite Hguard.
    cbn [attach data platformFeeInHostCurrency]. rewrite Hsplit. reflexivity.
Qed.

Lemma populateNet_fields (t : Transaction) :
  amount (populateNet t) = amount t
  /\ FromCollectiveId (populateNet t) = FromCollectiveId t
  /\ CollectiveId (populateNet t) = CollectiveId t
  /\ CreatedByUserId (populateNet t) = CreatedByUserId t
  /\ HostCollectiveId (populateNet t) = HostCollectiveId t
  /\ platformFeeInHostCurrency (populateNet t) = platformFeeInHostCurrency t
  /\ hostFeeInHostCurrency (populateNet t) = hostFeeInHostCurrency t
  /\ paymentProcessorFeeInHostCurrency (populateNet t) = paymentProcessorFeeInHostCurrency t.
Proof. unfold populateNet. destruct (JS.gt (amount t) 0); repeat split. Qed.

Lemma normalize_user (g : nat) (t : Transaction) :
  CreatedByUserId (normalize g t) = CreatedByUserId t.
Proof.
  unfold normalize; cbn. destruct (amountInHostCurrency t) eqn:E; cbn; rewrite ?E; reflexivity.
Qed.

Lemma populateNet_net (t : Transaction) (a f h c r : Q) :
  JS.gt (amount t) 0 = true ->
  amountInHostCurrency t = Some a ->
  platformFeeInHostCurrency t = Some f ->
  hostFeeInHostCurrency t = Some h ->
  paymentProcessorFeeInHostCurrency t = Some c ->
  hostCurrencyFxRate t = Some r -> ~ r == 0 ->
  netAmountInCollectiveCurrency (populateNet t)
  = Some (JS.Math_round ((a + (JS.or_else (taxAmount t) 0 + f + h + c)) / r)).
Proof.
  intros Hgt Ha Hf Hh Hc Hr Hr0. unfold populateNet. rewrite Hgt.
  cbn [set_netAmountInCollectiveCurrency netAmountInCollectiveCurrency].
  rewrite Ha, Hf, Hh, Hc, Hr. cbn [plus JS.truthy].
  rewrite (Qeq_bool_false r 0 Hr0). reflexivity.
Qed.

Lemma attach_fields (payload : TransactionPayload) (hostId : option Z) (t : Transaction) :
  amount (attach toNegative payload hostId t) = amount t
  /\ CollectiveId (attach toNegative payload hostId t) = p_CollectiveId payload
  /\ FromCollectiveId (attach toNegative payload hostId t) = p_FromCollectiveId payload
  /\ CreatedByUserId (attach toNegative payload hostId t) = p_CreatedByUserId payload
  /\ platformFeeInHostCurrency (attach toNegative payload hostId t)
     = toNegative <$> platformFeeInHostCurrency t
  /\ hostFeeInHostCurrency (attach toNegative payload hostId t)
     = toNegative <$> hostFeeInHostCurrency t
  /\ paymentProcessorFeeInHostCurrency (attach toNegative payload hostId t)
     = toNegative <$> paymentProcessorFeeInHostCurrency t
  /\ taxAmount (attach toNegative payload hostId t) = toNegative <$> taxAmount t
  /\ amountInHostCurrency (attach toNegative payload hostId t) = amountInHostCurrency t
  /\ hostCurrencyFxRate (attach toNegative payload hostId t) = hostCurrencyFxRate t.
Proof. repeat split. Qed.

(** X7.  For a contribution (a positive amount, no fee on top to split)
    [createFromPayload] stores the fees through [toNegative] and
    computes the net amount in collective currency: an integer within
    half a unit of the amount in host currency plus the fees, divided by
    the host rate.  When that integer is 0 the stored net amount is the
    amount itself, because [createDoubleEntry] takes a net amount of 0
    as unset.  The row is a CREDIT for the payload's parties, written
    after its opposite. *)
Theorem X7_contribution_net_amount
    (payload : TransactionPayload) (w : World) (collective fc : Collective)
    (k : Z) (a f h c r : Q) :
  let t := p_transaction payload in
  0 < amount t ->
  (p_CollectiveId payload ≫= fun k => Collectives w !! k) = Some collective ->
  truthyId (resolved collective w) || truthyId (HostCollectiveId t) = true ->
  from_option isFeesOnTop false (data t) = false ->
  p_FromCollectiveId payload = Some k ->
  Collectives w !! k = Some fc ->
  amountInHostCurrency t = Some a ->
  platformFeeInHostCurrency t = Some f ->
  hostFeeInHostCurrency t = Some h ->
  paymentProcessorFeeInHostCurrency t = Some c ->
  hostCurrencyFxRate t = Some r -> ~ r == 0 ->
  let fees :=
    JS.or_else (toNegative <$> taxAmount t) 0
    + toNegative f + toNegative h + toNegative c in
  exists primary opposite w' (rounded : Z),
    createFromPayload getFxRate toNegative props isHostAccount getHostCollectiveId payload w
    = (Returned primary, w')
    /\ Qabs (inject_Z rounded - (a + fees) / r) <= 1 # 2
    /\ Transactions w' = Transactions w ++ [opposite; primary]
    /\ type primary = Some CREDIT
    /\ CollectiveId primary = p_CollectiveId payload
    /\ FromCollectiveId primary = p_FromCollectiveId payload
    /\ CreatedByUserId primary = p_CreatedByUserId payload
    /\ platformFeeInHostCurrency primary = Some (toNegative f)
    /\ hostFeeInHostCurrency primary = Some (toNegative h)
    /\ paymentProcessorFeeInHostCurrency primary = Some (toNegative c)
    /\ (rounded <> 0%Z ->
        netAmountInCollectiveCurrency primary = Some (inject_Z rounded))
    /\ (rounded = 0%Z -> netAmountInCollectiveCurrency primary = Some (amount t)).
Proof.
  intros t Hpos Hcol Hhost Hflag Hk Hfc Ha Hf Hh Hc Hr Hr0 fees.
  set (computed := JS.Math_round ((a + fees) / r)).
  set (rounded := Qfloor ((a + fees) / r + (1 # 2))).
  assert (Hcomputed : computed = inject_Z rounded) by reflexivity.
  assert (Hnear : Qabs (inject_Z rounded - (a + fees) / r) <= 1 # 2).
  { destruct (Math_round_near ((a + fees) / r)) as [Hlo Hhi].
    fold computed in Hlo, Hhi. rewrite Hcomputed in Hlo, Hhi.
    apply Qabs_Qle_condition. split; lra. }
  assert (Hnz : ~ amount t == 0) by lra.
  assert (Hsplit : from_option isFeesOnTop false (data t)
                   && JS.truthy (toNegative <$> platformFeeInHostCurrency t) = false)
    by (rewrite Hflag; reflexivity).
  rewrite (createFromPayload_unsplit payload w collective Hnz Hcol Hhost Hsplit).
  fold t.
  destruct (attach_fields payload (resolved collective w) t)
    as (Hta & Htc & Htf & Htu & Htpf & Hthf & Htppf & Httax & Htaih & Htfx).
  set (t1 := attach toNegative payload (resolved collective w) t) in *.
  rewrite Hf in Htpf. rewrite Hh in Hthf. rewrite Hc in Htppf.
  rewrite Ha in Htaih. rewrite Hr in Htfx.
  cbn [fmap option_fmap option_map] in Htpf, Hthf, Htppf.
  assert (Hgt : JS.gt (amount t1) 0 = true) by (apply gt_spec; rewrite Hta; exact Hpos).
  pose proof (populateNet_net t1 a (toNegative f) (toNegative h) (toNegative c) r
                Hgt Htaih Htpf Hthf Htppf Htfx Hr0) as Hnet.
  rewrite Httax in Hnet. fold fees computed in Hnet.
  destruct (populateNet_fields t1) as (Hpa & Hpf & Hpc & Hpu & _ & Hppf & Hphf & Hpppf).
  set (t2 := populateNet t1) in *.
  assert (Hfrom : FromCollectiveId t2 = Some k) by (rewrite Hpf, Htf; exact Hk).
  rewrite (createDoubleEntry_run getFxRate t2 w k fc Hfrom Hfc).
  assert (Hlt : JS.lt (amount t2) 0 = false).
  { destruct (JS.lt (amount t2) 0) eqn:E; [| reflexivity].
    apply lt_spec in E. rewrite Hpa, Hta in E. lra. }
  rewrite Hlt. unfold secondRow. rewrite Hlt.
  destruct (normalize_fields (uuids w) t2) as (Hna & _ & Hnf & Hnc & _ & Hnty & Hnnet & _).
  destruct (normalize_fees (uuids w) t2) as (Hnpf & Hnhf & Hnppf & _).
  pose proof (normalize_user (uuids w) t2) as Hnu.
  set (p := normalize (uuids w) t2) in *.
  exists (set_id (Some (Z.of_nat (length (Transactions w)) + 2)%Z) p).
  eexists _, _, rounded. split; [reflexivity |]. split; [exact Hnear |].
  split; [reflexivity |].
  change (type (set_id (Some (Z.of_nat (length (Transactions w)) + 2)%Z) p)) with (type p).
  change (CollectiveId (set_id (Some (Z.of_nat (length (Transactions w)) + 2)%Z) p))
    with (CollectiveId p).
  change (FromCollectiveId (set_id (Some (Z.of_nat (length (Transactions w)) + 2)%Z) p))
    with (FromCollectiveId p).
  change (CreatedByUserId (set_id (Some (Z.of_nat (length (Transactions w)) + 2)%Z) p))
    with (CreatedByUserId p).
  change (platformFeeInHostCurrency
            (set_id (Some (Z.of_nat (length (Transactions w)) + 2)%Z) p))
    with (platformFeeInHostCurrency p).
  change (hostFeeInHostCurrency (set_id (Some (Z.of_nat (length (Transactions w)) + 2)%Z) p))
    with (hostFeeInHostCurrency p).
  change (paymentProcessorFeeInHostCurrency
            (set_id (Some (Z.of_nat (length (Transactions w)) + 2)%Z) p))
    with (paymentProcessorFeeInHostCurrency p).
  change (netAmountInCollectiveCurrency
            (set_id (Some (Z.of_nat (length (Transactions w)) + 2)%Z) p))
    with (netAmountInCollectiveCurrency p).
  rewrite Hnty, Hnc, Hnf, Hnu, Hnpf, Hnhf, Hnppf, Hnnet.
  rewrite Hpa, Hpc, Hpf, Hpu, Hppf, Hphf, Hpppf, Hnet.
  rewrite Hta, Htc, Htf, Htu, Htpf, Hthf, Htppf.
  split. { f_equal. apply typeOf_credit. exact Hpos. }
  do 6 (split; [reflexivity |]).
  cbn [JS.or_else]. split.
  - intros Hc0.
    assert (Hq : ~ computed == 0).
    { rewrite Hcomputed. change 0 with (inject_Z 0). rewrite inject_Z_injective. exact Hc0. }
    rewrite (Qeq_bool_false _ _ Hq). reflexivity.
  - intros Hc0.
    assert (Hq : Qeq_bool computed 0 = true).
    { apply Qeq_bool_iff. rewrite Hcomputed, Hc0. reflexivity. }
    rewrite Hq. reflexivity.
Qed.

(** X8.  An entry that is flagged as carrying a fee on top but whose
    platform fee is zero or missing is not handed to the splitter:
    [createFromPayload] returns its row and writes this row and its
    opposite, nothing for the platform. *)
Theorem X8_zero_fee_on_top_is_not_split
    (payload : TransactionPayload) (w : World) (collective fc : Collective) (k : Z) :
  let t := p_transaction payload in
  flagged t ->
  JS.truthy (toNegative <$> platformFeeInHostCurrency t) = false ->
  ~ amount t == 0 ->
  (p_CollectiveId payload ≫= fun k => Collectives w !! k) = Some collective ->
  truthyId (resolved collective w) || truthyId (HostCollectiveId t) = true ->
  p_FromCollectiveId payload = Some k ->
  Collectives w !! k = Some fc ->
  exists primary first second w',
    createFromPayload getFxRate toNegative props isHostAccount getHostCollectiveId payload w
    = (Returned primary, w')
    /\ Transactions w' = Transactions w ++ [first; second]
    /\ (primary = first \/ primary = second)
    /\ CollectiveId primary = p_CollectiveId payload
    /\ FromCollectiveId primary = p_FromCollectiveId payload
    /\ CollectiveId first = FromCollectiveId second
    /\ FromCollectiveId first = CollectiveId second
    /\ amount primary = amount t.
Proof.
  intros t Hflag Hfee Hnz Hcol Hhost Hk Hfc.
  assert (Hsplit : from_option isFeesOnTop false (data t)
                   && JS.truthy (toNegative <$> platformFeeInHostCurrency t) = false)
    by (rewrite Hfee; apply andb_false_r).
  rewrite (createFromPayload_unsplit payload w collective Hnz Hcol Hhost Hsplit).
  fold t.
  set (t1 := attach toNegative payload (resolved collective w) t).
  destruct (populateNet_fields t1) as (Hpa & Hpf & Hpc & _).
  assert (Hfrom : FromCollectiveId (populateNet t1) = Some k) by (rewrite Hpf; exact Hk).
  rewrite (createDoubleEntry_run getFxRate (populateNet t1) w k fc Hfrom Hfc).
  destruct (normalize_fields (uuids w) (populateNet t1))
    as (Hna & _ & Hnf & Hnc & _).
  unfold firstRow, secondRow.
  set (p := normalize (uuids w) (populateNet t1)) in *.
  destruct (oppositeOf_parties getFxRate p fc) as [Hoc Hof].
  destruct (JS.lt (amount (populateNet t1)) 0).
  - eexists _, _, _, _. split; [reflexivity |]. split; [reflexivity |].
    split; [left; reflexivity |].
    cbn [set_id CollectiveId FromCollectiveId amount].
    rewrite Hoc, Hof, Hnc, Hnf, Hna, Hpa, Hpc, Hpf. repeat split.
  - eexists _, _, _, _. split; [reflexivity |]. split; [reflexivity |].
    split; [right; reflexivity |].
    cbn [set_id CollectiveId FromCollectiveId amount].
    rewrite Hoc, Hof, Hnc, Hnf, Hna, Hpa, Hpc, Hpf. repeat split.
Qed.

End PayloadFacts.

Section HostAndExportFacts.
Import TransactionModel TransactionMore.
Local Open Scope Q_scope.

Variable calcFee : Q -> Q -> Q.

(** X9.  [creditHost] writes a single row, with no opposite row: a
    CREDIT whatever the sign of the amount, from the collective of the
    order to itself, under the given host.  Its stored net amount is the
    total less the platform fee, and agrees with the net amount in host
    currency derived from its fees. *)
Theorem X9_credit_host_row (order : Order) (collective : Collective) (w : World) :
  exists row w' net derived,
    creditHost calcFee order collective w = (Returned row, w')
    /\ Transactions w' = Transactions w ++ [row]
    /\ Collectives w' = Collectives w
    /\ type row = Some CREDIT
    /\ CollectiveId row = Some (o_CollectiveId order)
    /\ FromCollectiveId row = Some (o_CollectiveId order)
    /\ HostCollectiveId row = Some (c_id collective)
    /\ amount row = totalAmount order
    /\ netAmountInCollectiveCurrency row = Some net
    /\ net = totalAmount order
             - calcFee (totalAmount order) (default 0 (platformFeePercent order))
    /\ netAmountInHostCurrency row = Some derived
    /\ derived == net.
Proof.
  eexists _, _, _, _. split; [reflexivity |].
  do 10 (split; [reflexivity |]). ring.
Qed.

Variable exportToCSV :
  list Transaction -> list string -> (string -> string) -> (string -> Cell -> Cell) -> string.
Variable formatDate stripHTML slugOf : Cell -> Cell.
Variable toNumber : Cell -> option Q.

Abbreviation export := (exportCSV exportToCSV formatDate stripHTML slugOf toNumber).
Abbreviation process := (processValue formatDate stripHTML slugOf toNumber).

(** X10.  [exportCSV] of an empty list fails with a [TypeError].
    Otherwise the columns are the fifteen fixed ones, with [taxAmount]
    inserted as the sixth, between the amount and the currency, exactly
    when the host currency of the first transaction is EUR.  The amounts
    in the six money columns are divided by 100; the tax amount is not
    among them and is exported as it is. *)
Theorem X10_export_columns :
  export [] = Thrown (mkExn TypeError [Lit "Cannot read property 'hostCurrency' of undefined"])
  /\ (forall first rest,
        export (first :: rest)
        = Returned (exportToCSV (first :: rest) (csvAttributes first) getColumnName process))
  /\ (forall first,
        hostCurrency first = Some "EUR"%string ->
        length (csvAttributes first) = 16%nat
        /\ nth_error (csvAttributes first) 4 = Some "amount"%string
        /\ nth_error (csvAttributes first) 5 = Some "taxAmount"%string
        /\ nth_error (csvAttributes first) 6 = Some "currency"%string)
  /\ (forall first,
        hostCurrency first <> Some "EUR"%string ->
        csvAttributes first = attributes
        /\ length (csvAttributes first) = 15%nat
        /\ ~ In "taxAmount"%string (csvAttributes first))
  /\ (forall attr q,
        In attr centsAttributes -> process attr (CellNumber q) = CellNumber (q / 100))
  /\ (forall value, process "taxAmount" value = value).
Proof.
  split; [reflexivity |]. split; [reflexivity |]. split; [| split; [| split]].
  - intros first H. unfold csvAttributes. rewrite H. repeat split.
  - intros first H. unfold csvAttributes.
    assert (E : isEUR (hostCurrency first) = false).
    { destruct (hostCurrency first) as [s |]; [| reflexivity]. cbn.
      destruct (String.eqb_spec s "EUR"); [congruence | reflexivity]. }
    rewrite E. split; [reflexivity |]. split; [reflexivity |].
    cbn. intros Hin. repeat (destruct Hin as [Hin | Hin]; [discriminate Hin |]). exact Hin.
  - intros attr q Hin. cbn in Hin.
    repeat (destruct Hin as [<- | Hin]; [reflexivity |]). contradiction.
  - intros value. reflexivity.
Qed.

End HostAndExportFacts.

(** * Further properties of the expense mutations *)

Section ItemFacts.
Import Expenses ExpensesMore.

(** X11.  The items of an expense are accepted exactly when there are
    between 1 and 100 of them, the sum of their amounts is the amount of
    the expense and is not 0, and, for a receipt, each item has a file. *)
Theorem X11_items_accepted_exactly_when
    (d : ExpenseData) (items : option (list ExpenseItem)) :
  checkExpenseItems d items = Returned tt
  <-> exists l,
        items = Some l
        /\ l <> []
        /\ (length l <= 100)%nat
        /\ d_amount d = Some (sumOf l)
        /\ sumOf l <> 0
        /\ (isReceipt (d_type d) = true -> forallb hasUrl l = true).
Proof.
  split.
  - destruct items as [l |]; [| discriminate].
    intros H. exists l. split; [reflexivity |]. apply (checkExpenseItems_accepts d l H).
  - intros (l & -> & Hne & Hlen & Hsum & Hnz & Hfiles).
    unfold checkExpenseItems. destruct l as [| a l]; [congruence |].
    set (items := a :: l) in *.
    assert (Hle : Z.ltb 100 (Z.of_nat (length items)) = false) by (apply Z.ltb_ge; lia).
    rewrite Hle, getTotalAmountFromItems_sum, Hsum.
    cbn [from_option]. unfold sumOf in *. rewrite Z.eqb_refl. cbn [negb].
    apply Z.eqb_neq in Hnz. rewrite Hnz.
    destruct (isReceipt (d_type d)); [| reflexivity].
    rewrite (existsb_negb_forallb hasUrl items (Hfiles eq_refl)). reflexivity.
Qed.

(** X12.  The bounds come first: a missing or empty item list is
    rejected for having no item, and a list of more than 100 items for
    having too many, whatever the amounts.  Items that add up to the
    expense's amount are still rejected when that amount is 0. *)
Theorem X12_item_bounds (d : ExpenseData) :
  checkExpenseItems d None
  = Thrown (mkExn ValidationFailed [Lit "Your expense needs to have at least one item"])
  /\ checkExpenseItems d (Some [])
     = Thrown (mkExn ValidationFailed [Lit "Your expense needs to have at least one item"])
  /\ (forall l,
        (100 < length l)%nat ->
        checkExpenseItems d (Some l)
        = Thrown (mkExn ValidationFailed [Lit "Expenses cannot have more than 100 items"]))
  /\ (forall l,
        l <> [] -> (length l <= 100)%nat ->
        d_amount d = Some 0 -> sumOf l = 0 ->
        checkExpenseItems d (Some l)
        = Thrown (mkExn ValidationFailed [Lit "The sum of all items must be above 0"])).
Proof.
  split; [reflexivity |]. split; [reflexivity |]. split.
  - intros l Hlen. unfold checkExpenseItems. destruct l as [| a l]; [cbn in Hlen; lia |].
    assert (Hgt : Z.ltb 100 (Z.of_nat (length (a :: l))) = true) by (apply Z.ltb_lt; lia).
    rewrite Hgt. reflexivity.
  - intros l Hne Hlen Hd Hsum. unfold checkExpenseItems. destruct l as [| a l]; [congruence |].
    assert (Hle : Z.ltb 100 (Z.of_nat (length (a :: l))) = false) by (apply Z.ltb_ge; lia).
    rewrite Hle, getTotalAmountFromItems_sum, Hd. unfold sumOf in Hsum. rewrite Hsum.
    reflexivity.
Qed.

End ItemFacts.

Section StatusFacts.
Import Expenses ExpensesMore.

Variable ext : Externals.

Lemma status_eqb_refl (st : ExpenseStatus) : status_eqb st st = true.
Proof. destruct st; reflexivity. Qed.

Lemma status_eqb_neq (a b : ExpenseStatus) : a <> b -> status_eqb a b = false.
Proof. destruct a, b; cbn; congruence. Qed.

Lemma statusOfKey_keyOf (st : ExpenseStatus) : statusOfKey (keyOf st) = Some st.
Proof. destruct st; reflexivity. Qed.

(** [updateExpenseStatus] for a caller who may update the expense. *)
Lemma updateExpenseStatus_permitted
    (req : Req) (expenseId : Z) (target : ExpenseStatus) (w : World) (e : Expense)
    (user : User) :
  remoteUser req = Some user ->
  canUseFeature ext user = true ->
  Expenses w !! expenseId = Some e ->
  status e <> PROCESSING ->
  canUpdateExpenseStatus ext req e w = true ->
  updateExpenseStatus ext req expenseId (keyOf target) w =
    if status_eqb (status e) target then (Returned e, w)
    else if allowedTransition (status e) target then
      (run (match activityOf target with
            | Some activity => createActivity ext e activity user
            | None => ret tt
            end) in
       ret (updatedTo e target (u_id user)))
        (mkWorld (Collectives w) (Transactions w)
           (<[e_id e := updatedTo e target (u_id user)]> (Expenses w)) (uuids w))
    else (Thrown (transitionError target), w).
Proof.
  intros Hu Hfeat Hfound Hproc Hperm.
  unfold updateExpenseStatus. rewrite Hu, Hfeat, statusOfKey_keyOf. cbn [negb].
  unfold Expense_findByPk. rewrite bind_query, Hfound.
  rewrite (status_eqb_neq _ _ Hproc), bind_query, Hperm. cbn [negb].
  destruct (status_eqb (status e) target) eqn:Hsame; [reflexivity |].
  unfold allowedTransition. rewrite (status_eqb_neq _ _ Hproc). cbn [negb andb].
  destruct target, (status e) eqn:Hst; try discriminate Hsame; try congruence;
    reflexivity.
Qed.

(** X14.  For a caller who may update the expense, asking for the
    status that the expense already has returns the expense and writes
    nothing, and a change of status that the guards refuse (to APPROVED
    or REJECTED from PAID, to PAID from anything but APPROVED) fails and
    writes nothing. *)
Theorem X14_redundant_or_refused_status_change
    (req : Req) (expenseId : Z) (target : ExpenseStatus) (w : World) (e : Expense)
    (user : User) :
  remoteUser req = Some user ->
  canUseFeature ext user = true ->
  Expenses w !! expenseId = Some e ->
  status e <> PROCESSING ->
  canUpdateExpenseStatus ext req e w = true ->
  (status e = target ->
   updateExpenseStatus ext req expenseId (keyOf target) w = (Returned e, w))
  /\ (status e <> target ->
      allowedTransition (status e) target = false ->
      updateExpenseStatus ext req expenseId (keyOf target) w
      = (Thrown (transitionError target), w))
  /\ (status e = PAID ->
      allowedTransition (status e) APPROVED = false
      /\ allowedTransition (status e) REJECTED = false)
  /\ (status e <> APPROVED -> allowedTransition (status e) PAID = false).
Proof.
  intros Hu Hfeat Hfound Hproc Hperm.
  pose proof (updateExpenseStatus_permitted req expenseId target w e user
                Hu Hfeat Hfound Hproc Hperm) as Hrun.
  split; [| split; [| split]].
  - intros Hsame. rewrite Hrun, Hsame, status_eqb_refl. reflexivity.
  - intros Hdiff Hno. rewrite Hrun, (status_eqb_neq _ _ Hdiff), Hno. reflexivity.
  - intros ->. split; reflexivity.
  - intros Hna. unfold allowedTransition. rewrite (status_eqb_neq _ _ Hna).
    apply andb_false_r.
Qed.

(** X15.  A change of status that the guards let through is stored: for
    a caller who may update the expense, and when recording the activity
    succeeds without touching the expenses or the ledger, the expense
    found afterwards under the same key has the new status and the
    caller as its last editor, its amount is as before, every other
    expense is as before, and no ledger row is written. *)
Theorem X15_accepted_status_change_is_stored
    (req : Req) (expenseId : Z) (target : ExpenseStatus) (w : World) (e : Expense)
    (user : User) :
  activitiesAreSideNotes (createActivity ext) ->
  remoteUser req = Some user ->
  canUseFeature ext user = true ->
  Expenses w !! expenseId = Some e ->
  e_id e = expenseId ->
  canUpdateExpenseStatus ext req e w = true ->
  status e <> target ->
  allowedTransition (status e) target = true ->
  exists updated w',
    updateExpenseStatus ext req expenseId (keyOf target) w = (Returned updated, w')
    /\ Expenses w' !! expenseId = Some updated
    /\ status updated = target
    /\ lastEditedById updated = Some (u_id user)
    /\ e_amount updated = e_amount e
    /\ (forall other, other <> expenseId -> Expenses w' !! other = Expenses w !! other)
    /\ Transactions w' = Transactions w.
Proof.
  intros Hact Hu Hfeat Hfound Hid Hperm Hdiff Hok.
  assert (Hproc : status e <> PROCESSING).
  { intros Hp. unfold allowedTransition in Hok. rewrite Hp in Hok. discriminate Hok. }
  rewrite (updateExpenseStatus_permitted req expenseId target w e user
             Hu Hfeat Hfound Hproc Hperm).
  rewrite (status_eqb_neq _ _ Hdiff), Hok, Hid.
  set (w1 := mkWorld _ _ _ _).
  assert (Hstep : exists w',
    (match activityOf target with
     | Some activity => createActivity ext e activity user
     | None => ret tt
     end) w1 = (Returned tt, w')
    /\ Expenses w' = Expenses w1 /\ Transactions w' = Transactions w1).
  { destruct (activityOf target) as [activity |].
    - apply Hact.
    - exists w1. repeat split. }
  destruct Hstep as (w' & Hrun & Hexp & Htx).
  exists (updatedTo e target (u_id user)), w'.
  unfold bind. rewrite Hrun. split; [reflexivity |].
  rewrite Hexp, Htx. unfold w1. cbn [Expenses Transactions].
  split; [apply lookup_insert_eq |].
  do 3 (split; [reflexivity |]).
  split; [| reflexivity].
  intros other Hother. apply lookup_insert_ne. congruence.
Qed.

(** X16.  An expense cannot be set to PAID while it is PENDING, but it
    can once it has been approved: for a caller who may update it, the
    first request fails and writes nothing, and after a request for
    APPROVED the request for PAID succeeds and is stored. *)
Theorem X16_paid_only_after_approval
    (req : Req) (expenseId : Z) (w : World) (e : Expense) (user : User) :
  activitiesAreSideNotes (createActivity ext) ->
  (forall e' w', canUpdateExpenseStatus ext req e' w' = true) ->
  remoteUser req = Some user ->
  canUseFeature ext user = true ->
  Expenses w !! expenseId = Some e ->
  e_id e = expenseId ->
  status e = PENDING ->
  updateExpenseStatus ext req expenseId "PAID" w
  = (Thrown (mkExn Unauthorized
       [Lit "The expense must be approved before you can set it to paid"]), w)
  /\ exists approved w1 paid w2,
       updateExpenseStatus ext req expenseId "APPROVED" w = (Returned approved, w1)
       /\ updateExpenseStatus ext req expenseId "PAID" w1 = (Returned paid, w2)
       /\ Expenses w2 !! expenseId = Some paid
       /\ status paid = PAID
       /\ Transactions w2 = Transactions w.
Proof.
  intros Hact Hperm Hu Hfeat Hfound Hid Hst.
  assert (Hproc : status e <> PROCESSING) by congruence.
  split.
  - change "PAID" with (keyOf PAID).
    rewrite (updateExpenseStatus_permitted req expenseId PAID w e user
               Hu Hfeat Hfound Hproc (Hperm e w)).
    rewrite Hst. reflexivity.
  - pose proof (updateExpenseStatus_permitted req expenseId APPROVED w e user
                  Hu Hfeat Hfound Hproc (Hperm e w)) as Hrun1.
    rewrite Hst in Hrun1.
    cbn [status_eqb allowedTransition negb andb activityOf keyOf] in Hrun1.
    set (approved := updatedTo e APPROVED (u_id user)) in *.
    set (wa := mkWorld _ _ _ _) in Hrun1.
    destruct (Hact e COLLECTIVE_EXPENSE_APPROVED user wa) as (w1 & Hnote & Hexp1 & Htx1).
    unfold bind in Hrun1. rewrite Hnote in Hrun1.
    assert (Hfound1 : Expenses w1 !! expenseId = Some approved).
    { rewrite Hexp1. unfold wa. cbn [Expenses]. rewrite Hid. apply lookup_insert_eq. }
    assert (Hproc1 : status approved <> PROCESSING) by discriminate.
    pose proof (updateExpenseStatus_permitted req expenseId PAID w1 approved user
                  Hu Hfeat Hfound1 Hproc1 (Hperm approved w1)) as Hrun2.
    cbn [approved updatedTo status status_eqb allowedTransition negb andb activityOf keyOf
         e_id] in Hrun2.
    eexists _, _, _, _. split; [exact Hrun1 |]. split; [exact Hrun2 |].
    cbn [Expenses Transactions]. rewrite Hid.
    split; [apply lookup_insert_eq |]. split; [reflexivity |].
    rewrite Htx1. reflexivity.
Qed.

End StatusFacts.

Lemma roundZ_within_half (x : Q) : (Qabs (inject_Z (Expenses.roundZ x) - x) <= 1 # 2)%Q.
Proof.
  destruct (Math_round_near x) as [Hlo Hhi].
  change (JS.Math_round x) with (inject_Z (Expenses.roundZ x)) in Hlo, Hhi.
  apply Qabs_Qle_condition. split; lra.
Qed.

Section DeleteAndPayFacts.
Import Expenses ExpensesMore.

Variable ext : Externals.
Variable canDeleteExpense : Req -> Expense -> World -> bool.

Abbreviation delete_ := (deleteExpense ext canDeleteExpense).

(** X17.  A delete that fails writes nothing.  A delete by a caller who
    may delete the expense removes it from the expenses that can be
    found and leaves the ledger as it is; after it, deleting the expense
    again, paying it or changing its status fails because the expense is
    not found. *)
Theorem X17_delete_expense
    (req : Req) (expenseId : Z) (w : World) :
  (forall err w', delete_ req expenseId w = (Thrown err, w') -> w' = w)
  /\ (forall user e,
        remoteUser req = Some user ->
        canUseFeature ext user = true ->
        Expenses w !! expenseId = Some e ->
        e_id e = expenseId ->
        canDeleteExpense req e w = true ->
        exists w',
          delete_ req expenseId w = (Returned e, w')
          /\ Expenses w' = delete expenseId (Expenses w)
          /\ Expenses w' !! expenseId = None
          /\ Transactions w' = Transactions w
          /\ delete_ req expenseId w'
             = (Thrown (mkExn NotFound [Lit "Expense not found"]), w')
          /\ (forall args,
                arg_id args = expenseId ->
                payExpense ext req args w'
                = (Thrown (mkExn Unauthorized [Lit "Expense not found"]), w'))
          /\ (forall target,
                updateExpenseStatus ext req expenseId (keyOf target) w'
                = (Thrown (mkExn Unauthorized [Lit "Expense not found"]), w'))).
Proof.
  split.
  - intros err w'. unfold deleteExpense.
    destruct (remoteUser req) as [user |]; [| intros H; injection H as _ <-; reflexivity].
    destruct (negb (canUseFeature ext user));
      [intros H; injection H as _ <-; reflexivity |].
    unfold Expense_findByPk. rewrite bind_query.
    destruct (Expenses w !! expenseId) as [e |];
      [| intros H; injection H as _ <-; reflexivity].
    rewrite bind_query.
    destruct (negb (canDeleteExpense req e w));
      [intros H; injection H as _ <-; reflexivity |].
    intros H. discriminate H.
  - intros user e Hu Hfeat Hfound Hid Hperm.
    eexists. split.
    { unfold deleteExpense, Expense_findByPk. rewrite Hu, Hfeat. cbn [negb].
      rewrite bind_query, Hfound, bind_query, Hperm. reflexivity. }
    cbn [Expenses Transactions]. rewrite Hid.
    split; [reflexivity |]. split; [apply lookup_delete_eq |]. split; [reflexivity |].
    split; [| split].
    + unfold deleteExpense, Expense_findByPk. rewrite Hu, Hfeat. cbn [negb].
      rewrite bind_query. cbn [Expenses]. rewrite lookup_delete_eq. reflexivity.
    + intros args Harg. unfold payExpense, Expense_findByPk. rewrite Hu, Hfeat.
      cbn [negb]. rewrite bind_query. cbn [Expenses]. rewrite Harg, lookup_delete_eq.
      reflexivity.
    + intros target. unfold updateExpenseStatus, Expense_findByPk.
      rewrite Hu, Hfeat, statusOfKey_keyOf. cbn [negb].
      rewrite bind_query. cbn [Expenses]. rewrite lookup_delete_eq. reflexivity.
Qed.

(** X18.  [payExpense] pays approved expenses only.  For a caller who is
    logged in and may use expenses, an expense that is being processed
    is refused as such, and an expense that is pending or rejected is
    refused with a message that gives its status; nothing is written. *)
Theorem X18_only_approved_expenses_are_paid
    (req : Req) (args : PayArgs) (w : World) (e : Expense) (user : User) :
  remoteUser req = Some user ->
  canUseFeature ext user = true ->
  Expenses w !! arg_id args = Some e ->
  (status e = PROCESSING ->
   payExpense ext req args w
   = (Thrown (mkExn Unauthorized
        [Lit "Expense is currently being processed, this means someone already started the payment process"]),
      w))
  /\ (status e = PENDING \/ status e = REJECTED ->
      payExpense ext req args w
      = (Thrown (mkExn Unauthorized
           [Lit "Expense needs to be approved. Current status of the expense: ";
            InterpStatus (status e); Lit "."]), w))
  /\ (status e <> APPROVED -> failsUnchanged (payExpense ext req args) w).
Proof.
  intros Hu Hfeat Hfound.
  assert (Hrun : payExpense ext req args w =
    match status e with
    | PAID => (Thrown (mkExn Unauthorized [Lit "Expense has already been paid"]), w)
    | PROCESSING =>
        (Thrown (mkExn Unauthorized
           [Lit "Expense is currently being processed, this means someone already started the payment process"]),
         w)
    | APPROVED => payExpense ext req args w
    | _ =>
        (Thrown (mkExn Unauthorized
           [Lit "Expense needs to be approved. Current status of the expense: ";
            InterpStatus (status e); Lit "."]), w)
    end).
  { destruct (status e) eqn:Hst; try reflexivity;
      unfold payExpense, Expense_findByPk; rewrite Hu, Hfeat; cbn [negb];
      rewrite bind_query, Hfound, Hst; reflexivity. }
  split; [| split].
  - intros Hst. rewrite Hrun, Hst. reflexivity.
  - intros [Hst | Hst]; rewrite Hrun, Hst; reflexivity.
  - intros Hna. unfold failsUnchanged. rewrite Hrun.
    destruct (status e); try congruence; eexists; split; try reflexivity; discriminate.
Qed.

(** The estimate when the payout goes through no provider. *)
Lemma estimateFor_by_hand (args : PayArgs) (e : Expense) (collective host : Collective)
    (w : World) :
  forceManual args = true
  \/ (isBankAccount (payoutMethodTypeOf ext e w) = false
      /\ isPaypal (payoutMethodTypeOf ext e w) = false) ->
  estimateFor ext args e collective host w
  = (Returned (paymentProcessorFeeInCollectiveCurrency args), w).
Proof.
  intros H. unfold estimateFor, estimateProcessorFee.
  destruct H as [H | [Hb Hp]].
  - rewrite H. cbn [negb]. rewrite !andb_false_r. reflexivity.
  - rewrite Hb, Hp. reflexivity.
Qed.

(** X19.  Paying a bank-account expense by hand posts it to the ledger
    with a processor fee of 0, whatever fee the caller gave, and with
    a host fee and a platform fee in host currency that are integers
    within half a unit of the fees given times the rate between the
    collective and its host; the expense is then marked as paid.  The
    fee given by the caller still counts in the check of the balance. *)
Theorem X19_manual_bank_payout_has_no_processor_fee
    (req : Req) (args : PayArgs) (w : World) (e : Expense) (user : User)
    (collective host : Collective) :
  remoteUser req = Some user ->
  canUseFeature ext user = true ->
  Expenses w !! arg_id args = Some e ->
  status e = APPROVED ->
  canPayExpense ext req e w = true ->
  collectiveOf e w = Some collective ->
  isLegacyDonation e = false ->
  getHostCollective ext collective w = Some host ->
  forceManual args = true ->
  payoutMethodTypeOf ext e w = BANK_ACCOUNT ->
  e_amount e <= getBalance ext collective w ->
  let fee := default 0 (paymentProcessorFeeInCollectiveCurrency args) in
  let fxrate := getFxRate ext (c_currency collective) (c_currency host) in
  (e_amount e + fee <= getBalance ext collective w ->
   exists hostFeeInHost platformFeeInHost : Z,
     (Qabs (inject_Z hostFeeInHost
            - fxrate * inject_Z (default 0%Z (hostFeeInCollectiveCurrency args))) <= 1 # 2)%Q
     /\ (Qabs (inject_Z platformFeeInHost
               - fxrate * inject_Z (default 0%Z (platformFeeInCollectiveCurrency args)))
         <= 1 # 2)%Q
     /\ payExpense ext req args w
        = (run createTransactionFromPaidExpense ext host None e None (UserId e)
                 0 hostFeeInHost platformFeeInHost None in
           markExpenseAsPaid ext e collective user) w)
  /\ (getBalance ext collective w < e_amount e + fee ->
      failsUnchanged (payExpense ext req args) w).
Proof.
  intros Hu Hfeat Hfound Hst Hpay Hcol Hleg Hhost Hmanual Htype Hcover fee fxrate.
  pose proof (payExpense_approved ext req args w e user collective
                Hu Hfeat Hfound Hst Hpay Hcol Hleg) as Hrun.
  cbn zeta in Hrun. apply Z.ltb_ge in Hcover.
  rewrite Hcover, Hhost in Hrun.
  rewrite (estimateFor_by_hand args e collective host w (or_introl Hmanual)) in Hrun.
  fold fee fxrate in Hrun.
  split.
  - intros Hfee. apply Z.ltb_ge in Hfee. rewrite Hfee in Hrun.
    exists (roundZ (fxrate * inject_Z (default 0 (hostFeeInCollectiveCurrency args)))),
           (roundZ (fxrate * inject_Z (default 0 (platformFeeInCollectiveCurrency args)))).
    split; [apply roundZ_within_half |]. split; [apply roundZ_within_half |].
    rewrite Hrun, Htype. unfold payOut. rewrite Hmanual.
    unfold createTransactions. cbn [paymentProcessorFee hostFee platformFee].
    unfold bind.
    destruct (createTransactionFromPaidExpense ext host None e None (UserId e) 0 _ _ None w)
      as [[[] | err |] w']; reflexivity.
  - intros Hfee. apply Z.ltb_lt in Hfee. rewrite Hfee in Hrun.
    unfold failsUnchanged. rewrite Hrun. eexists; split; [reflexivity | discriminate].
Qed.

(** X20.  Whatever goes wrong in [payExpenseWithPayPal] is reported as a
    [ValidationFailed] about the PayPal preapproval or as a [BadRequest]
    that carries the message of the failure.  When it is the payment
    itself that fails, nothing is posted to the ledger: the database is as
    the payment provider left it. *)
Theorem X20_paypal_failures
    (user : User) (e : Expense) (collective host : Collective) (method : PaymentMethod)
    (email : option string) (fees : HostFees) (w : World) :
  let limit :=
    "The total amount of all payments exceeds the maximum total amount for all payments" in
  let preapproval :=
    mkExn ValidationFailed
      [Lit "Not enough funds in your existing Paypal preapproval. Please refill your PayPal payment balance."] in
  (forall err w',
     payExpenseWithPayPal ext user e collective host method email fees w = (Thrown err, w') ->
     err = preapproval \/ class err = BadRequest)
  /\ (forall cause w',
        paypalPay ext collective e email (pay_token method) w = (Thrown cause, w') ->
        payExpenseWithPayPal ext user e collective host method email fees w
        = (Thrown (if mentions limit (message cause) then preapproval
                   else mkExn BadRequest (message cause)), w')).
Proof.
  intros limit preapproval. split.
  - intros err w'. unfold payExpenseWithPayPal, try_catch.
    match goal with |- context [match ?c w with _ => _ end] => destruct (c w) as [[r | cause |] w0] end.
    + intros H. discriminate H.
    + fold limit. destruct (mentions limit (message cause)).
      * intros H. injection H as <- _. left. reflexivity.
      * intros H. injection H as <- _. right. reflexivity.
    + intros H. discriminate H.
  - intros cause w' Hfail. unfold payExpenseWithPayPal, try_catch.
    unfold bind at 1. rewrite Hfail. fold limit.
    destruct (mentions limit (message cause)); reflexivity.
Qed.

(** X21.  A payout to the balance of the payee needs the payee to have a
    host, and the same host as the paying collective: otherwise
    [payExpense] fails, although the balance covers the expense, and
    nothing is written. *)
Theorem X21_balance_payout_needs_the_same_host
    (req : Req) (args : PayArgs) (w : World) (e : Expense) (user : User)
    (collective host payee : Collective) :
  remoteUser req = Some user ->
  canUseFeature ext user = true ->
  Expenses w !! arg_id args = Some e ->
  status e = APPROVED ->
  canPayExpense ext req e w = true ->
  collectiveOf e w = Some collective ->
  isLegacyDonation e = false ->
  getHostCollective ext collective w = Some host ->
  payoutMethodTypeOf ext e w = ACCOUNT_BALANCE ->
  fromCollectiveOf e w = Some payee ->
  e_amount e <= getBalance ext collective w ->
  e_amount e + default 0 (paymentProcessorFeeInCollectiveCurrency args)
  <= getBalance ext collective w ->
  (getHostCollective ext payee w = None ->
   payExpense ext req args w
   = (Thrown (mkExn PlainError
        [Lit "The payee needs to have an Host to able to be paid on its Open Collective balance."]),
      w))
  /\ (forall payeeHost,
        getHostCollective ext payee w = Some payeeHost ->
        c_id payeeHost <> c_id host ->
        payExpense ext req args w
        = (Thrown (mkExn PlainError
             [Lit "The payee needs to be on the same Host than the payer to be paid on its Open Collective balance."]),
           w)).
Proof.
  intros Hu Hfeat Hfound Hst Hpay Hcol Hleg Hhost Htype Hpayee Hcover Hfee.
  pose proof (payExpense_approved ext req args w e user collective
                Hu Hfeat Hfound Hst Hpay Hcol Hleg) as Hrun.
  cbn zeta in Hrun. apply Z.ltb_ge in Hcover. apply Z.ltb_ge in Hfee.
  rewrite Hcover, Hhost in Hrun.
  assert (Hnone : forceManual args = true
                  \/ (isBankAccount (payoutMethodTypeOf ext e w) = false
                      /\ isPaypal (payoutMethodTypeOf ext e w) = false)).
  { right. rewrite Htype. split; reflexivity. }
  rewrite (estimateFor_by_hand args e collective host w Hnone), Hfee in Hrun.
  rewrite Htype in Hrun. unfold payOut in Hrun.
  split.
  - intros Hno. rewrite Hrun. unfold bind at 1. rewrite bind_query, Hpayee, bind_query, Hno.
    reflexivity.
  - intros payeeHost Hsome Hdiff. rewrite Hrun.
    unfold bind at 1. rewrite bind_query, Hpayee, bind_query, Hsome.
    apply Z.eqb_neq in Hdiff. rewrite Z.eqb_sym, Hdiff. reflexivity.
Qed.

(** X22.  [markExpenseAsUnpaid] only takes expenses that are PAID: for a
    caller who may mark the expense as unpaid, any other status is
    refused and nothing is written.  For a PAID expense without a ledger
    row, asking for the processor fee to be refunded fails with a
    [TypeError], before any refund is created. *)
Theorem X22_unpaying_needs_a_paid_expense
    (req : Req) (expenseId : Z) (w : World) (e : Expense) (user : User) :
  remoteUser req = Some user ->
  canUseFeature ext user = true ->
  Expenses w !! expenseId = Some e ->
  canMarkAsUnpaid ext req e w = true ->
  (forall refunded,
     status e <> PAID ->
     markExpenseAsUnpaid ext req expenseId refunded w
     = (Thrown (mkExn Unauthorized [Lit "Expense has not been paid yet"]), w))
  /\ (status e = PAID ->
      (forall t, In t (Transactions w) -> ExpenseId t <> Some expenseId) ->
      markExpenseAsUnpaid ext req expenseId true w
      = (Thrown (mkExn TypeError
           [Lit "Cannot read property 'paymentProcessorFeeInHostCurrency' of null"]), w)).
Proof.
  intros Hu Hfeat Hfound Hperm. split.
  - intros refunded Hst. unfold markExpenseAsUnpaid, Expense_findByPk.
    rewrite Hu, Hfeat. cbn [negb]. rewrite bind_query, Hfound, bind_query, Hperm.
    cbn [negb]. rewrite (status_eqb_neq _ _ Hst). reflexivity.
  - intros Hst Hnone. unfold markExpenseAsUnpaid, Expense_findByPk.
    rewrite Hu, Hfeat. cbn [negb]. rewrite bind_query, Hfound, bind_query, Hperm.
    cbn [negb]. rewrite Hst. cbn [status_eqb negb].
    unfold Transaction_findOne. rewrite bind_query.
    assert (Hfind : List.find
                      (fun t => from_option (Z.eqb expenseId) false (ExpenseId t))
                      (Transactions w) = None).
    { revert Hnone. generalize (Transactions w). intros l.
      induction l as [| t l IH]; intros Hnone; [reflexivity |]. cbn [List.find].
      assert (Ht : ExpenseId t <> Some expenseId) by (apply Hnone; left; reflexivity).
      assert (Hl : forall t', In t' l -> ExpenseId t' <> Some expenseId)
        by (intros t' Hin; apply Hnone; right; exact Hin).
      destruct (ExpenseId t) as [z |]; cbn [from_option]; [| exact (IH Hl)].
      destruct (Z.eqb_spec expenseId z); [congruence | exact (IH Hl)]. }
    rewrite Hfind. reflexivity.
Qed.

End DeleteAndPayFacts.

Section EditFacts.
Import Expenses ExpensesMore.

Variable ExpenseItem_findAll : Z -> World -> list ExpenseItem.
Variable diffDBEntries :
  list ExpenseItem -> list ExpenseItem ->
  list ExpenseItem * list ExpenseItem * list ExpenseItem.

Abbreviation itemsChanges := (getItemsChanges ExpenseItem_findAll diffDBEntries).

(** X23.  [getItemsChanges] refuses the legacy [attachment] together
    with items or attachments, and reports no change, without reading the
    stored items, when the edit carries none of the three.  A legacy
    attachment alone stands for one item with that file, whose amount is
    the new amount of the edit or else the stored amount; this item
    passes [checkExpenseItems] against the amount of the expense after
    the edit exactly when that amount is not 0. *)
Theorem X23_items_of_an_edit (expense : Expense) (data : ItemsData) (w : World) :
  (textTruthy (i_attachment data) = true ->
   is_Some (i_items data) \/ is_Some (i_attachments data) ->
   exists err,
     itemsChanges expense data w = (Thrown err, w) /\ class err = ValidationFailed)
  /\ (textTruthy (i_attachment data) = false ->
      i_items data = None -> i_attachments data = None ->
      itemsChanges expense data w = (Returned (false, None, ([], [], [])), w))
  /\ (forall url,
        i_attachment data = Some url -> textTruthy (Some url) = true ->
        i_items data = None -> i_attachments data = None ->
        let item := mkItem (orZ (i_amount data) (e_amount expense)) (Some url) in
        (exists changed diff,
           itemsChanges expense data w = (Returned (changed, Some [item], diff), w))
        /\ (forall d : ExpenseData,
              d_amount d = Some (default (e_amount expense) (i_amount data)) ->
              checkExpenseItems d (Some [item]) = Returned tt
              <-> default (e_amount expense) (i_amount data) <> 0)).
Proof.
  split; [| split].
  - intros Hatt Hitems. unfold getItemsChanges. rewrite Hatt.
    assert (Hsome : bool_decide
                      (is_Some match i_items data with
                               | Some l => Some l
                               | None => i_attachments data
                               end) = true).
    { apply bool_decide_eq_true. destruct (i_items data) as [l |]; [eauto |].
      destruct Hitems as [[x Hx] | H]; [discriminate Hx | exact H]. }
    rewrite Hsome. eexists. split; reflexivity.
  - intros Hatt Hi Ha. unfold getItemsChanges. rewrite Hatt, Hi, Ha. reflexivity.
  - intros url Hurl Htruthy Hi Ha item. split.
    + unfold getItemsChanges. rewrite Hi, Ha, Hurl, Htruthy. cbn [andb].
      assert (Hnone : bool_decide (is_Some (@None (list ExpenseItem))) = false).
      { apply bool_decide_eq_false. intros [x Hx]. discriminate Hx. }
      rewrite Hnone. rewrite bind_query. fold item.
      destruct (diffDBEntries _ _) as [[created removed] updated] eqn:Hdiff.
      eexists _, _. unfold ret. reflexivity.
    + intros d Hd.
      assert (Hfile : hasUrl item = true).
      { unfold hasUrl. cbn [item item_url]. destruct url; [discriminate Htruthy | reflexivity]. }
      assert (Hcheck : forall m : Z,
        d_amount d = Some m ->
        checkExpenseItems d (Some [item]) = Returned tt
        <-> item_amount item = m /\ m <> 0).
      { intros m Hm. unfold checkExpenseItems.
        change (Z.ltb 100 (Z.of_nat (length [item]))) with false. cbv iota.
        rewrite getTotalAmountFromItems_sum, Hm.
        change (fold_right Z.add 0 (map item_amount [item])) with (item_amount item + 0).
        rewrite Z.add_0_r. cbn [from_option existsb]. rewrite Hfile.
        cbn [negb orb]. rewrite andb_false_r.
        destruct (Z.eqb_spec (item_amount item) m) as [E | E]; cbn [negb].
        - destruct (Z.eqb_spec (item_amount item) 0) as [E0 | E0].
          + split; [discriminate | intros [_ H]; congruence].
          + split; [intros _; split; congruence | reflexivity].
        - split; [discriminate | intros [H _]; contradiction]. }
      rewrite (Hcheck _ Hd). cbn [item item_amount].
      destruct (i_amount data) as [a |]; cbv [default from_option id orZ].
      * destruct (Z.eqb_spec a 0) as [-> | Hnz]; [| tauto].
        split; [intros [_ H] | intros H]; exfalso; apply H; reflexivity.
      * tauto.
Qed.

Variable PayoutMethod_findByPk : Z -> World -> option PayoutMethod.
Variable CollectiveIdOf : PayoutMethod -> Z.
Variable PayoutMethod_paypalOf : Z -> World -> list PayoutMethod.
Variable getOrCreateFromData :
  PayoutMethodData -> User -> Collective -> M World PayoutMethod.
Variable isAdmin : User -> Z -> bool.

Abbreviation payoutMethodOf :=
  (getPayoutMethodFromExpenseData PayoutMethod_findByPk CollectiveIdOf
     PayoutMethod_paypalOf getOrCreateFromData isAdmin).

(** X24.  A payout method that is named by its id is only ever returned
    when it exists, the caller is an admin of the collective that owns
    it, and that collective is the payee; in every other case the call
    fails, and in all cases it writes nothing.  Without a payout method
    the result is [null], unless the legacy method is PayPal: then,
    without a PayPal address in the data, the payee's single PayPal
    payout method is returned, and the call fails when the payee has none
    or more than one. *)
Theorem X24_payout_method_of_an_expense
    (data : PayoutData) (user : User) (fromCollective : Collective) (w : World) :
  (forall input pk,
     d_PayoutMethod data = Some input -> in_id input = Some pk -> pk <> 0 ->
     exists o,
       payoutMethodOf data user fromCollective w = (o, w)
       /\ o <> NonFinite
       /\ (forall r, o = Returned r ->
           exists pm,
             r = Some pm
             /\ PayoutMethod_findByPk pk w = Some pm
             /\ isAdmin user (CollectiveIdOf pm) = true
             /\ CollectiveIdOf pm = c_id fromCollective)
       /\ (forall pm,
             PayoutMethod_findByPk pk w = Some pm ->
             isAdmin user (CollectiveIdOf pm) = true ->
             CollectiveIdOf pm = c_id fromCollective ->
             o = Returned (Some pm)))
  /\ (d_PayoutMethod data = None ->
      from_option (String.eqb "paypal") false (d_payoutMethod data) = false ->
      payoutMethodOf data user fromCollective w = (Returned None, w))
  /\ (d_PayoutMethod data = None ->
      d_payoutMethod data = Some "paypal" ->
      textTruthy (d_paypalEmail data) = false ->
      match PayoutMethod_paypalOf (c_id fromCollective) w with
      | [pm] => payoutMethodOf data user fromCollective w = (Returned (Some pm), w)
      | _ =>
          exists err,
            payoutMethodOf data user fromCollective w = (Thrown err, w)
            /\ class err = ValidationFailed
      end).
Proof.
  split; [| split].
  - intros input pk Hin Hpk Hnz. unfold getPayoutMethodFromExpenseData.
    rewrite Hin, Hpk. apply Z.eqb_neq in Hnz. rewrite Hnz, bind_query.
    destruct (PayoutMethod_findByPk pk w) as [pm |].
    + destruct (isAdmin user (CollectiveIdOf pm)) eqn:Hadmin; cbn [negb].
      * destruct (Z.eqb_spec (CollectiveIdOf pm) (c_id fromCollective)) as [Heq | Hne];
          cbn [negb].
        -- eexists. split; [reflexivity |]. split; [discriminate |]. split.
           ++ intros r Hr. injection Hr as <-. exists pm. repeat split; assumption.
           ++ intros pm' Hpm' _ _. injection Hpm' as <-. reflexivity.
        -- eexists. split; [reflexivity |]. split; [discriminate |]. split.
           ++ intros r Hr. discriminate Hr.
           ++ intros pm' Hpm' _ Hown. injection Hpm' as <-. contradiction.
      * eexists. split; [reflexivity |]. split; [discriminate |]. split.
        -- intros r Hr. discriminate Hr.
        -- intros pm' Hpm' Hadm _. injection Hpm' as <-. congruence.
    + eexists. split; [reflexivity |]. split; [discriminate |]. split.
      * intros r Hr. discriminate Hr.
      * intros pm' Hpm'. discriminate Hpm'.
  - intros Hnone Hlegacy. unfold getPayoutMethodFromExpenseData.
    rewrite Hnone, Hlegacy. reflexivity.
  - intros Hnone Hlegacy Hemail. unfold getPayoutMethodFromExpenseData.
    rewrite Hnone, Hlegacy. cbn [from_option String.eqb Ascii.eqb Bool.eqb].
    assert (Hrun : forall k : M World (option PayoutMethod),
      match d_paypalEmail data with
      | Some (String c rest as email) =>
          (let* pm := getOrCreateFromData (PaypalEmail email) user fromCollective in
           ret (Some pm))
      | _ => k
      end = k).
    { intros k. destruct (d_paypalEmail data) as [[| c rest] |];
        [reflexivity | discriminate Hemail | reflexivity]. }
    rewrite Hrun, bind_query.
    destruct (PayoutMethod_paypalOf (c_id fromCollective) w) as [| pm [| pm' l]].
    + eexists. split; reflexivity.
    + reflexivity.
    + eexists. split; reflexivity.
Qed.

End EditFacts.

(** * Properties of the API inputs and of the collective settings *)

Section TierFacts.
Import ExpensesMore Inputs.

Variable Tier : Type.
Variable idDecode : string -> string -> Outcome Z.
Variable Tier_findByPk : Z -> World -> Outcome (option Tier).

Abbreviation fetchTier := (fetchTierWithReference Tier idDecode Tier_findByPk).

(** X25.  [fetchTierWithReference] only reads.  A reference must give an
    id or a legacy id: with an empty or missing id and a legacy id that
    is missing or 0 it fails asking for an id.  An id has precedence
    over the legacy id, which is only used when there is no id.  When
    the lookup finds no tier the call fails with [NotFound]. *)
Theorem X25_tier_reference
    (input : TierReferenceInput) (loaders : option (Z -> World -> Outcome (option Tier)))
    (w : World) :
  let load := default Tier_findByPk loaders in
  (exists o, fetchTier input loaders w = (o, w))
  /\ (textTruthy (tier_id input) = false ->
      tier_legacyId input = None \/ tier_legacyId input = Some 0 ->
      fetchTier input loaders w = (Thrown (mkExn PlainError [Lit "Please provide an id"]), w))
  /\ (forall text key tier,
        tier_id input = Some text -> textTruthy (Some text) = true ->
        idDecode text "tier" = Returned key ->
        (load key w = Returned (Some tier) ->
         fetchTier input loaders w = (Returned tier, w))
        /\ (load key w = Returned None ->
            fetchTier input loaders w
            = (Thrown (mkExn NotFound [Lit "Payment Method Not Found"]), w)))
  /\ (forall legacy tier,
        textTruthy (tier_id input) = false ->
        tier_legacyId input = Some legacy -> legacy <> 0 ->
        (load legacy w = Returned (Some tier) ->
         fetchTier input loaders w = (Returned tier, w))
        /\ (load legacy w = Returned None ->
            fetchTier input loaders w
            = (Thrown (mkExn NotFound [Lit "Payment Method Not Found"]), w))).
Proof.
  intros load.
  assert (Hload : forall key (k : option Tier -> M World Tier),
    (let* tier := match loaders with
                  | Some l => query (l key)
                  | None => query (Tier_findByPk key)
                  end in k tier) w
    = match load key w with
      | Returned tier => k tier w
      | Thrown err => (Thrown err, w)
      | NonFinite => (NonFinite, w)
      end).
  { intros key k. unfold load, bind, query. destruct loaders as [l |]; reflexivity. }
  split; [| split; [| split]].
  - unfold fetchTierWithReference.
    destruct (textTruthy (tier_id input)).
    + unfold bind at 1. unfold bind at 1. unfold query at 1.
      destruct (idDecode _ _) as [key | err |]; try (eexists; reflexivity).
      destruct loaders as [l |]; unfold query.
      * destruct (l key w) as [[tier |] | err |]; eexists; reflexivity.
      * destruct (Tier_findByPk key w) as [[tier |] | err |]; eexists; reflexivity.
    + destruct (tier_legacyId input) as [legacy |]; [| eexists; reflexivity].
      destruct (Z.eqb legacy 0); [eexists; reflexivity |].
      rewrite Hload. destruct (load legacy w) as [[tier |] | err |]; eexists; reflexivity.
  - intros Hid Hlegacy. unfold fetchTierWithReference. rewrite Hid.
    destruct Hlegacy as [-> | ->]; reflexivity.
  - intros text key tier Hid Htruthy Hdecode. unfold fetchTierWithReference.
    rewrite Hid, Htruthy. change (default "" (Some text)) with text.
    split; intros Hfound; unfold bind, query; rewrite Hdecode; unfold load in Hfound;
      (destruct loaders as [l |]; unfold query;
       [change (default Tier_findByPk (Some l)) with l in Hfound
       | change (default Tier_findByPk None) with Tier_findByPk in Hfound]);
      cbv beta iota; rewrite Hfound; reflexivity.
  - intros legacy tier Hid Hlegacy Hnz. unfold fetchTierWithReference.
    rewrite Hid, Hlegacy. apply Z.eqb_neq in Hnz. rewrite Hnz, Hload.
    split; intros Hfound; rewrite Hfound; reflexivity.
Qed.

End TierFacts.

Section WhitelistFacts.
Import CollectiveLib.

Lemma getField_setField (key : string) (value : JsValue) (fields : list (string * JsValue)) :
  getField key (setField key value fields) = value.
Proof.
  unfold getField. induction fields as [| p rest IH]; cbn.
  - rewrite String.eqb_refl. reflexivity.
  - destruct (String.eqb key (fst p)) eqn:E; cbn.
    + rewrite String.eqb_refl. reflexivity.
    + rewrite E. exact IH.
Qed.

Lemma getField_setField_other (key other : string) (value : JsValue)
    (fields : list (string * JsValue)) :
  other <> key ->
  getField other (setField key value fields) = getField other fields.
Proof.
  intros Hne. apply String.eqb_neq in Hne.
  unfold getField. induction fields as [| p rest IH]; cbn.
  - rewrite Hne. reflexivity.
  - destruct (String.eqb key (fst p)) eqn:E; cbn.
    + apply String.eqb_eq in E. rewrite <- E, Hne. reflexivity.
    + destruct (String.eqb other (fst p)); [reflexivity | exact IH].
Qed.

Lemma getField_missing (key : string) (fields : list (string * JsValue)) :
  hasField key fields = false -> getField key fields = JUndefined.
Proof.
  unfold getField, hasField. induction fields as [| p rest IH]; cbn; [reflexivity |].
  destruct (String.eqb key (fst p)); cbn; [discriminate | exact IH].
Qed.

Lemma keys_setField (key : string) (value : JsValue) (fields : list (string * JsValue)) :
  hasField key fields = true ->
  map fst (setField key value fields) = map fst fields.
Proof.
  unfold hasField. induction fields as [| p rest IH]; cbn; [discriminate |].
  destruct (String.eqb key (fst p)) eqn:E; cbn.
  - intros _. apply String.eqb_eq in E. rewrite E. reflexivity.
  - intros H. rewrite (IH H). reflexivity.
Qed.

Lemma truthy_hasField (key : string) (fields : list (string * JsValue)) :
  truthy (getField key fields) = true -> hasField key fields = true.
Proof.
  intros H. destruct (hasField key fields) eqn:E; [reflexivity |].
  rewrite (getField_missing _ _ E) in H. discriminate.
Qed.

Lemma pick_number_type (v : JsValue) :
  pick v ["number"; "type"]%string
  = match v with
    | JObject fields =>
        (if hasField "number" fields then [("number"%string, getField "number" fields)] else [])
        ++ (if hasField "type" fields then [("type"%string, getField "type" fields)] else [])
    | _ => []
    end.
Proof.
  destruct v; try reflexivity. cbn [pick flat_map]. rewrite app_nil_r. reflexivity.
Qed.

Lemma property_of_picked (key : string) (v : JsValue) :
  key = "number"%string \/ key = "type"%string ->
  property key (JObject (pick v ["number"; "type"]%string))
  = if isObjectType v then property key v else JUndefined.
Proof.
  intros Hkey. rewrite pick_number_type.
  destruct v as [| | b | q | s | l | fields]; try reflexivity.
  cbn [property isObjectType].
  destruct (hasField "number" fields) eqn:En, (hasField "type" fields) eqn:Et;
    destruct Hkey as [-> | ->]; cbn;
    rewrite ?(getField_missing _ _ En), ?(getField_missing _ _ Et); reflexivity.
Qed.

Lemma pick_idempotent (v : JsValue) :
  pick (JObject (pick v ["number"; "type"]%string)) ["number"; "type"]%string
  = pick v ["number"; "type"]%string.
Proof.
  rewrite (pick_number_type v).
  destruct v as [| | b | q | s | l | fields]; try reflexivity.
  destruct (hasField "number" fields), (hasField "type" fields); reflexivity.
Qed.

(** X26.  [whitelistSettings] returns [null] for no settings and
    otherwise an object with the same keys in the same order, unknown
    keys included: those are only reported.  Every value but the one of
    [VAT] is kept.  A truthy [VAT] is replaced by an object that has at
    most the keys [number] and [type], each with the value it had; a
    falsy [VAT] leaves the settings as they are. *)
Theorem X26_whitelist_keeps_all_but_vat (settings : list (string * JsValue)) :
  whitelistSettings None = (None, [])
  /\ exists prepared,
      whitelistSettings (Some settings)
      = (Some prepared,
         filter (fun key => negb (includes COLLECTIVE_SETTINGS_KEYS_LIST key))
           (map fst settings))
      /\ map fst prepared = map fst settings
      /\ (forall key, key <> "VAT"%string -> getField key prepared = getField key settings)
      /\ (truthy (getField "VAT" settings) = false -> prepared = settings)
      /\ (truthy (getField "VAT" settings) = true ->
          exists picked,
            getField "VAT" prepared = JObject picked
            /\ (forall key value, In (key, value) picked ->
                  (key = "number"%string \/ key = "type"%string)
                  /\ property key (getField "VAT" settings) = value)
            /\ (forall key, key = "number"%string \/ key = "type"%string ->
                  getField key picked = property key (getField "VAT" settings))).
Proof.
  split; [reflexivity |].
  unfold whitelistSettings.
  destruct (truthy (getField "VAT" settings)) eqn:Hvat.
  - eexists. split; [reflexivity |].
    split; [apply keys_setField, truthy_hasField, Hvat |].
    split; [intros key Hne; apply getField_setField_other, Hne |].
    split; [discriminate |].
    intros _. eexists. split; [apply getField_setField |].
    split.
    + intros key value. rewrite pick_number_type.
      destruct (getField "VAT" settings) as [| | b | q | s | l | fields];
        try (intros []).
      cbn [property].
      destruct (hasField "number" fields), (hasField "type" fields); cbn;
        intuition (try match goal with H : (_, _) = (_, _) |- _ => inversion H; subst end;
                   auto).
    + intros key Hkey.
      change (getField key ?fields) with (property key (JObject fields)).
      rewrite (property_of_picked key _ Hkey).
      destruct (getField "VAT" settings); reflexivity.
  - exists settings. split; [reflexivity |]. split; [reflexivity |].
    split; [reflexivity |]. split; [reflexivity | discriminate].
Qed.

(** X27.  Whitelisting settings twice gives the same settings as
    whitelisting them once. *)
Theorem X27_whitelist_idempotent (settings : option (list (string * JsValue))) :
  fst (whitelistSettings (fst (whitelistSettings settings)))
  = fst (whitelistSettings settings).
Proof.
  destruct settings as [settings |]; [| reflexivity].
  unfold whitelistSettings. cbn [fst].
  destruct (truthy (getField "VAT" settings)) eqn:Hvat; cbn [fst].
  - rewrite getField_setField. cbn [truthy]. rewrite pick_idempotent.
    f_equal. generalize (JObject (pick (getField "VAT" settings) ["number"; "type"]%string)).
    intros v. clear Hvat. induction settings as [| p rest IH]; [reflexivity |].
    cbn [setField]. destruct (String.eqb "VAT" (fst p)) eqn:E; cbn [setField fst].
    + reflexivity.
    + rewrite E, IH. reflexivity.
  - rewrite Hvat. reflexivity.
Qed.

End WhitelistFacts.

Section ValidationFacts.
Import CollectiveLib.

Variable checkVATNumberFormat : JsValue -> bool.
Variable VAT_HOST VAT_OWN : string.

Abbreviation validate := (validateSettings checkVATNumberFormat VAT_HOST VAT_OWN).

(** X28.  Validation of whitelisted settings gives the verdict of the
    settings themselves, with one exception: a truthy [VAT] that is not
    an object (a number, a text, [true]) is refused as it is, but is
    accepted once whitelisted, which replaces it by the empty object. *)
Theorem X28_validation_of_whitelisted_settings (settings : option (list (string * JsValue))) :
  validate (fst (whitelistSettings settings))
  = match settings with
    | Some fields =>
        if truthy (getField "VAT" fields) && negb (isObjectType (getField "VAT" fields))
        then None
        else validate settings
    | None => None
    end.
Proof.
  destruct settings as [settings |]; [| reflexivity].
  unfold whitelistSettings, validateSettings. cbn [fst].
  destruct (truthy (getField "VAT" settings)) eqn:Hvat; cbn [andb].
  - rewrite getField_setField. cbn [truthy isObjectType negb].
    rewrite !property_of_picked by (auto).
    destruct (isObjectType (getField "VAT" settings)) eqn:Hobj; cbn [negb]; reflexivity.
  - rewrite Hvat. reflexivity.
Qed.

End ValidationFacts.
(** * The further properties on the sample data *)

Section LedgerMoreExamples.
Import TransactionModel TransactionMore Fixtures MoreFixtures.
Local Open Scope Q_scope.

Lemma X1_double_entry_pair_witness :
  exists first second primary w',
    createDoubleEntry sameCurrency (intent (2500 # 1) "USD" 1 2) world
      = (Returned primary, w')
    /\ Transactions w' = Transactions world ++ [first; second]
    /\ Collectives w' = Collectives world
    /\ Expenses w' = Expenses world
    /\ TransactionGroup first = TransactionGroup second
    /\ CollectiveId first = FromCollectiveId second
    /\ FromCollectiveId first = CollectiveId second
    /\ paymentProcessorFeeInHostCurrency second = None.
Proof.
  destruct (X1_double_entry_pair sameCurrency (intent (2500 # 1) "USD" 1 2) world 1%Z U1
              eq_refl eq_refl)
    as (first & second & primary & w' & Hrun & Htx & Hcs & Hes & Hg & _ & Hc & Hf
        & _ & _ & _ & _ & _ & Hfee).
  exists first, second, primary, w'.
  split; [exact Hrun |]. split; [exact Htx |]. split; [exact Hcs |]. split; [exact Hes |].
  split; [exact Hg |]. split; [exact Hc |]. split; [exact Hf | exact Hfee].
Defined.

Lemma X2_active_opposite_witness :
  exists primary opposite w' net,
    createDoubleEntry yenToDollar smallYenDebit world = (Returned primary, w')
    /\ currency opposite = "USD"%string
    /\ HostCollectiveId opposite = Some 10%Z
    /\ (data opposite ≫= oppositeTransactionCurrencyFxRate) = Some (7 # 1000)
    /\ netAmountInCollectiveCurrency primary = Some net
    /\ Qabs (amount opposite + net * (7 # 1000)) <= 1 # 2.
Proof.
  destruct (X2_active_opposite_balances yenToDollar smallYenDebit world 1%Z U1
              eq_refl eq_refl eq_refl)
    as (primary & opposite & w' & net & oppositeNet
        & Hrun & _ & Hc & Hh & Hd & Hn & _ & Hb & _).
  exists primary, opposite, w', net.
  split; [exact Hrun |]. split; [exact Hc |]. split; [exact Hh |]. split; [exact Hd |].
  split; [exact Hn | exact Hb].
Defined.

Lemma X3_missing_from_collective_witness :
  exists w',
    createDoubleEntry sameCurrency (intent (2500 # 1) "USD" 99 2) world
    = (Thrown (mkExn TypeError [Lit "Cannot read property 'isActive' of null"]), w')
    /\ Transactions w' = Transactions world
    /\ Collectives w' = Collectives world
    /\ Expenses w' = Expenses world.
Proof.
  apply (X3_missing_from_collective sameCurrency (intent (2500 # 1) "USD" 99 2) world).
  reflexivity.
Defined.

Lemma X4_amount_in_host_currency_witness :
  exists primary opposite w',
    createDoubleEntry sameCurrency untipped world = (Returned primary, w')
    /\ amountInHostCurrency primary = Some (JS.Math_round (10000 # 1))
    /\ exists z : Z,
         amountInHostCurrency opposite = Some (inject_Z z)
         /\ Qabs (inject_Z z + (10000 # 1) * 1) <= 1 # 2.
Proof.
  destruct (X4_amount_in_host_currency_is_integer sameCurrency untipped world 1%Z U1
              eq_refl eq_refl)
    as (primary & opposite & w' & Hrun & _ & Hp & _ & Ho).
  exists primary, opposite, w'.
  split; [exact Hrun |]. split; [exact Hp | exact Ho].
Defined.

Lemma X5_split_main_entry_witness :
  exists main w' (rounded : Z),
    createFeesOnTopTransaction realToDollar toNegative platform (tipped "BRL" (-1001 # 1)) world
      = (Returned (Some main), w')
    /\ Qabs (inject_Z rounded - (-300 # 1) * JS.Math_abs ((-1001 # 1) / (10000 # 1))) <= 1 # 2
    /\ amountInHostCurrency main = Some ((10000 # 1) + (-1001 # 1))
    /\ platformFeeInHostCurrency main = Some 0
    /\ paymentProcessorFeeInHostCurrency main
       = Some ((-300 # 1) - toNegative (inject_Z rounded))
    /\ hostFeeInHostCurrency main = Some 0.
Proof.
  assert (Hflag : flagged (tipped "BRL" (-1001 # 1))).
  { exists (mkData true None None). split; reflexivity. }
  assert (Hf : ~ (-1001 # 1) == 0) by (intros H; discriminate H).
  assert (Ha : ~ (10000 # 1) == 0) by (intros H; discriminate H).
  destruct (X5_split_main_entry_in_host_currency realToDollar toNegative platform
              (tipped "BRL" (-1001 # 1)) world (-1001 # 1) (10000 # 1) (-300 # 1) 0 1%Z U1
              Hflag eq_refl Hf eq_refl Ha eq_refl eq_refl eq_refl eq_refl)
    as (main & w' & before & after & rounded & Hrun & Hnear & Haih & Hpf & Hppf & Hhf & _).
  exists main, w', rounded.
  split; [exact Hrun |]. split; [exact Hnear |]. split; [exact Haih |].
  split; [exact Hpf |]. split; [exact Hppf | exact Hhf].
Defined.

Lemma X6_payload_rejected_witness :
  createFromPayload sameCurrency toNegative platform isHost hostIdOf
    (payload 1 2 (intent 0 "USD" 1 2)) world
  = (Thrown (mkExn PlainError [Lit "transaction.amount cannot be null or zero"]), world)
  /\ createFromPayload sameCurrency toNegative platform isHost hostIdOf
       (payload 1 3 (intent (2500 # 1) "USD" 1 3)) world
     = (Thrown (mkExn PlainError
          [Lit "Cannot create a transaction: collective id ";
           Interp (Some 3%Z);
           Lit " doesn't have a host"]), world).
Proof.
  split.
  - apply (proj1 (X6_payload_rejected_before_any_write sameCurrency toNegative platform
                    isHost hostIdOf (payload 1 2 (intent 0 "USD" 1 2)) world)).
    reflexivity.
  - apply (proj2 (X6_payload_rejected_before_any_write sameCurrency toNegative platform
                    isHost hostIdOf (payload 1 3 (intent (2500 # 1) "USD" 1 3)) world) U3);
      try reflexivity.
    intros H. discriminate H.
Defined.

Lemma X7_contribution_net_amount_witness :
  exists primary opposite w' (rounded : Z),
    createFromPayload sameCurrency toNegative platform isHost hostIdOf
      (payload 1 2 ratedContribution) world
    = (Returned primary, w')
    /\ Qabs (inject_Z rounded
             - ((10000 # 1)
                + (0 + toNegative (1000 # 1) + toNegative 0 + toNegative (-300 # 1))) / 1)
       <= 1 # 2
    /\ Transactions w' = Transactions world ++ [opposite; primary]
    /\ type primary = Some CREDIT
    /\ platformFeeInHostCurrency primary = Some (toNegative (1000 # 1))
    /\ (rounded <> 0%Z -> netAmountInCollectiveCurrency primary = Some (inject_Z rounded)).
Proof.
  assert (Hr : ~ 1 == 0) by (intros H; discriminate H).
  destruct (X7_contribution_net_amount sameCurrency toNegative platform isHost hostIdOf
              (payload 1 2 ratedContribution) world C1 U1 1%Z
              (10000 # 1) (1000 # 1) 0 (-300 # 1) 1
              eq_refl eq_refl eq_refl eq_refl eq_refl eq_refl eq_refl eq_refl eq_refl
              eq_refl eq_refl Hr)
    as (primary & opposite & w' & rounded & Hrun & Hnear & Htx & Hty & _ & _ & _ & Hpf
        & _ & _ & Hnet & _).
  exists primary, opposite, w', rounded.
  split; [exact Hrun |]. split; [exact Hnear |]. split; [exact Htx |].
  split; [exact Hty |]. split; [exact Hpf | exact Hnet].
Defined.

Lemma X8_zero_fee_on_top_witness :
  exists primary first second w',
    createFromPayload sameCurrency toNegative platform isHost hostIdOf
      (payload 1 2 (tipped "USD" 0)) world
    = (Returned primary, w')
    /\ Transactions w' = Transactions world ++ [first; second]
    /\ (primary = first \/ primary = second)
    /\ CollectiveId primary = Some 2%Z
    /\ FromCollectiveId primary = Some 1%Z.
Proof.
  assert (Hflag : flagged (tipped "USD" 0)).
  { exists (mkData true None None). split; reflexivity. }
  assert (Hnz : ~ (10000 # 1) == 0) by (intros H; discriminate H).
  destruct (X8_zero_fee_on_top_is_not_split sameCurrency toNegative platform isHost hostIdOf
              (payload 1 2 (tipped "USD" 0)) world C1 U1 1%Z
              Hflag eq_refl Hnz eq_refl eq_refl eq_refl eq_refl)
    as (primary & first & second & w' & Hrun & Htx & Hp & Hc & Hf & _).
  exists primary, first, second, w'.
  split; [exact Hrun |]. split; [exact Htx |]. split; [exact Hp |].
  split; [exact Hc | exact Hf].
Defined.

Lemma X10_export_columns_witness :
  length (csvAttributes euroRow) = 16%nat
  /\ nth_error (csvAttributes euroRow) 5 = Some "taxAmount"%string
  /\ csvAttributes untipped = attributes
  /\ processValue sameCell sameCell sameCell noNumber "amount" (CellNumber (2500 # 1))
     = CellNumber ((2500 # 1) / 100).
Proof.
  destruct (X10_export_columns noCsv sameCell sameCell sameCell noNumber)
    as (_ & _ & Heur & Hother & Hcents & _).
  destruct (Heur euroRow eq_refl) as (Hlen & _ & Htax & _).
  assert (Hno : hostCurrency untipped <> Some "EUR"%string) by discriminate.
  destruct (Hother untipped Hno) as (Hattrs & _).
  split; [exact Hlen |]. split; [exact Htax |]. split; [exact Hattrs |].
  apply Hcents. left. reflexivity.
Defined.

End LedgerMoreExamples.
Section ExpenseMoreExamples.
Import Expenses ExpensesMore Fixtures MoreFixtures.

Lemma X12_item_bounds_witness :
  checkExpenseItems invoiceOf5000 (Some (repeat (mkItem 50 None) 101))
  = Thrown (mkExn ValidationFailed [Lit "Expenses cannot have more than 100 items"])
  /\ checkExpenseItems (mkExpenseData (Some 0) (Some INVOICE)) (Some (items [700; -700]))
     = Thrown (mkExn ValidationFailed [Lit "The sum of all items must be above 0"]).
Proof.
  split.
  - apply (proj1 (proj2 (proj2 (X12_item_bounds invoiceOf5000)))).
    rewrite repeat_length. lia.
  - apply (proj2 (proj2 (proj2 (X12_item_bounds (mkExpenseData (Some 0) (Some INVOICE))))));
      [discriminate | cbn; lia | reflexivity | reflexivity].
Defined.

Lemma X14_status_change_witness :
  updateExpenseStatus services asAdmin 7 "PAID" world = (Returned (expense 7 PAID 10000), world)
  /\ updateExpenseStatus services asAdmin 7 "APPROVED" world
     = (Thrown (mkExn Unauthorized
          [Lit "You can't approve an expense that is already paid"]), world)
  /\ updateExpenseStatus services asAdmin 8 "PAID" world
     = (Thrown (mkExn Unauthorized
          [Lit "The expense must be approved before you can set it to paid"]), world).
Proof.
  assert (Hpaid : status (expense 7 PAID 10000) <> PROCESSING) by discriminate.
  assert (Hpending : status (expense 8 PENDING 10000) <> PROCESSING) by discriminate.
  split; [| split].
  - apply (proj1 (X14_redundant_or_refused_status_change services asAdmin 7 PAID world
                    (expense 7 PAID 10000) admin eq_refl eq_refl eq_refl Hpaid eq_refl)).
    reflexivity.
  - apply (proj1 (proj2 (X14_redundant_or_refused_status_change services asAdmin 7 APPROVED
                           world (expense 7 PAID 10000) admin
                           eq_refl eq_refl eq_refl Hpaid eq_refl)));
      [discriminate | reflexivity].
  - apply (proj1 (proj2 (X14_redundant_or_refused_status_change services asAdmin 8 PAID
                           world (expense 8 PENDING 10000) admin
                           eq_refl eq_refl eq_refl Hpending eq_refl)));
      [discriminate | reflexivity].
Defined.

Lemma X15_status_change_stored_witness :
  exists updated w',
    updateExpenseStatus services asAdmin 8 "APPROVED" world = (Returned updated, w')
    /\ Expenses w' !! 8 = Some updated
    /\ status updated = APPROVED
    /\ lastEditedById updated = Some 1
    /\ e_amount updated = 10000
    /\ Expenses w' !! 9 = Expenses world !! 9
    /\ Transactions w' = Transactions world.
Proof.
  assert (Hnotes : activitiesAreSideNotes (createActivity services)).
  { intros e activity user w. exists w. repeat split. }
  assert (Hdiff : status (expense 8 PENDING 10000) <> APPROVED) by discriminate.
  destruct (X15_accepted_status_change_is_stored services asAdmin 8 APPROVED world
              (expense 8 PENDING 10000) admin
              Hnotes eq_refl eq_refl eq_refl eq_refl eq_refl Hdiff eq_refl)
    as (updated & w' & Hrun & Hfound & Hst & Hed & Ham & Hothers & Htx).
  exists updated, w'.
  split; [exact Hrun |]. split; [exact Hfound |]. split; [exact Hst |].
  split; [exact Hed |]. split; [exact Ham |]. split; [| exact Htx].
  apply Hothers. discriminate.
Defined.

Lemma X16_paid_only_after_approval_witness :
  updateExpenseStatus services asAdmin 8 "PAID" world
  = (Thrown (mkExn Unauthorized
       [Lit "The expense must be approved before you can set it to paid"]), world)
  /\ exists approved w1 paid w2,
       updateExpenseStatus services asAdmin 8 "APPROVED" world = (Returned approved, w1)
       /\ updateExpenseStatus services asAdmin 8 "PAID" w1 = (Returned paid, w2)
       /\ Expenses w2 !! 8 = Some paid
       /\ status paid = PAID
       /\ Transactions w2 = Transactions world.
Proof.
  assert (Hnotes : activitiesAreSideNotes (createActivity services)).
  { intros e activity user w. exists w. repeat split. }
  apply (X16_paid_only_after_approval services asAdmin 8 world (expense 8 PENDING 10000)
           admin Hnotes); try reflexivity.
Defined.

Lemma X17_delete_expense_witness :
  exists w',
    deleteExpense services adminDeletes asAdmin 8 world = (Returned (expense 8 PENDING 10000), w')
    /\ Expenses w' !! 8 = None
    /\ Transactions w' = Transactions world
    /\ deleteExpense services adminDeletes asAdmin 8 w'
       = (Thrown (mkExn NotFound [Lit "Expense not found"]), w')
    /\ payExpense services asAdmin (payByHand 8 None) w'
       = (Thrown (mkExn Unauthorized [Lit "Expense not found"]), w').
Proof.
  destruct (proj2 (X17_delete_expense services adminDeletes asAdmin 8 world)
              admin (expense 8 PENDING 10000) eq_refl eq_refl eq_refl eq_refl eq_refl)
    as (w' & Hrun & _ & Hgone & Htx & Hagain & Hpay & _).
  exists w'.
  split; [exact Hrun |]. split; [exact Hgone |]. split; [exact Htx |].
  split; [exact Hagain |]. apply Hpay. reflexivity.
Defined.

Lemma X18_only_approved_expenses_witness :
  payExpense services asAdmin (payByHand 11 None) world
  = (Thrown (mkExn Unauthorized
       [Lit "Expense is currently being processed, this means someone already started the payment process"]),
     world)
  /\ payExpense services asAdmin (payByHand 8 None) world
     = (Thrown (mkExn Unauthorized
          [Lit "Expense needs to be approved. Current status of the expense: ";
           InterpStatus PENDING; Lit "."]), world).
Proof.
  split.
  - apply (proj1 (X18_only_approved_expenses_are_paid services asAdmin (payByHand 11 None)
                    world (expense 11 PROCESSING 10000) admin eq_refl eq_refl eq_refl)).
    reflexivity.
  - apply (proj1 (proj2 (X18_only_approved_expenses_are_paid services asAdmin
                           (payByHand 8 None) world (expense 8 PENDING 10000) admin
                           eq_refl eq_refl eq_refl))).
    left. reflexivity.
Defined.

Lemma X19_manual_bank_payout_witness :
  let bank := servicesWith BANK_ACCOUNT overTheLimit in
  (exists hostFeeInHost platformFeeInHost : Z,
     (Qabs (inject_Z hostFeeInHost - 1 * inject_Z 100) <= 1 # 2)%Q
     /\ (Qabs (inject_Z platformFeeInHost - 1 * inject_Z 200) <= 1 # 2)%Q
     /\ payExpense bank asAdmin (mkPayArgs 12 true (Some 20) (Some 100) (Some 200)) world
        = (run createTransactionFromPaidExpense bank Host None (expense 12 APPROVED 9950)
                 None 1 0 hostFeeInHost platformFeeInHost None in
           markExpenseAsPaid bank (expense 12 APPROVED 9950) C1 admin) world)
  /\ failsUnchanged
       (payExpense bank asAdmin (mkPayArgs 12 true (Some 50) None None)) world.
Proof.
  intros bank. split.
  - apply (proj1 (X19_manual_bank_payout_has_no_processor_fee bank asAdmin
                    (mkPayArgs 12 true (Some 20) (Some 100) (Some 200)) world
                    (expense 12 APPROVED 9950) admin C1 Host
                    eq_refl eq_refl eq_refl eq_refl eq_refl eq_refl eq_refl eq_refl
                    eq_refl eq_refl ltac:(cbn; lia))).
    cbn. lia.
  - apply (proj2 (X19_manual_bank_payout_has_no_processor_fee bank asAdmin
                    (mkPayArgs 12 true (Some 50) None None) world
                    (expense 12 APPROVED 9950) admin C1 Host
                    eq_refl eq_refl eq_refl eq_refl eq_refl eq_refl eq_refl eq_refl
                    eq_refl eq_refl ltac:(cbn; lia))).
    cbn. lia.
Defined.

Lemma X20_paypal_failures_witness :
  payExpenseWithPayPal (servicesWith PAYPAL overTheLimit) admin (expense 12 APPROVED 9950)
    C1 Host paypalAccount None (mkHostFees 0 0 0) world
  = (Thrown (mkExn ValidationFailed
       [Lit "Not enough funds in your existing Paypal preapproval. Please refill your PayPal payment balance."]),
     world).
Proof.
  apply (proj2 (X20_paypal_failures (servicesWith PAYPAL overTheLimit) admin
                  (expense 12 APPROVED 9950) C1 Host paypalAccount None (mkHostFees 0 0 0)
                  world)
           (mkExn PlainError
              [Lit "The total amount of all payments exceeds the maximum total amount for all payments allowed"])
           world).
  reflexivity.
Defined.

Lemma X21_balance_payout_witness :
  let balance := servicesWith ACCOUNT_BALANCE overTheLimit in
  payExpense balance asAdmin (mkPayArgs 13 false None None None) town
  = (Thrown (mkExn PlainError
       [Lit "The payee needs to have an Host to able to be paid on its Open Collective balance."]),
     town)
  /\ payExpense balance asAdmin (mkPayArgs 14 false None None None) town
     = (Thrown (mkExn PlainError
          [Lit "The payee needs to be on the same Host than the payer to be paid on its Open Collective balance."]),
        town).
Proof.
  intros balance. split.
  - apply (proj1 (X21_balance_payout_needs_the_same_host balance asAdmin
                    (mkPayArgs 13 false None None None) town (approved 13 3) admin C1 Host U3
                    eq_refl eq_refl eq_refl eq_refl eq_refl eq_refl eq_refl eq_refl
                    eq_refl eq_refl ltac:(cbn; lia) ltac:(cbn; lia))).
    reflexivity.
  - apply (proj2 (X21_balance_payout_needs_the_same_host balance asAdmin
                    (mkPayArgs 14 false None None None) town (approved 14 4) admin C1 Host U4
                    eq_refl eq_refl eq_refl eq_refl eq_refl eq_refl eq_refl eq_refl
                    eq_refl eq_refl ltac:(cbn; lia) ltac:(cbn; lia))
             OtherHost); [reflexivity | discriminate].
Defined.

Lemma X22_unpaying_witness :
  markExpenseAsUnpaid services asAdmin 8 true world
  = (Thrown (mkExn Unauthorized [Lit "Expense has not been paid yet"]), world)
  /\ markExpenseAsUnpaid services asAdmin 7 true world
     = (Thrown (mkExn TypeError
          [Lit "Cannot read property 'paymentProcessorFeeInHostCurrency' of null"]), world).
Proof.
  split.
  - apply (proj1 (X22_unpaying_needs_a_paid_expense services asAdmin 8 world
                    (expense 8 PENDING 10000) admin eq_refl eq_refl eq_refl eq_refl)).
    discriminate.
  - apply (proj2 (X22_unpaying_needs_a_paid_expense services asAdmin 7 world
                    (expense 7 PAID 10000) admin eq_refl eq_refl eq_refl eq_refl));
      [reflexivity | intros t []].
Defined.

Lemma X23_items_of_an_edit_witness :
  (exists err,
     getItemsChanges noItems allCreated (expense 9 APPROVED 10000)
       (mkItemsData (Some (items [10000])) None (Some "receipt.pdf") None) world
     = (Thrown err, world)
     /\ class err = ValidationFailed)
  /\ checkExpenseItems (mkExpenseData (Some 10000) None)
       (Some [mkItem 10000 (Some "receipt.pdf")])
     = Returned tt.
Proof.
  split.
  - apply (proj1 (X23_items_of_an_edit noItems allCreated (expense 9 APPROVED 10000)
                    (mkItemsData (Some (items [10000])) None (Some "receipt.pdf") None)
                    world)); [reflexivity |].
    left. eexists. reflexivity.
  - destruct (proj2 (proj2 (X23_items_of_an_edit noItems allCreated
                              (expense 9 APPROVED 10000)
                              (mkItemsData None None (Some "receipt.pdf") None) world))
                "receipt.pdf" eq_refl eq_refl eq_refl eq_refl) as [_ Hcheck].
    apply (Hcheck (mkExpenseData (Some 10000) None) eq_refl). discriminate.
Defined.

Lemma X24_payout_method_witness :
  getPayoutMethodFromExpenseData findPayoutMethod ownerOf paypalMethodsOf neverCreated adminOf
    (mkPayoutData (Some (mkPayoutMethodInput (Some 5))) None None) admin U1 world
  = (Returned (Some paypalOfU1), world)
  /\ getPayoutMethodFromExpenseData findPayoutMethod ownerOf paypalMethodsOf neverCreated adminOf
       (mkPayoutData None (Some "paypal") None) admin U1 world
     = (Returned (Some paypalOfU1), world).
Proof.
  split.
  - destruct (proj1 (X24_payout_method_of_an_expense findPayoutMethod ownerOf paypalMethodsOf
                       neverCreated adminOf
                       (mkPayoutData (Some (mkPayoutMethodInput (Some 5))) None None)
                       admin U1 world)
                (mkPayoutMethodInput (Some 5)) 5 eq_refl eq_refl ltac:(discriminate))
      as (o & Hrun & _ & _ & Hok).
    rewrite Hrun, (Hok paypalOfU1 eq_refl eq_refl eq_refl). reflexivity.
  - apply (proj2 (proj2 (X24_payout_method_of_an_expense findPayoutMethod ownerOf
                           paypalMethodsOf neverCreated adminOf
                           (mkPayoutData None (Some "paypal") None) admin U1 world))
             eq_refl eq_refl eq_refl).
Defined.

End ExpenseMoreExamples.

Section InputExamples.
Import Inputs CollectiveLib Fixtures MoreFixtures.

Lemma X25_tier_reference_witness :
  fetchTierWithReference nat decodeTo3 findTier (mkTierReferenceInput None (Some 0)) None world
  = (Thrown (mkExn PlainError [Lit "Please provide an id"]), world)
  /\ fetchTierWithReference nat decodeTo3 findTier
       (mkTierReferenceInput (Some "abc") (Some 4)) None world
     = (Returned 7%nat, world)
  /\ fetchTierWithReference nat decodeTo3 findTier (mkTierReferenceInput None (Some 4)) None
       world
     = (Thrown (mkExn NotFound [Lit "Payment Method Not Found"]), world).
Proof.
  split; [| split].
  - apply (proj1 (proj2 (X25_tier_reference nat decodeTo3 findTier
                           (mkTierReferenceInput None (Some 0)) None world)));
      [reflexivity | right; reflexivity].
  - apply (proj1 (proj1 (proj2 (proj2 (X25_tier_reference nat decodeTo3 findTier
                                         (mkTierReferenceInput (Some "abc") (Some 4)) None
                                         world)))
                    "abc" 3 7%nat eq_refl eq_refl eq_refl)).
    reflexivity.
  - apply (proj2 (proj2 (proj2 (proj2 (X25_tier_reference nat decodeTo3 findTier
                                         (mkTierReferenceInput None (Some 4)) None world)))
                    4 7%nat eq_refl eq_refl ltac:(discriminate))).
    reflexivity.
Defined.

Lemma X26_whitelist_witness :
  exists prepared picked,
    whitelistSettings (Some vatSettings) = (Some prepared, ["color"])
    /\ map fst prepared = ["VAT"; "color"]
    /\ getField "color" prepared = JString "red"
    /\ getField "VAT" prepared = JObject picked
    /\ getField "number" picked = JString "BE0411905847"
    /\ forall value, ~ In ("extra", value) picked.
Proof.
  destruct (X26_whitelist_keeps_all_but_vat vatSettings)
    as (_ & prepared & Hrun & Hkeys & Hkept & _ & Hvat).
  destruct (Hvat eq_refl) as (picked & Hfound & Honly & Hvalue).
  exists prepared, picked.
  split; [exact Hrun |]. split; [exact Hkeys |].
  split; [apply Hkept; discriminate |]. split; [exact Hfound |].
  split; [apply Hvalue; left; reflexivity |].
  intros value Hin. destruct (Honly _ _ Hin) as [[H | H] _]; discriminate H.
Defined.

End InputExamples.
